(** * BrickLink inventory manager: a shallow embedding of [main.py]

    The development follows the script top-down: the Python values the
    script manipulates, the inventory parser ([parse_xml_inventory]), the
    price client ([BricklinkAPI.get_item_price]), the pricing pipeline
    ([get_prices_for_inventory]) and the two exporters
    ([create_bricklink_upload_xml], [create_simplified_json]).

    Conventions of the embedding:
    - a Python [str] is a [string] that holds the bytes of its UTF-8
      encoding; what the interpreter takes from the Unicode database or
      from its settings ([str.isdigit], [int], [float], [repr]) comes from
      a [PyRuntime];
    - a Python [int] is a [Z] and [str(n)] is [pretty n]: the integers of
      a run are the quantities the parser read with [int], the status
      codes of the service and the counts of the summary, all within the
      limit on the digits of an integer that [int] enforces;
    - a value that may be Python's [None] is an [option];
    - a dict whose keys are fixed by the code is a record, a key that one
      code path sets and another does not is an [option] field;
    - a Python exception is a value of [PyExn], a computation that may raise
      returns a [PyResult];
    - a Python [float] is a binary64 number of the Standard Library's
      [SpecFloat];
    - console output is kept for the parser (whose contract is about what
      is reported to the user) and left out elsewhere, and so is the
      [debug] flag, which only adds console output. *)

From Stdlib Require Import ZArith List Ascii String Bool Lia.
From Stdlib Require Import Floats.SpecFloat.
From stdpp Require Import base decidable option list gmap strings pretty.

Set Warnings "-register-all".
Open Scope Z_scope.

(** ** Python values *)

(** A decoded JSON document ([response.json()]).  Integers and floats are
    kept apart as Python's [json] module does; an object keeps its items
    in an association list, looked up by the first binding of a key. *)
Inductive JSON :=
| JNull
| JBool (b : bool)
| JInt (n : Z)
| JFloat (f : spec_float)
| JStr (s : string)
| JArr (l : list JSON)
| JObj (items : list (string * JSON)).

(** The name of the Python type of a decoded value, as it appears in the
    text of an [AttributeError].  [JNull] is Python's [None]. *)
Definition py_type_name (x : JSON) : string :=
  match x with
  | JNull => "NoneType"
  | JBool _ => "bool"
  | JInt _ => "int"
  | JFloat _ => "float"
  | JStr _ => "str"
  | JArr _ => "list"
  | JObj _ => "dict"
  end.

(** Binary64. *)
Definition prec : Z := 53.
Definition emax : Z := 1024.
Definition float := spec_float.
Definition fadd : float -> float -> float := SFadd prec emax.
Definition fmul : float -> float -> float := SFmul prec emax.
Definition fdiv : float -> float -> float := SFdiv prec emax.
Definition float_of_Z (n : Z) : float := binary_normalize prec emax n 0 false.

(** Truth value of an object ([if x:], [not x]). *)
Definition truthy (x : JSON) : bool :=
  match x with
  | JNull => false
  | JBool b => b
  | JInt n => negb (n =? 0)
  | JFloat f => match f with S754_zero _ => false | _ => true end
  | JStr s => negb (String.eqb s "")
  | JArr l => match l with [] => false | _ => true end
  | JObj l => match l with [] => false | _ => true end
  end.

(** Truth value of an optional string (a [str] or [None]). *)
Definition truthy_str (o : option string) : bool :=
  match o with
  | None => false
  | Some s => negb (String.eqb s "")
  end.

(** [str(x)] / [f"{x}"] for a [str] or [None]. *)
Definition str_of (o : option string) : string :=
  match o with
  | None => "None"
  | Some s => s
  end.

(** ** Exceptions *)

Record Response := mkResponse {
  status_code : Z;
  text : string;
  (** [response.json()]: the decoded body, or the message of the decoding
      error it raises. *)
  json : string + JSON
}.

Inductive ExnClass :=
| ParseError | FileNotFoundError | KeyError | AttributeError
| ValueError | TypeError | OverflowError | OtherException.

(** An exception object: its class, [str(e)], and its [response]
    attribute: [None] when [hasattr(e, 'response')] is false, [Some None]
    when the attribute is [None]. *)
Record PyExn := mkExn {
  exn_class : ExnClass;
  exn_msg : string;
  exn_response : option (option Response)
}.

Definition exn (c : ExnClass) (msg : string) : PyExn := mkExn c msg None.

Inductive PyResult (A : Type) :=
| Returned (a : A)
| Raised (e : PyExn).
Arguments Returned {A} a.
Arguments Raised {A} e.

Definition pbind {A B} (r : PyResult A) (k : A -> PyResult B) : PyResult B :=
  match r with
  | Returned a => k a
  | Raised e => Raised e
  end.

Declare Scope py_scope.
Delimit Scope py_scope with py.
Notation "x <- c ;; k" := (pbind c (fun x => k))
  (at level 100, c at next level, right associativity) : py_scope.

(** The first binding of [key] in the items of a dict. *)
Fixpoint assoc (key : string) (items : list (string * JSON)) : option JSON :=
  match items with
  | [] => None
  | (k, v) :: rest => if String.eqb k key then Some v else assoc key rest
  end.

(** [x.get(key, default)] where [x] is any decoded value: only a dict has
    the method. *)
Definition py_get_default (x : JSON) (key : string) (default : JSON)
  : PyResult JSON :=
  match x with
  | JObj items => Returned (match assoc key items with
                            | Some v => v
                            | None => default
                            end)
  | _ => Raised (exn AttributeError
                   ("'" +:+ py_type_name x +:+ "' object has no attribute 'get'"))
  end.

(** [x.get(key)] *)
Definition py_get (x : JSON) (key : string) : PyResult JSON :=
  py_get_default x key JNull.

(** ** Constants of the module *)

Definition ITEM_TYPE_MAP : gmap string string :=
  <["M" := "MINIFIG"]> (<["P" := "PART"]> (<["S" := "SET"]> ∅)).

Definition ITEM_TYPE_LABELS : gmap string string :=
  <["M" := "minifigure"]> (<["P" := "part"]> (<["S" := "set"]> ∅)).


(** ** Text and numbers

    The conversions between text and numbers are those of the
    interpreter.  Their behaviour on ASCII is fixed; beyond ASCII it
    follows the Unicode database of the interpreter, and [int] has a limit
    on the number of digits that is a setting of the interpreter. *)

Class PyRuntime := {
  (** [Py_UNICODE_ISSPACE] on a code point beyond ASCII: white space. *)
  unicode_isspace : N -> bool;
  (** [Py_UNICODE_TODECIMAL] on a code point beyond ASCII: the value of a
      decimal digit (category Nd). *)
  unicode_todecimal : N -> option N;
  unicode_todecimal_lt : forall cp d, unicode_todecimal cp = Some d -> (d < 10)%N;
  (** [Py_UNICODE_ISDIGIT] on a code point beyond ASCII: decimal digits
      and the other characters with a digit value, such as superscripts. *)
  unicode_isdigit : N -> bool;
  (** [sys.get_int_max_str_digits()]: 4300 unless configured, 0 for no
      limit (and in an interpreter that has none). *)
  int_max_str_digits : N;
  (** Whether [int] checks the limit on the digits it has read before it
      looks at what follows them (CPython 3.11 and the releases the limit
      was added to) or validates the whole text first (from 3.12 on). *)
  int_limit_first : bool;
  (** [repr(s)] of a [str]. *)
  str_repr : string -> string
}.

(** *** Code points *)

(** The bytes of a text, one encoded character at a time: the length of a
    character follows from its first byte. *)
Fixpoint utf8_chars (l : list ascii) : list (list ascii) :=
  match l with
  | [] => []
  | b :: rest =>
      let n := N_of_ascii b in
      if (n <? 192)%N then [b] :: utf8_chars rest
      else
        match rest with
        | b1 :: rest1 =>
            if (n <? 224)%N then [b; b1] :: utf8_chars rest1
            else
              match rest1 with
              | b2 :: rest2 =>
                  if (n <? 240)%N then [b; b1; b2] :: utf8_chars rest2
                  else
                    match rest2 with
                    | b3 :: rest3 => [b; b1; b2; b3] :: utf8_chars rest3
                    | [] => [l]
                    end
              | [] => [l]
              end
        | [] => [l]
        end
  end.

(** The code point of an encoded character; U+FFFD for bytes that encode
    none. *)
Definition code_point (char : list ascii) : N :=
  (match map N_of_ascii char with
   | [b] => if b <? 128 then b else 65533
   | [b; b1] => (b mod 32) * 64 + b1 mod 64
   | [b; b1; b2] => ((b mod 16) * 64 + b1 mod 64) * 64 + b2 mod 64
   | [b; b1; b2; b3] =>
       (((b mod 8) * 64 + b1 mod 64) * 64 + b2 mod 64) * 64 + b3 mod 64
   | _ => 65533
   end)%N.

(** The characters of a [str]. *)
Definition code_points (s : string) : list N :=
  map code_point (utf8_chars (list_ascii_of_string s)).

(** [len(s)] *)
Definition py_len (s : string) : nat := length (code_points s).

(** [s[:n]] *)
Definition py_take (n : nat) (s : string) : string :=
  string_of_list_ascii (concat (take n (utf8_chars (list_ascii_of_string s)))).

(** *** ASCII *)

Definition is_digit (c : ascii) : bool :=
  let n := nat_of_ascii c in (48 <=? n)%nat && (n <=? 57)%nat.

(** [Py_ISSPACE]: the white space of the C locale. *)
Definition is_space (c : ascii) : bool :=
  let n := nat_of_ascii c in
  ((9 <=? n)%nat && (n <=? 13)%nat) || (n =? 32)%nat.

Fixpoint lstrip (l : list ascii) : list ascii :=
  match l with
  | c :: rest => if is_space c then lstrip rest else l
  | [] => []
  end.

Definition strip (l : list ascii) : list ascii :=
  rev (lstrip (rev (lstrip l))).

(** ASCII lower case of a letter. *)
Definition lower (c : ascii) : ascii :=
  let n := nat_of_ascii c in
  if (65 <=? n)%nat && (n <=? 90)%nat then ascii_of_nat (n + 32) else c.

(** The rest of a run of digits after its first digit: an underscore is
    allowed between two digits.  Returns the digits and what follows. *)
Fixpoint digits_tail (l : list ascii) : list ascii * list ascii :=
  match l with
  | c :: rest =>
      if is_digit c then
        let '(ds, r) := digits_tail rest in (c :: ds, r)
      else if Ascii.eqb c "_" then
        match rest with
        | d :: rest' =>
            if is_digit d then
              let '(ds, r) := digits_tail rest' in (d :: ds, r)
            else ([], l)
        | [] => ([], l)
        end
      else ([], l)
  | [] => ([], [])
  end.

(** A possibly empty run of digits at the head of [l]. *)
Definition digit_run (l : list ascii) : list ascii * list ascii :=
  match l with
  | c :: rest =>
      if is_digit c then let '(ds, r) := digits_tail rest in (c :: ds, r)
      else ([], l)
  | [] => ([], [])
  end.

Definition sign_of (l : list ascii) : bool * list ascii :=
  match l with
  | c :: rest =>
      if Ascii.eqb c "-" then (true, rest)
      else if Ascii.eqb c "+" then (false, rest)
      else (false, l)
  | [] => (false, [])
  end.

Fixpoint digits_value (acc : Z) (l : list ascii) : Z :=
  match l with
  | [] => acc
  | c :: rest => digits_value (10 * acc + (Z.of_nat (nat_of_ascii c) - 48)) rest
  end.

Section Text.
Context `{RT : PyRuntime}.

(** *** The character tables

    Below 128 the tables are those of ASCII. *)

Definition Py_UNICODE_ISSPACE (ch : N) : bool :=
  if (ch <? 128)%N
  then ((9 <=? ch) && (ch <=? 13) || (28 <=? ch) && (ch <=? 32))%N
  else unicode_isspace ch.

Definition Py_UNICODE_TODECIMAL (ch : N) : option N :=
  if (ch <? 128)%N
  then if ((48 <=? ch) && (ch <=? 57))%N then Some (ch - 48)%N else None
  else unicode_todecimal ch.

Definition Py_UNICODE_ISDIGIT (ch : N) : bool :=
  if (ch <? 128)%N then ((48 <=? ch) && (ch <=? 57))%N else unicode_isdigit ch.

(** [s.isdigit()]: every character is a digit and there is at least
    one. *)
Definition isdigit (s : string) : bool :=
  match code_points s with
  | [] => false
  | chars => forallb Py_UNICODE_ISDIGIT chars
  end.

(** *** What [int] and [float] make of a [str] before they parse it *)

(** The loop of [_PyUnicode_TransformDecimalAndSpaceToASCII]: white space
    becomes a space and a decimal digit its ASCII digit; the result ends
    with a question mark at the first character that is neither. *)
Fixpoint transform_decimal_and_space (chars : list N) : list ascii :=
  match chars with
  | [] => []
  | ch :: rest =>
      if (ch <? 127)%N then ascii_of_N ch :: transform_decimal_and_space rest
      else if Py_UNICODE_ISSPACE ch
      then " "%char :: transform_decimal_and_space rest
      else
        match Py_UNICODE_TODECIMAL ch with
        | Some decimal =>
            ascii_of_N (48 + decimal) :: transform_decimal_and_space rest
        | None => ["?"%char]
        end
  end.

(** [_PyUnicode_TransformDecimalAndSpaceToASCII]: an ASCII text is taken
    as it is. *)
Definition to_ascii (s : string) : list ascii :=
  let chars := code_points s in
  if forallb (fun ch => (ch <? 128)%N) chars
  then map ascii_of_N chars
  else transform_decimal_and_space chars.

(** *** [int] *)

(** The limit on the digits of a text that [int] converts: it applies
    beyond 640 digits. *)
Definition too_many_digits (digits : nat) : bool :=
  ((640 <? N.of_nat digits) && (0 <? int_max_str_digits)
   && (int_max_str_digits <? N.of_nat digits))%N.

Definition int_invalid_literal (s : string) : PyExn :=
  exn ValueError
      ("invalid literal for int() with base 10: " +:+ py_take 200 (str_repr s)).

Definition int_exceeds_limit (digits : nat) : PyExn :=
  exn ValueError
      ("Exceeds the limit (" +:+ pretty int_max_str_digits
       +:+ " digits) for integer string conversion: value has "
       +:+ pretty (N.of_nat digits)
       +:+ " digits; use sys.set_int_max_str_digits() to increase the limit").

(** Nothing but white space. *)
Definition blank (l : list ascii) : bool :=
  match lstrip l with
  | [] => true
  | _ => false
  end.

(** What a C string shows of [l]: the characters before the first NUL. *)
Fixpoint c_string (l : list ascii) : list ascii :=
  match l with
  | [] => []
  | c :: rest => if Ascii.eqb c zero then [] else c :: c_string rest
  end.

(** [int(s)] for a [str]: white space, a sign, digits with single
    underscores between them, white space.  The limit is checked on the
    digits that were read, before what follows them is looked at
    ([int_limit_first]) or once the text is found valid as a C string. *)
Definition py_int (s : string) : PyResult Z :=
  let '(neg, body) := sign_of (lstrip (to_ascii s)) in
  let '(digits, rest) := digit_run body in
  let value := digits_value 0 digits in
  let underscore :=
    match rest with
    | c :: _ => Ascii.eqb c "_"
    | [] => false
    end in
  match digits with
  | [] => Raised (int_invalid_literal s)
  | _ =>
      if underscore then Raised (int_invalid_literal s)
      else if too_many_digits (length digits)
              && (int_limit_first || blank (c_string rest))
      then Raised (int_exceeds_limit (length digits))
      else if blank rest
      then Returned (if neg then - value else value)
      else Raised (int_invalid_literal s)
  end.

(** *** [float] *)

(** The exponent part: [e] or [E], an optional sign and digits.  When the
    text at [l] is not an exponent nothing is consumed. *)
Definition exponent_of (l : list ascii) : Z * list ascii :=
  match l with
  | c :: rest =>
      if Ascii.eqb (lower c) "e" then
        let '(neg, rest1) := sign_of rest in
        match digit_run rest1 with
        | ([], _) => (0, l)
        | (ds, rest2) =>
            (if neg then - digits_value 0 ds else digits_value 0 ds, rest2)
        end
      else (0, l)
  | [] => (0, [])
  end.

(** The binary64 number nearest to [n * 10 ^ e] (ties to even), for
    [n > 0]. *)
Definition decimal_to_float (neg : bool) (n : positive) (e : Z) : float :=
  match e with
  | Zneg k =>
      fdiv (S754_finite neg n 0) (S754_finite false (Pos.pow 10 k) 0)
  | _ => binary_round prec emax neg (n * Z.to_pos (10 ^ e)) 0
  end.

(** [float(s)] for a [str]: surrounding white space, a sign, then
    [inf], [infinity] or [nan] in any case, or a decimal number with an
    optional fraction and exponent.  [None] is a [ValueError]. *)
Definition float_of_string (s : string) : option float :=
  let '(neg, body) := sign_of (strip (to_ascii s)) in
  let word := string_of_list_ascii (map lower body) in
  if String.eqb word "inf" || String.eqb word "infinity"
  then Some (S754_infinity neg)
  else if String.eqb word "nan" then Some S754_nan
  else
    let '(int_digits, rest) := digit_run body in
    let '(frac_digits, rest) :=
      match rest with
      | c :: rest' =>
          if Ascii.eqb c "." then
            (* no underscore may follow the point *)
            digit_run rest'
          else ([], rest)
      | [] => ([], [])
      end in
    match int_digits ++ frac_digits with
    | [] => None
    | ds =>
        let '(e, rest) := exponent_of rest in
        match rest with
        | [] =>
            match digits_value 0 ds with
            | Zpos n =>
                Some (decimal_to_float neg n (e - Z.of_nat (length frac_digits)))
            | _ => Some (S754_zero neg)
            end
        | _ => None
        end
    end.

(** [float(x)] for a decoded value. *)
Definition py_float (x : JSON) : PyResult float :=
  match x with
  | JStr s =>
      match float_of_string s with
      | Some f => Returned f
      | None => Raised (exn ValueError
                          ("could not convert string to float: " +:+ str_repr s))
      end
  | JInt n =>
      match float_of_Z n with
      | S754_infinity _ =>
          Raised (exn OverflowError "int too large to convert to float")
      | f => Returned f
      end
  | JFloat f => Returned f
  | JBool b => Returned (float_of_Z (if b then 1 else 0))
  | _ => Raised (exn TypeError
                   ("float() argument must be a string or a real number, not '"
                    +:+ py_type_name x +:+ "'"))
  end.
End Text.

(** ** Inventory parser *)

(** An element of an [xml.etree.ElementTree] tree: [tag], [text] ([None]
    for an element without character data) and children. *)
Inductive Element :=
| Elem (tag : string) (text : option string) (children : list Element).

Definition tag (e : Element) : string := let 'Elem t _ _ := e in t.
Definition etext (e : Element) : option string := let 'Elem _ t _ := e in t.
Definition children (e : Element) : list Element := let 'Elem _ _ c := e in c.

(** [e.iter()]: the element and its descendants in document order. *)
Fixpoint iter (e : Element) : list Element :=
  match e with
  | Elem _ _ c =>
      e :: (fix iter_all (l : list Element) : list Element :=
              match l with
              | [] => []
              | x :: rest => iter x ++ iter_all rest
              end) c
  end.

(** [root.findall('.//' + name)]: the descendants of [root] (not [root]
    itself) with that tag, in document order. *)
Definition findall_descendants (name : string) (root : Element) : list Element :=
  List.filter (fun e => String.eqb (tag e) name) (flat_map iter (children root)).

(** [e.find(name)]: the first child with that tag, or [None]. *)
Definition find (name : string) (e : Element) : option Element :=
  List.find (fun c => String.eqb (tag c) name) (children e).

Module LineItem.
Record t := mk {
  itemid : string;
  itemtype : string;
  color : option string;
  quantity : Z;
  condition : option string
}.
End LineItem.

Section Parser.
Context `{RT : PyRuntime}.

(** [ET.parse(path).getroot()]: what the file system and the XML parser
    answer for a path. *)
Variable ET_parse : string -> PyResult Element.

(** [int(qty.text) if qty.text.isdigit() else 1] for a [QTY] element that
    was found: the method lookup fails when [qty.text] is [None], and
    [int] may refuse a text that [isdigit] accepts. *)
Definition qty_value (qty_text : option string) : PyResult Z :=
  match qty_text with
  | Some s => if isdigit s then py_int s else Returned 1
  | None => Raised (exn AttributeError
                      "'NoneType' object has no attribute 'isdigit'")
  end.

(** One iteration of the loop over the entries (lines 179-194): [None]
    when the guard of lines 185-186 rejects the entry, the dict appended to
    [items] otherwise. *)
Definition parse_entry (item : Element) : PyResult (option LineItem.t) :=
  let itemtype := find "ITEMTYPE" item in
  let itemid := find "ITEMID" item in
  let color := find "COLOR" item in
  let qty := find "QTY" item in
  let condition := find "CONDITION" item in
  match itemtype, itemid with
  | Some ty, Some id =>
      match etext ty, etext id with
      | Some ty_text, Some id_text =>
          if bool_decide (is_Some (ITEM_TYPE_MAP !! ty_text))
             && negb (String.eqb id_text "")
          then
            (quantity <- match qty with
                         | Some q => qty_value (etext q)
                         | None => Returned 1
                         end ;;
             Returned (Some {|
               LineItem.itemid := id_text;
               LineItem.itemtype := ty_text;
               LineItem.color := match color with
                                 | Some c => etext c
                                 | None => Some "0"
                                 end;
               LineItem.quantity := quantity;
               LineItem.condition := match condition with
                                     | Some c => etext c
                                     | None => Some "U"
                                     end |}))%py
          else Returned None
      | _, _ => Returned None
      end
  | _, _ => Returned None
  end.

(** The [for item in root.findall('.//ITEM')] loop, with [items] as
    accumulator. *)
Fixpoint parse_items (entries : list Element) (items : list LineItem.t)
  : PyResult (list LineItem.t) :=
  match entries with
  | [] => Returned items
  | item :: rest =>
      (r <- parse_entry item ;;
       match r with
       | Some li => parse_items rest (items ++ [li])
       | None => parse_items rest items
       end)%py
  end.

(** The body of the [try] (lines 174-196). *)
Definition parse_try (parsed : PyResult Element) : PyResult (list LineItem.t) :=
  (root <- parsed ;; parse_items (findall_descendants "ITEM" root) [])%py.

(** What the three handlers print (lines 198-206). *)
Definition parse_error_report (xml_file : string) (e : PyExn) : string :=
  match exn_class e with
  | ParseError => "Error parsing XML file: " +:+ exn_msg e
  | FileNotFoundError => "Error: XML file '" +:+ xml_file +:+ "' not found."
  | _ => "Error reading XML file: " +:+ exn_msg e
  end.

(** [parse_xml_inventory]: the printed lines and the outcome. *)
Definition parse_xml_inventory (xml_file : string)
  : list string * PyResult (list LineItem.t) :=
  match parse_try (ET_parse xml_file) with
  | Returned items => ([], Returned items)
  | Raised e => ([parse_error_report xml_file e], Returned [])
  end.
End Parser.

(** ** Price client *)

Module Result.
(** The dict returned by [get_item_price].  ['success'], ['itemid'] and
    ['item_type'] are set on every path; ['condition'] and ['data'] only
    on success, ['error'] and ['status_code'] only on failure, and
    ['quantity'] is added by the pipeline: those are [None] while the
    key is absent. *)
Record t := mk {
  success : bool;
  itemid : string;
  item_type : string;
  condition : option (option string);
  data : option JSON;
  error : option JSON;
  status_code : option (option Z);
  quantity : option Z
}.

Definition set_quantity (q : Z) (r : t) : t :=
  mk (success r) (itemid r) (item_type r) (condition r) (data r)
     (error r) (status_code r) (Some q).

Definition set_data (d : JSON) (r : t) : t :=
  mk (success r) (itemid r) (item_type r) (condition r) (Some d)
     (error r) (status_code r) (quantity r).
End Result.

(** The query parameters of the request. *)
Record Params := mkParams {
  new_or_used : option string;
  guide_type : string;
  currency_code : string
}.

Definition base_url : string := "https://api.bricklink.com/api/store/v1".

(** [url] (line 91) *)
Definition price_url (item_type item_id : string) : string :=
  base_url +:+ "/items/" +:+ item_type +:+ "/" +:+ item_id +:+ "/price".

(** [params] (lines 92-96) *)
Definition price_params (condition : option string) : Params :=
  {| new_or_used := condition;
     guide_type := "stock";
     currency_code := "USD" |}.

(** [x == 200] for a decoded value. *)
Definition eq_200 (x : JSON) : bool :=
  match x with
  | JInt n => n =? 200
  | JFloat f => SFeqb f (float_of_Z 200)
  | _ => false
  end.

(** [response.json()] *)
Definition response_json (r : Response) : PyResult JSON :=
  match json r with
  | inr v => Returned v
  | inl msg => Raised (mkExn ValueError msg (Some None))
  end.

(** [result['data']] *)
Definition result_data (r : Result.t) : PyResult JSON :=
  match Result.data r with
  | Some d => Returned d
  | None => Raised (exn KeyError "'data'")
  end.

(** [result['condition']] *)
Definition result_condition (r : Result.t) : PyResult (option string) :=
  match Result.condition r with
  | Some c => Returned c
  | None => Raised (exn KeyError "'condition'")
  end.

(** The two call sites of [get_item_price] in the pipeline: the lookup of
    a line item (line 265) and the new-price fallback (line 271). *)
Inductive Site := Primary | Fallback.

(** One call of [get_item_price], as the pipeline's log records it. *)
Record Lookup := mkLookup {
  lk_site : Site;
  lk_item_id : string;
  lk_item_type : string;
  lk_condition : option string
}.

#[global] Instance Site_eq_dec : EqDecision Site.
Proof. solve_decision. Defined.

#[global] Instance Lookup_eq_dec : EqDecision Lookup.
Proof. solve_decision. Defined.

Section Client.
(** The remote service seen through [self.session]: its state, and
    [session.get(url, params=params)], which answers with a response or
    raises. *)
Variable World : Type.
Variable session_get : World -> string -> Params -> PyResult Response * World.

(** [str(x)] of a decoded value that is not a string. *)
Variable py_repr : JSON -> string.

(** [f"{x}"] *)
Definition py_str (x : JSON) : string :=
  match x with
  | JStr s => s
  | _ => py_repr x
  end.

(** The statements of the [try] block once the response is there
    (lines 113-137). *)
Definition read_response (item_id item_type : string)
    (condition : option string) (response : Response)
  : PyResult Result.t :=
  (data <- response_json response ;;
   meta <- py_get_default data "meta" (JObj []) ;;
   code <- py_get meta "code" ;;
   if eq_200 code then
     payload <- py_get_default data "data" (JObj []) ;;
     Returned {| Result.success := true;
                 Result.itemid := item_id;
                 Result.item_type := item_type;
                 Result.condition := Some condition;
                 Result.data := Some payload;
                 Result.error := None;
                 Result.status_code := None;
                 Result.quantity := None |}
   else
     meta1 <- py_get_default data "meta" (JObj []) ;;
     error_msg <- py_get_default meta1 "message" (JStr "Unknown error") ;;
     meta2 <- py_get_default data "meta" (JObj []) ;;
     error_desc <- py_get_default meta2 "description" (JStr "") ;;
     let full_error :=
       py_str error_msg +:+
       (if truthy error_desc then " - " +:+ py_str error_desc else "") in
     Returned {| Result.success := false;
                 Result.itemid := item_id;
                 Result.item_type := item_type;
                 Result.condition := None;
                 Result.data := None;
                 Result.error := Some (JStr full_error);
                 Result.status_code := Some (Some (status_code response));
                 Result.quantity := None |})%py.

(** The inner [try] of the handler (lines 142-148): the message found in
    the body of the failed response, or the status line when reading it
    raises. *)
Definition handler_message (e : PyExn) (r : Response) : JSON :=
  match (error_data <- response_json r ;;
         meta <- py_get_default error_data "meta" (JObj []) ;;
         py_get_default meta "message" (JStr (exn_msg e)))%py with
  | Returned m => m
  | Raised _ =>
      JStr ("HTTP " +:+ pretty (status_code r) +:+ ": " +:+ text r)
  end.

(** The [except Exception as e] handler (lines 139-159). *)
Definition handle_exception (item_id item_type : string) (e : PyExn)
  : Result.t :=
  let error_msg :=
    match exn_response e with
    | Some (Some r) => handler_message e r
    | _ => JStr (exn_msg e)
    end in
  {| Result.success := false;
     Result.itemid := item_id;
     Result.item_type := item_type;
     Result.condition := None;
     Result.data := None;
     Result.error := Some error_msg;
     Result.status_code :=
       Some (match exn_response e with
             | Some (Some r) => Some (status_code r)
             | _ => None
             end);
     Result.quantity := None |}.

(** [BricklinkAPI.get_item_price] *)
Definition get_item_price (w : World) (item_id item_type : string)
    (condition : option string) : PyResult Result.t * World :=
  let url := price_url item_type item_id in
  let params := price_params condition in
  let '(answer, w') := session_get w url params in
  match (response <- answer ;;
         read_response item_id item_type condition response)%py with
  | Returned result => (Returned result, w')
  | Raised e => (Returned (handle_exception item_id item_type e), w')
  end.

(** ** Pricing pipeline *)

(** The state a run threads through its calls: the service and the log
    of the lookups made so far, oldest first. *)
Record Env := mkEnv {
  world : World;
  lookups : list Lookup
}.

(** A statement of the pipeline: it may raise, and changes the state
    either way. *)
Definition M (A : Type) : Type := Env -> PyResult A * Env.

Definition mret {A} (a : A) : M A := fun env => (Returned a, env).

Definition mbind {A B} (c : M A) (k : A -> M B) : M B :=
  fun env =>
    match c env with
    | (Returned a, env') => k a env'
    | (Raised e, env') => (Raised e, env')
    end.

Definition lift {A} (r : PyResult A) : M A := fun env => (r, env).

(** A call [api.get_item_price(item_id, item_type, condition)] made at
    [site]. *)
Definition fetch (site : Site) (item_id item_type : string)
    (condition : option string) : M Result.t :=
  fun env =>
    let '(r, w') := get_item_price (world env) item_id item_type condition in
    (r, {| world := w';
           lookups := lookups env ++
                      [mkLookup site item_id item_type condition] |}).

Declare Scope m_scope.
Delimit Scope m_scope with m.
Notation "x <- c ;; k" := (mbind c (fun x => k))
  (at level 100, c at next level, right associativity) : m_scope.

(** [unique_key] (line 258) *)
Definition unique_key (itemid itemtype : string) (condition : option string)
  : string :=
  itemid +:+ "_" +:+ itemtype +:+ "_" +:+ str_of condition.

(** [ITEM_TYPE_MAP[itemtype]] *)
Definition api_type_of (itemtype : string) : PyResult string :=
  match ITEM_TYPE_MAP !! itemtype with
  | Some t => Returned t
  | None => Raised (exn KeyError ("'" +:+ itemtype +:+ "'"))
  end.

(** The new-price fallback (lines 269-274). *)
Definition used_price_fallback (itemid api_type : string)
    (condition : option string) (result : Result.t) : M Result.t :=
  (if bool_decide (condition = Some "U") && Result.success result then
     d <- lift (result_data result) ;;
     avg_price <- lift (py_get d "avg_price") ;;
     if negb (truthy avg_price) then
       new_result <- fetch Fallback itemid api_type (Some "N") ;;
       if Result.success new_result then
         nd <- lift (result_data new_result) ;;
         new_avg <- lift (py_get nd "avg_price") ;;
         if truthy new_avg then mret (Result.set_data nd result)
         else mret result
       else mret result
     else mret result
   else mret result)%m.

(** One iteration of the loop (lines 249-279) on the locals
    [processed_items] and [results]. *)
Definition process_item (condition_filter : option string)
    (item : LineItem.t) (processed_items : gset string)
    (results : list Result.t) : M (gset string * list Result.t) :=
  (let itemid := LineItem.itemid item in
   let itemtype := LineItem.itemtype item in
   let condition := LineItem.condition item in
   let quantity := LineItem.quantity item in
   api_type <- lift (api_type_of itemtype) ;;
   if truthy_str condition_filter
      && negb (bool_decide (condition = condition_filter))
   then mret (processed_items, results)
   else
     let key := unique_key itemid itemtype condition in
     if bool_decide (key ∈ processed_items)
     then mret (processed_items, results)
     else
       let processed_items := processed_items ∪ {[ key ]} in
       result <- fetch Primary itemid api_type condition ;;
       let result := Result.set_quantity quantity result in
       result <- used_price_fallback itemid api_type condition result ;;
       mret (processed_items, results ++ [result]))%m.

(** The [for] loop of [get_prices_for_inventory]. *)
Fixpoint process_items (condition_filter : option string)
    (items : list LineItem.t) (processed_items : gset string)
    (results : list Result.t) : M (list Result.t) :=
  match items with
  | [] => mret results
  | item :: rest =>
      (st <- process_item condition_filter item processed_items results ;;
       process_items condition_filter rest (fst st) (snd st))%m
  end.

(** [get_prices_for_inventory]: the run starts with an empty log. *)
Definition get_prices_for_inventory (w : World) (items : list LineItem.t)
    (condition_filter : option string)
  : PyResult (list Result.t) * Env :=
  process_items condition_filter items ∅ [] (mkEnv w []).
End Client.

Arguments mkEnv {World} _ _.
Arguments world {World} _.
Arguments lookups {World} _.

(** ** [f"{x:.2f}"] *)

(** [num / den] rounded to the nearest integer, ties to even. *)
Definition round_half_even (num den : Z) : Z :=
  let q := num / den in
  let r := num mod den in
  match 2 * r ?= den with
  | Lt => q
  | Gt => q + 1
  | Eq => if Z.even q then q else q + 1
  end.

(** Two decimal digits. *)
Definition two_digits (n : Z) : string :=
  if n <? 10 then "0" +:+ pretty n else pretty n.

(** [f"{x:.2f}"]: the exact value of [x] rounded to hundredths, ties to
    even. *)
Definition format_2f (x : float) : string :=
  match x with
  | S754_nan => "nan"
  | S754_infinity s => if s then "-inf" else "inf"
  | S754_zero s => if s then "-0.00" else "0.00"
  | S754_finite s m e =>
      let hundredths :=
        match e with
        | Zneg k => round_half_even (Zpos m * 100) (Zpos (Pos.pow 2 k))
        | _ => Zpos m * 2 ^ e * 100
        end in
      (if s then "-" else "") +:+ pretty (hundredths / 100) +:+ "."
      +:+ two_digits (hundredths mod 100)
  end.

(** ** Exporters *)

Definition newline : string := String (ascii_of_nat 10) EmptyString.

(** [sep.join(lines)] *)
Fixpoint join (sep : string) (lines : list string) : string :=
  match lines with
  | [] => ""
  | [l] => l
  | l :: rest => l +:+ sep +:+ join sep rest
  end.

(** [{v: k for k, v in ITEM_TYPE_MAP.items()}] *)
Definition TYPE_CODE_MAP : gmap string string :=
  list_to_map (prod_swap <$> map_to_list ITEM_TYPE_MAP).

Module Simplified.
(** An entry of the simplified export; ['error'] is a key of the entries
    of failed results only. *)
Record entry := mk {
  item_id : string;
  item_type : string;
  amount : Z;
  average_price : option float;
  condition : option string;
  error : option JSON
}.
End Simplified.

Section Exporters.
Context `{RT : PyRuntime}.

(** [price_value] (lines 351-360) *)
Definition upload_price (markup_percent : float) (result : Result.t)
  : PyResult string :=
  (if Result.success result then
     d <- result_data result ;;
     avg_price <- py_get d "avg_price" ;;
     if truthy avg_price then
       f <- py_float avg_price ;;
       let price_with_markup :=
         fmul f (fadd (float_of_Z 1) (fdiv markup_percent (float_of_Z 100))) in
       Returned (format_2f price_with_markup)
     else Returned "0.00"
   else Returned "0.00")%py.

(** The lines one result adds to the document (lines 342-386). *)
Definition upload_item (markup_percent : float) (result : Result.t)
  : PyResult (list string) :=
  (price_value <- upload_price markup_percent result ;;
   let quantity := default 1 (Result.quantity result) in
   let condition := default (Some "U") (Result.condition result) in
   let api_type := Result.item_type result in
   let xml_type := default "M" (TYPE_CODE_MAP !! api_type) in
   let itemid := Result.itemid result in
   Returned [ "    <ITEM>";
              "        <CATEGORY></CATEGORY>";
              "        <COLOR>0</COLOR>";
              "        <PRICE>" +:+ price_value +:+ "</PRICE>";
              "        <QTY>" +:+ pretty quantity +:+ "</QTY>";
              "        <BULK>1</BULK>";
              "        <DESCRIPTION></DESCRIPTION>";
              "        <CONDITION>" +:+ str_of condition +:+ "</CONDITION>";
              "        <ITEMTYPE>" +:+ xml_type +:+ "</ITEMTYPE>";
              "        <ITEMID>" +:+ itemid +:+ "</ITEMID>";
              "    </ITEM>" ])%py.

(** The [for result in results] loop, with [lines] as accumulator. *)
Fixpoint upload_items (markup_percent : float) (results : list Result.t)
    (lines : list string) : PyResult (list string) :=
  match results with
  | [] => Returned lines
  | result :: rest =>
      (block <- upload_item markup_percent result ;;
       upload_items markup_percent rest (lines ++ block))%py
  end.

(** [create_bricklink_upload_xml] *)
Definition create_bricklink_upload_xml (results : list Result.t)
    (markup_percent : float) : PyResult string :=
  (lines <- upload_items markup_percent results ["<INVENTORY>"] ;;
   Returned (join newline (lines ++ ["</INVENTORY>"])))%py.

(** One iteration of the loop of [create_simplified_json]. *)
Definition simplified_entry (result : Result.t) : PyResult Simplified.entry :=
  (if Result.success result then
     d <- result_data result ;;
     avg_price <- py_get d "avg_price" ;;
     average_price <- (if truthy avg_price
                       then f <- py_float avg_price ;; Returned (Some f)
                       else Returned None) ;;
     condition <- result_condition result ;;
     Returned {| Simplified.item_id := Result.itemid result;
                 Simplified.item_type := Result.item_type result;
                 Simplified.amount := default 1 (Result.quantity result);
                 Simplified.average_price := average_price;
                 Simplified.condition := condition;
                 Simplified.error := None |}
   else
     Returned {| Simplified.item_id := Result.itemid result;
                 Simplified.item_type := Result.item_type result;
                 Simplified.amount := default 1 (Result.quantity result);
                 Simplified.average_price := None;
                 Simplified.condition :=
                   default (Some "U") (Result.condition result);
                 Simplified.error :=
                   Some (default JNull (Result.error result)) |})%py.

(** The loop of [create_simplified_json], with [simplified] as
    accumulator. *)
Fixpoint simplified_entries (results : list Result.t)
    (simplified : list Simplified.entry) : PyResult (list Simplified.entry) :=
  match results with
  | [] => Returned simplified
  | result :: rest =>
      (entry <- simplified_entry result ;;
       simplified_entries rest (simplified ++ [entry]))%py
  end.

(** [create_simplified_json] *)
Definition create_simplified_json (results : list Result.t)
  : PyResult (list Simplified.entry) :=
  simplified_entries results [].
End Exporters.

(** ** Specification-side definitions

    The definitions below are not translations of the script: they state
    what the specification says, and are compared with the code in the
    theorems that follow. *)

(** *** Inventory parser *)

(** The type codes of the specification: minifigure, part, set. *)
Definition type_codes : list string := ["M"; "P"; "S"].

(** An entry with a type code among [type_codes] and a non-empty
    identifier. *)
Definition spec_entry_valid (item : Element) : bool :=
  match find "ITEMTYPE" item, find "ITEMID" item with
  | Some ty, Some id =>
      match etext ty, etext id with
      | Some t, Some i => bool_decide (t ∈ type_codes) && negb (String.eqb i "")
      | _, _ => false
      end
  | _, _ => false
  end.

Section ParserSpec.
Context `{RT : PyRuntime}.

(** The quantity of an entry: the number of a numeric quantity field, 1
    otherwise. *)
Definition spec_quantity (item : Element) : Z :=
  match find "QTY" item with
  | Some q =>
      match etext q with
      | Some s =>
          if isdigit s
          then match py_int s with Returned n => n | Raised _ => 1 end
          else 1
      | None => 1
      end
  | None => 1
  end.

(** The Line Item the specification expects for a valid entry. *)
Definition spec_line_item (item : Element) : LineItem.t :=
  {| LineItem.itemid :=
       match find "ITEMID" item with Some id => str_of (etext id) | None => "" end;
     LineItem.itemtype :=
       match find "ITEMTYPE" item with Some ty => str_of (etext ty) | None => "" end;
     LineItem.color :=
       match find "COLOR" item with Some c => etext c | None => Some "0" end;
     LineItem.quantity := spec_quantity item;
     LineItem.condition :=
       match find "CONDITION" item with Some c => etext c | None => Some "U" end |}.

(** The line items of a document, entry by entry. *)
Definition spec_inventory (root : Element) : list LineItem.t :=
  map spec_line_item
      (List.filter spec_entry_valid (findall_descendants "ITEM" root)).

(** The error of reading the quantity field of an entry, when it cannot
    be read: the field has no text, or a text of digits that [int]
    refuses. *)
Definition qty_error (item : Element) : option PyExn :=
  match find "QTY" item with
  | Some q =>
      match etext q with
      | Some s =>
          if isdigit s
          then match py_int s with Returned _ => None | Raised e => Some e end
          else None
      | None =>
          Some (exn AttributeError "'NoneType' object has no attribute 'isdigit'")
      end
  | None => None
  end.

(** An entry whose quantity field, when there is one, can be read. *)
Definition qty_readable (item : Element) : Prop := qty_error item = None.

(** The error of the first valid entry whose quantity field cannot be
    read. *)
Fixpoint first_qty_error (entries : list Element) : option PyExn :=
  match entries with
  | [] => None
  | item :: rest =>
      match (if spec_entry_valid item then qty_error item else None) with
      | Some e => Some e
      | None => first_qty_error rest
      end
  end.
End ParserSpec.

(** An inventory of two valid entries, the second with an empty quantity
    element ([<QTY></QTY>]). *)
Definition inventory_with_empty_qty : Element :=
  Elem "INVENTORY" None
    [ Elem "ITEM" None
        [ Elem "ITEMTYPE" (Some "M") []; Elem "ITEMID" (Some "sp006") [];
          Elem "QTY" (Some "2") []; Elem "CONDITION" (Some "U") [] ];
      Elem "ITEM" None
        [ Elem "ITEMTYPE" (Some "P") []; Elem "ITEMID" (Some "3001") [];
          Elem "QTY" None []; Elem "CONDITION" (Some "N") [] ] ].

(** *** Price client *)

(** A result of the client is a success dict or a failure dict for the
    item that was asked for. *)
Definition client_result (item_id item_type : string)
    (condition : option string) (r : Result.t) : Prop :=
  Result.itemid r = item_id /\ Result.item_type r = item_type /\
  Result.quantity r = None /\
  if Result.success r
  then Result.condition r = Some condition /\ is_Some (Result.data r)
  else Result.condition r = None /\ Result.data r = None /\
       is_Some (Result.error r) /\ is_Some (Result.status_code r).


(** API-level success: the body of the answer is an object whose [meta]
    member is an object with [code] 200; the pricing data is then the
    [data] member of the body (an empty object when there is none). *)
Definition api_payload (answer : PyResult Response) : option JSON :=
  match answer with
  | Returned response =>
      match json response with
      | inr (JObj body) =>
          match assoc "meta" body with
          | Some (JObj meta) =>
              match assoc "code" meta with
              | Some code =>
                  if eq_200 code
                  then Some (default (JObj []) (assoc "data" body))
                  else None
              | None => None
              end
          | _ => None
          end
      | _ => None
      end
  | Raised _ => None
  end.

(** Every successful answer of the service carries an object as pricing
    data. *)
Definition dict_payloads {World : Type}
    (session_get : World -> string -> Params -> PyResult Response * World)
  : Prop :=
  forall w url params payload,
    api_payload (fst (session_get w url params)) = Some payload ->
    exists items, payload = JObj items.

(** The outcome of a lookup as the specification tags it. *)
Inductive Outcome :=
| Success (payload : JSON)
| Failure (error : JSON) (status : option Z).

(** The text of the error raised by [x.get] on a value that is no
    object. *)
Definition no_get (x : JSON) : JSON :=
  JStr ("'" +:+ py_type_name x +:+ "' object has no attribute 'get'").

Section ClientSpec.
(** [str(x)] of a decoded value that is not a string. *)
Variable py_repr : JSON -> string.

(** The text of an API-level error: the message of the metadata
    ("Unknown error" without one), then " - " and the description when
    there is one that is not empty. *)
Definition api_error_text (meta : list (string * JSON)) : string :=
  let message := default (JStr "Unknown error") (assoc "message" meta) in
  let description := default (JStr "") (assoc "description" meta) in
  match message with JStr m => m | other => py_repr other end
  +:+ (if truthy description
       then " - " +:+ match description with
                      | JStr d => d
                      | other => py_repr other
                      end
       else "").

(** What the failed response attached to an exception of the transport
    says: the message of the metadata of its body ([fallback] without
    one), or the status line when the body has no readable metadata. *)
Definition response_error (fallback : string) (r : Response) : JSON :=
  let status_line :=
    JStr ("HTTP " +:+ pretty (status_code r) +:+ ": " +:+ text r) in
  match json r with
  | inr (JObj body) =>
      match default (JObj []) (assoc "meta" body) with
      | JObj meta => default (JStr fallback) (assoc "message" meta)
      | _ => status_line
      end
  | _ => status_line
  end.

(** The outcome of a lookup for each answer of the service.
    - The body is an object whose metadata has code 200: success with the
      pricing data of the body.
    - The metadata has another code or none: failure with the text of the
      error and the HTTP status of the answer.
    - The body does not decode, or the body or its metadata is no object:
      failure with the text of that error, without a status.
    - The transport raises: failure with the status of the response
      attached to the exception and what that response says, and without
      such a response the text of the exception and no status. *)
Definition spec_fetch (answer : PyResult Response) : Outcome :=
  match answer with
  | Returned response =>
      match json response with
      | inl msg => Failure (JStr msg) None
      | inr (JObj body) =>
          match default (JObj []) (assoc "meta" body) with
          | JObj meta =>
              if eq_200 (default JNull (assoc "code" meta))
              then Success (default (JObj []) (assoc "data" body))
              else Failure (JStr (api_error_text meta))
                           (Some (status_code response))
          | other => Failure (no_get other) None
          end
      | inr other => Failure (no_get other) None
      end
  | Raised e =>
      match exn_response e with
      | Some (Some r) => Failure (response_error (exn_msg e) r)
                                 (Some (status_code r))
      | _ => Failure (JStr (exn_msg e)) None
      end
  end.
End ClientSpec.

(** The result dict of an outcome. *)
Definition result_of_outcome (item_id item_type : string)
    (condition : option string) (o : Outcome) : Result.t :=
  match o with
  | Success payload =>
      Result.mk true item_id item_type (Some condition) (Some payload)
                None None None
  | Failure error status =>
      Result.mk false item_id item_type None None (Some error) (Some status)
                None
  end.

(** A failure as the specification describes it: it carries an error
    message and a status code. *)
Definition carries_message_and_status (r : Result.t) : Prop :=
  Result.success r = false /\
  exists (message : string) (code : Z),
    Result.error r = Some (JStr message) /\
    Result.status_code r = Some (Some code).

(** A service that cannot be reached: the transport raises, and the
    exception has no response. *)
Definition unreachable_service (w : unit) (url : string) (params : Params)
  : PyResult Response * unit :=
  (Raised (mkExn OtherException "Connection refused" (Some None)), w).

(** *** Pricing pipeline *)

(** The invariant of the loop: the log has no two equal entries, every
    lookup of a line item has its key among the processed ones, and every
    fallback lookup asks for condition "N" on behalf of a processed key
    of condition "U". *)
Definition log_inv (processed_items : gset string) (log : list Lookup) : Prop :=
  NoDup log /\
  forall l, l ∈ log ->
    exists t, ITEM_TYPE_MAP !! t = Some (lk_item_type l) /\
      match lk_site l with
      | Primary =>
          unique_key (lk_item_id l) t (lk_condition l) ∈ processed_items
      | Fallback =>
          lk_condition l = Some "N" /\
          unique_key (lk_item_id l) t (Some "U") ∈ processed_items
      end.


(** The number of lookups of [(item_id, item_type, condition)] a log
    records for one call site. *)
Definition lookups_of (site : Site) (item_id item_type : string)
    (condition : option string) (log : list Lookup) : nat :=
  count_occ Lookup_eq_dec log (mkLookup site item_id item_type condition).

(** At most one lookup per key: the statement of the specification. *)
Definition at_most_one_lookup_per_key (log : list Lookup) : Prop :=
  forall item_id item_type condition,
    (lookups_of Primary item_id item_type condition log
     + lookups_of Fallback item_id item_type condition log <= 1)%nat.

(** The dedup key of the specification: the triple itself. *)
Definition key_triple (item : LineItem.t) : string * string * option string :=
  (LineItem.itemid item, LineItem.itemtype item, LineItem.condition item).

(** A Line Item of the data model: a type code among [type_codes], a
    condition new or used. *)
Definition valid_item (item : LineItem.t) : Prop :=
  LineItem.itemtype item ∈ type_codes /\
  LineItem.condition item ∈ [Some "N"; Some "U"].

(** A Line Item passes the condition filter. *)
Definition eligible (condition_filter : option string) (item : LineItem.t) : bool :=
  negb (truthy_str condition_filter
        && negb (bool_decide (LineItem.condition item = condition_filter))).

(** The first Line Item of each key, in the order of the list. *)
Fixpoint first_of_each_key (seen : list (string * string * option string))
    (items : list LineItem.t) : list LineItem.t :=
  match items with
  | [] => []
  | item :: rest =>
      if bool_decide (key_triple item ∈ seen)
      then first_of_each_key seen rest
      else item :: first_of_each_key (key_triple item :: seen) rest
  end.

(** The Line Items the specification expects a Result for. *)
Definition spec_selected (condition_filter : option string)
    (items : list LineItem.t) : list LineItem.t :=
  first_of_each_key [] (List.filter (eligible condition_filter) items).

(** A Result is the one of a Line Item: same item, the API type of its
    type code, its quantity and, on success, its condition. *)
Definition result_of_item (r : Result.t) (item : LineItem.t) : Prop :=
  Result.itemid r = LineItem.itemid item /\
  ITEM_TYPE_MAP !! LineItem.itemtype item = Some (Result.item_type r) /\
  Result.quantity r = Some (LineItem.quantity item) /\
  (Result.success r = true ->
   Result.condition r = Some (LineItem.condition item)).

(** The processed keys are those of the triples seen so far. *)
Definition key_rel (processed_items : gset string)
    (seen : list (string * string * option string)) : Prop :=
  forall item, valid_item item ->
    unique_key (LineItem.itemid item) (LineItem.itemtype item)
               (LineItem.condition item) ∈ processed_items
    <-> key_triple item ∈ seen.

(** *** An example service

    Its state counts the requests.  Every answer is an API-level success;
    the pricing data has an average price for condition "N" only. *)
Definition example_service (w : nat) (url : string) (params : Params)
  : PyResult Response * nat :=
  let payload :=
    if bool_decide (new_or_used params = Some "N")
    then JObj [("avg_price", JStr "10.00")]
    else JObj [] in
  (Returned (mkResponse 200 ""
               (inr (JObj [("meta", JObj [("code", JInt 200)]);
                           ("data", payload)]))),
   S w).

Definition example_repr (x : JSON) : string := "?".

(** Two Line Items for the same minifigure, one used and one new. *)
Definition used_and_new : list LineItem.t :=
  [ LineItem.mk "sw0001" "M" (Some "0") 2 (Some "U");
    LineItem.mk "sw0001" "M" (Some "0") 1 (Some "N") ].

(** Two Line Items with different triples and the same key string. *)
Definition colliding_first : LineItem.t :=
  LineItem.mk "3001" "M" (Some "0") 4 (Some "U_M_U").

Definition colliding_second : LineItem.t :=
  LineItem.mk "3001_M_U" "M" (Some "0") 7 (Some "U").

(** A service that knows no item: every answer is an API-level error. *)
Definition failing_service (w : nat) (url : string) (params : Params)
  : PyResult Response * nat :=
  (Returned (mkResponse 404 ""
               (inr (JObj [("meta", JObj [("description", JStr "No item found");
                                          ("message", JStr "RESOURCE_NOT_FOUND");
                                          ("code", JInt 404)])]))),
   S w).

(** *** Exporters *)

(** The binary64 number of value [m * 2 ^ e]. *)
Definition dyadic (m e : Z) : float := binary_normalize prec emax m e false.

(** The average price of a result, when its lookup succeeded and its
    pricing data has one. *)
Definition average_price_of (r : Result.t) : option JSON :=
  if Result.success r then
    match Result.data r with
    | Some (JObj items) =>
        match assoc "avg_price" items with
        | Some avg => if truthy avg then Some avg else None
        | None => None
        end
    | _ => None
    end
  else None.

(** The integer nearest to [100 * m * 2 ^ e], ties to even: the
    hundredths of the number [m * 2 ^ e]. *)
Definition nearest_hundredth (m : positive) (e : Z) (h : Z) : Prop :=
  let num := 100 * Zpos m * 2 ^ Z.max e 0 in
  let den := 2 ^ Z.max (- e) 0 in
  2 * Z.abs (num - h * den) <= den /\
  (2 * Z.abs (num - h * den) = den -> Z.even h = true).

(** The decimal digits at the head of a text, and what follows. *)
Fixpoint leading_digits (l : list ascii) : list ascii * list ascii :=
  match l with
  | c :: rest =>
      if is_digit c
      then let '(ds, r) := leading_digits rest in (c :: ds, r)
      else ([], l)
  | [] => ([], [])
  end.

(** A minus sign at the head of a text, and what follows. *)
Definition minus_sign (l : list ascii) : bool * list ascii :=
  match l with
  | c :: rest => if Ascii.eqb c "-" then (true, rest) else (false, l)
  | [] => (false, [])
  end.

(** A price read back from its text: an optional minus sign, the digits
    of the whole part without a leading zero (a single zero for no whole
    part), a point and two digits.  The result is the sign and the number
    of hundredths. *)
Definition read_price (text : string) : option (bool * Z) :=
  let '(neg, l) := minus_sign (list_ascii_of_string text) in
  match leading_digits l with
  | (w :: ws, p :: d1 :: d2 :: []) =>
      if Ascii.eqb p "." && is_digit d1 && is_digit d2
         && (negb (Ascii.eqb w "0") || match ws with [] => true | _ => false end)
      then Some (neg, digits_value 0 (w :: ws ++ [d1; d2]))
      else None
  | _ => None
  end.

(** The text of [two_digits r] is two digits of value [r]. *)
Definition two_digits_ok (r : Z) : bool :=
  match list_ascii_of_string (two_digits r) with
  | [d1; d2] =>
      is_digit d1 && is_digit d2
      && (10 * (Z.of_nat (nat_of_ascii d1) - 48)
          + (Z.of_nat (nat_of_ascii d2) - 48) =? r)
  | _ => false
  end.

(** [text] shows the number [x] to two decimals. *)
Definition two_decimals (x : float) (text : string) : Prop :=
  match x with
  | S754_finite s m e =>
      exists h, nearest_hundredth m e h /\ read_price text = Some (s, h)
  | S754_zero s => read_price text = Some (s, 0)
  | S754_infinity s => text = if s then "-inf" else "inf"
  | S754_nan => text = "nan"
  end.

Section ExportSpec.
Context `{RT : PyRuntime}.

(** A result the exporters can price: the pricing data of a success is an
    object, and an average price in it is a number or the text of one. *)
Definition priced (r : Result.t) : Prop :=
  (Result.success r = true -> exists items, Result.data r = Some (JObj items)) /\
  (forall avg, average_price_of r = Some avg -> exists f, py_float avg = Returned f).

(** The price the upload export is to show for a result:
    [avg_price * (1 + markup / 100)], computed in binary64 (53 bits of
    precision, exponents below 1024), to two decimals; "0.00" without an
    average price. *)
Definition shows_price (markup_percent : spec_float) (r : Result.t)
    (price : string) : Prop :=
  match average_price_of r with
  | Some avg =>
      exists f,
        py_float avg = Returned f /\
        two_decimals
          (SFmul 53 1024 f
             (SFadd 53 1024 (binary_normalize 53 1024 1 0 false)
                (SFdiv 53 1024 markup_percent
                       (binary_normalize 53 1024 100 0 false))))
          price
  | None => price = "0.00"
  end.

(** The average price the simplified export is to show for a result. *)
Definition spec_average_price (r : Result.t) : option float :=
  match average_price_of r with
  | Some avg =>
      match py_float avg with
      | Returned f => Some f
      | Raised _ => None
      end
  | None => None
  end.

(** The entry of the simplified export for a result. *)
Definition spec_entry (r : Result.t) (e : Simplified.entry) : Prop :=
  Simplified.item_id e = Result.itemid r /\
  Simplified.item_type e = Result.item_type r /\
  Simplified.amount e = default 1 (Result.quantity r) /\
  if Result.success r
  then Simplified.average_price e = spec_average_price r /\
       Simplified.error e = None
  else Simplified.average_price e = None /\
       Simplified.error e = Some (default JNull (Result.error r)).

(** A result both exporters accept: it can be priced, and a success has
    its condition. *)
Definition exportable (r : Result.t) : Prop :=
  priced r /\ (Result.success r = true -> is_Some (Result.condition r)).
End ExportSpec.

(** A successful result whose pricing data is the average price [avg]. *)
Definition success_with_avg (avg : string) (item_id item_type : string)
    (condition : option string) (quantity : option Z) : Result.t :=
  Result.mk true item_id item_type (Some condition)
            (Some (JObj [("avg_price", JStr avg)])) None None quantity.

(** A failure dict has no ['condition'] key. *)
Definition failure_without_condition (r : Result.t) : Prop :=
  Result.success r = false -> Result.condition r = None.

Section ExportConditionSpec.
Context `{RT : PyRuntime}.

(** What the two exporters record as the condition of a result. *)
Definition exports_condition (r : Result.t) (condition : string) : Prop :=
  (forall markup_percent,
     exists block,
       upload_item markup_percent r = Returned block /\
       block !! 7%nat
       = Some ("        <CONDITION>" +:+ condition +:+ "</CONDITION>")) /\
  (exists e,
     simplified_entry r = Returned e /\
     Simplified.condition e = Some condition).
End ExportConditionSpec.

(** *** An example runtime

    Its tables know the white space of Unicode, the Arabic-Indic, extended
    Arabic-Indic and fullwidth decimal digits and the superscript digits;
    the limit of [int] is the default of 4300 digits, checked as CPython
    3.11 does. *)
Definition example_isspace (ch : N) : bool :=
  existsb (N.eqb ch)
          [133; 160; 5760; 8192; 8193; 8194; 8195; 8196; 8197; 8198; 8199;
           8200; 8201; 8202; 8232; 8233; 8239; 8287; 12288]%N.

Definition example_todecimal (ch : N) : option N :=
  (if (1632 <=? ch) && (ch <=? 1641) then Some (ch - 1632)
   else if (1776 <=? ch) && (ch <=? 1785) then Some (ch - 1776)
   else if (65296 <=? ch) && (ch <=? 65305) then Some (ch - 65296)
   else None)%N.

Definition example_isdigit (ch : N) : bool :=
  match example_todecimal ch with
  | Some _ => true
  | None =>
      existsb (N.eqb ch) [178; 179; 185; 8304; 8308; 8309; 8310; 8311; 8312;
                          8313]%N
  end.

(** [repr] of a text of printable characters without quotes or
    backslashes. *)
Definition example_str_repr (s : string) : string := "'" +:+ s +:+ "'".

Definition example_runtime : PyRuntime.
Proof.
  refine {| unicode_isspace := example_isspace;
            unicode_todecimal := example_todecimal;
            unicode_isdigit := example_isdigit;
            int_max_str_digits := 4300;
            int_limit_first := true;
            str_repr := example_str_repr |}.
  intros cp d. unfold example_todecimal.
  repeat match goal with
         | |- context [if ?b then _ else _] => destruct b eqn:?
         end; intros [= <-];
    repeat match goal with
           | E : (_ && _) = true |- _ => apply andb_true_iff in E; destruct E
           end;
    repeat match goal with
           | E : (_ <=? _)%N = true |- _ => apply N.leb_le in E
           end; lia.
Defined.

(** ** Further specification-side definitions *)

(** What the pipeline relies on in a Line Item of the parser. *)
Definition parsed_ok (item : LineItem.t) : Prop :=
  (exists api, api_type_of (LineItem.itemtype item) = Returned api) /\
  LineItem.itemid item <> "" /\
  0 <= LineItem.quantity item.

(** The fields of a Result the fallback leaves alone. *)
Definition same_but_data (final result : Result.t) : Prop :=
  Result.success final = Result.success result /\
  Result.itemid final = Result.itemid result /\
  Result.item_type final = Result.item_type result /\
  Result.condition final = Result.condition result /\
  Result.quantity final = Result.quantity result.

(** The lookups of the log made at [site]. *)
Definition lookups_at (site : Site) (log : list Lookup) : list Lookup :=
  List.filter (fun l => bool_decide (lk_site l = site)) log.

(** The log of a run on the Line Items [done]: every lookup of a line
    item is for an item of [done] that passes the condition filter, every
    fallback lookup asks for condition "N" after the lookup of the same
    item for condition "U", and there are at most two lookups, one of
    them of a line item, per Line Item. *)
Definition log_ok (condition_filter : option string) (done : list LineItem.t)
    (log : list Lookup) : Prop :=
  (forall l, l ∈ log -> lk_site l = Primary ->
     exists item, item ∈ done /\
       eligible condition_filter item = true /\
       ITEM_TYPE_MAP !! LineItem.itemtype item = Some (lk_item_type l) /\
       lk_item_id l = LineItem.itemid item /\
       lk_condition l = LineItem.condition item) /\
  (forall l, l ∈ log -> lk_site l = Fallback ->
     lk_condition l = Some "N" /\
     mkLookup Primary (lk_item_id l) (lk_item_type l) (Some "U") ∈ log) /\
  (length log <= 2 * length done)%nat /\
  (length (lookups_at Primary log) <= length done)%nat.

(** The locals of a run that has processed the Line Items [done] without
    raising. *)
Definition state_ok (condition_filter : option string) (done : list LineItem.t)
    (processed_items : gset string) (results : list Result.t)
    (log : list Lookup) : Prop :=
  (forall item, item ∈ done ->
     is_Some (ITEM_TYPE_MAP !! LineItem.itemtype item) /\
     (eligible condition_filter item = true ->
      unique_key (LineItem.itemid item) (LineItem.itemtype item)
                 (LineItem.condition item) ∈ processed_items)) /\
  length results = length (lookups_at Primary log) /\
  (forall r, r ∈ results ->
     exists item, item ∈ done /\
       eligible condition_filter item = true /\
       Result.itemid r = LineItem.itemid item /\
       ITEM_TYPE_MAP !! LineItem.itemtype item = Some (Result.item_type r) /\
       Result.quantity r = Some (LineItem.quantity item)).

(** ** Console summary *)

(** [c * n] for a one-character string. *)
Fixpoint repeat_char (c : ascii) (n : nat) : string :=
  match n with
  | O => ""
  | S n' => String c (repeat_char c n')
  end.

(** [f"{s:<width}"]: [s] padded with spaces on the right up to [width]
    characters. *)
Definition ljust (width : nat) (s : string) : string :=
  s +:+ repeat_char " " (width - py_len s).

(** [x > 1] for a decoded value: only numbers compare with an [int]. *)
Definition gt_1 (x : JSON) : PyResult bool :=
  match x with
  | JInt n => Returned (1 <? n)
  | JFloat f => Returned (SFltb (float_of_Z 1) f)
  | JBool _ => Returned false
  | _ => Raised (exn TypeError
                   ("'>' not supported between instances of '"
                    +:+ py_type_name x +:+ "' and 'int'"))
  end.

(** [f"{condition:<4}"]: a format specification is refused by [None]. *)
Definition format_condition (condition : option string) : PyResult string :=
  match condition with
  | Some c => Returned (ljust 4 c)
  | None => Raised (exn TypeError
                      "unsupported format string passed to NoneType.__format__")
  end.

(** [result['error']] *)
Definition result_error (r : Result.t) : PyResult JSON :=
  match Result.error r with
  | Some m => Returned m
  | None => Raised (exn KeyError "'error'")
  end.

Definition bar : string := repeat_char "=" 80.

Definition table_header : list string :=
  [ newline +:+ ljust 12 "Item" +:+ " " +:+ ljust 4 "Cond" +:+ " "
    +:+ ljust 3 "Qty" +:+ " " +:+ "Price Info";
    repeat_char "-" 12 +:+ " " +:+ repeat_char "-" 4 +:+ " "
    +:+ repeat_char "-" 3 +:+ " " +:+ repeat_char "-" 50 ].

Section Summary.
Context `{RT : PyRuntime}.

(** [str(x)] of a decoded value that is not a string. *)
Variable py_repr : JSON -> string.

(** [total_estimated_value += float(avg_price) * quantity] inside its
    [try]: a [ValueError] or a [TypeError] is passed over, any other
    exception goes on.  The total starts as the integer 0 and is a float
    from the first addition on; it is kept as a float throughout, which
    gives the same sums and the same comparison with 0. *)
Definition add_to_total (total : float) (avg_price : JSON) (quantity : Z)
  : PyResult float :=
  match py_float avg_price with
  | Returned f =>
      match float_of_Z quantity with
      | S754_infinity _ =>
          Raised (exn OverflowError "int too large to convert to float")
      | q => Returned (fadd total (fmul f q))
      end
  | Raised e =>
      match exn_class e with
      | ValueError | TypeError => Returned total
      | _ => Raised e
      end
  end.


(** [format_price_data] *)
Definition format_price_data (price_data : JSON) : PyResult string :=
  (if negb (truthy price_data) then Returned "No price data available"
   else
     let lines := [] in
     avg_price <- py_get price_data "avg_price" ;;
     let lines :=
       if truthy avg_price
       then lines ++ ["Average: $" +:+ py_str py_repr avg_price]
       else lines in
     min_price <- py_get price_data "min_price" ;;
     max_price <- py_get price_data "max_price" ;;
     let lines :=
       if truthy min_price && truthy max_price
       then lines ++ ["Range: $" +:+ py_str py_repr min_price +:+ " - $"
                      +:+ py_str py_repr max_price]
       else lines in
     qty_avg_price <- py_get price_data "qty_avg_price" ;;
     let lines :=
       if truthy qty_avg_price
       then lines ++ ["Qty Available: " +:+ py_str py_repr qty_avg_price]
       else lines in
     unit_quantity <- py_get_default price_data "unit_quantity" (JInt 1) ;;
     more <- gt_1 unit_quantity ;;
     let lines :=
       if more
       then lines ++ ["Price per " +:+ py_str py_repr unit_quantity +:+ " units"]
       else lines in
     Returned (match lines with
               | [] => "No pricing information"
               | _ => join " | " lines
               end))%py.

(** The line of the table for a successful result (lines 304-309). *)
Definition summary_row (result : Result.t) : PyResult string :=
  (let itemid := Result.itemid result in
   condition <- result_condition result ;;
   let quantity := default 1 (Result.quantity result) in
   d <- result_data result ;;
   price_info <- format_price_data d ;;
   condition_text <- format_condition condition ;;
   Returned (ljust 12 itemid +:+ " " +:+ condition_text +:+ " "
             +:+ ljust 3 (pretty quantity) +:+ " " +:+ price_info))%py.

(** What a successful result adds to the total (lines 311-316). *)
Definition summary_value (total : float) (result : Result.t) : PyResult float :=
  (d <- result_data result ;;
   avg_price <- py_get d "avg_price" ;;
   if truthy avg_price
   then add_to_total total avg_price (default 1 (Result.quantity result))
   else Returned total)%py.

(** The loop over the successful results: the lines printed so far and
    the total. *)
Fixpoint summary_rows (successful : list Result.t) (out : list string)
    (total : float) : list string * PyResult float :=
  match successful with
  | [] => (out, Returned total)
  | result :: rest =>
      match summary_row result with
      | Raised e => (out, Raised e)
      | Returned line =>
          match summary_value total result with
          | Raised e => (out ++ [line], Raised e)
          | Returned total' => summary_rows rest (out ++ [line]) total'
          end
      end
  end.

(** The loop over the failed results (lines 323-324). *)
Fixpoint summary_failures (failed : list Result.t) (out : list string)
  : list string * PyResult unit :=
  match failed with
  | [] => (out, Returned tt)
  | result :: rest =>
      match result_error result with
      | Raised e => (out, Raised e)
      | Returned m =>
          summary_failures rest
            (out ++ ["  " +:+ Result.itemid result +:+ ": " +:+ py_str py_repr m])
      end
  end.

(** [print_price_summary]: the texts of its [print] calls, in order, and
    its outcome. *)
Definition print_price_summary (results : list Result.t)
  : list string * PyResult unit :=
  let successful := List.filter Result.success results in
  let failed := List.filter (fun r => negb (Result.success r)) results in
  let out :=
    [ newline +:+ bar;
      "PRICE SUMMARY";
      bar;
      "Successfully retrieved: " +:+ pretty (Z.of_nat (length successful))
      +:+ " prices";
      "Failed: " +:+ pretty (Z.of_nat (length failed)) +:+ " items";
      bar ] in
  let '(out, table) :=
    match successful with
    | [] => (out, Returned tt)
    | _ =>
        match summary_rows successful (out ++ table_header) (float_of_Z 0) with
        | (out, Raised e) => (out, Raised e)
        | (out, Returned total) =>
            (if SFltb (float_of_Z 0) total
             then out ++ [newline +:+ "Estimated Total Collection Value: $"
                          +:+ format_2f total]
             else out,
             Returned tt)
        end
    end in
  match table with
  | Raised e => (out, Raised e)
  | Returned _ =>
      match failed with
      | [] => (out, Returned tt)
      | _ => summary_failures failed (out ++ [newline +:+ "FAILED TO GET PRICES FOR:"])
      end
  end.
End Summary.

(** ** Client construction and export file names *)

(** The four credentials of [BricklinkAPI]. *)
Record Credentials := mkCredentials {
  consumer_key : string;
  consumer_secret : string;
  token_key : string;
  token_secret : string
}.

Definition missing_credentials_message : string :=
  "Missing BrickLink API credentials. Please create a .env file with:"
  +:+ newline +:+ "BRICKLINK_CONSUMER_KEY=your_consumer_key"
  +:+ newline +:+ "BRICKLINK_CONSUMER_SECRET=your_consumer_secret"
  +:+ newline +:+ "BRICKLINK_TOKEN_KEY=your_token_key"
  +:+ newline +:+ "BRICKLINK_TOKEN_SECRET=your_token_secret".

(** [BricklinkAPI.__init__] up to the creation of the session: [getenv] is
    [os.getenv] on the environment of the process. *)
Definition BricklinkAPI_init (getenv : string -> option string)
  : PyResult Credentials :=
  let consumer_key := getenv "BRICKLINK_CONSUMER_KEY" in
  let consumer_secret := getenv "BRICKLINK_CONSUMER_SECRET" in
  let token_key := getenv "BRICKLINK_TOKEN_KEY" in
  let token_secret := getenv "BRICKLINK_TOKEN_SECRET" in
  if negb (forallb truthy_str
             [consumer_key; consumer_secret; token_key; token_secret])
  then Raised (exn ValueError missing_credentials_message)
  else Returned (mkCredentials (str_of consumer_key) (str_of consumer_secret)
                               (str_of token_key) (str_of token_secret)).

(** The characters before the last ["."] of a reversed text, reversed
    again; [None] without a dot. *)
Fixpoint before_last_dot (reversed : list ascii) : option (list ascii) :=
  match reversed with
  | [] => None
  | c :: rest => if Ascii.eqb c "." then Some (rev rest) else before_last_dot rest
  end.

(** [s.rsplit('.', 1)[0]] *)
Definition rsplit_dot_head (s : string) : string :=
  match before_last_dot (rev (list_ascii_of_string s)) with
  | Some head => string_of_list_ascii head
  | None => s
  end.

(** The three files [main] writes for [--export name] (lines 545-563):
    the upload document, the simplified and the detailed export. *)
Definition export_files (name : string) : string * string * string :=
  let base_name := rsplit_dot_head name in
  (base_name +:+ ".xml", base_name +:+ ".json", base_name +:+ "_detailed.json").

(** *** Specification-side definitions for the summary *)

(** An integer that converts to a float. *)
Definition float_sized (n : Z) : Prop :=
  match float_of_Z n with
  | S754_infinity _ => False
  | _ => True
  end.

(** A result the summary can print: a success with a condition text, an
    object as pricing data whose unit quantity, if any, is a number, a
    quantity and an integer average price that convert to a float; a
    failure with its error. *)
Definition summarizable (r : Result.t) : Prop :=
  if Result.success r then
    exists c items,
      Result.condition r = Some (Some c) /\
      Result.data r = Some (JObj items) /\
      (exists more, gt_1 (default (JInt 1) (assoc "unit_quantity" items))
                    = Returned more) /\
      float_sized (default 1 (Result.quantity r)) /\
      (forall n, assoc "avg_price" items = Some (JInt n) -> float_sized n)
  else is_Some (Result.error r).

(** The first six lines of the summary. *)
Definition summary_head (successes failures : nat) : list string :=
  [ newline +:+ bar;
    "PRICE SUMMARY";
    bar;
    "Successfully retrieved: " +:+ pretty (Z.of_nat successes) +:+ " prices";
    "Failed: " +:+ pretty (Z.of_nat failures) +:+ " items";
    bar ].

(** The names of the environment variables of the credentials. *)
Definition credential_names : list string :=
  [ "BRICKLINK_CONSUMER_KEY"; "BRICKLINK_CONSUMER_SECRET";
    "BRICKLINK_TOKEN_KEY"; "BRICKLINK_TOKEN_SECRET" ].

(** The text has a dot. *)
Definition has_dot (s : string) : Prop := In "."%char (list_ascii_of_string s).

(** An inventory of a used minifigure and a new part. *)
Definition example_inventory : Element :=
  Elem "INVENTORY" None
    [ Elem "ITEM" None
        [ Elem "ITEMTYPE" (Some "M") []; Elem "ITEMID" (Some "sw0001") [];
          Elem "QTY" (Some "2") []; Elem "CONDITION" (Some "U") [] ];
      Elem "ITEM" None
        [ Elem "ITEMTYPE" (Some "P") []; Elem "ITEMID" (Some "3001") [];
          Elem "COLOR" (Some "5") []; Elem "CONDITION" (Some "N") [] ] ].

(** * Properties *)

(** ** The type map *)

Lemma ITEM_TYPE_MAP_lookup (t a : string) :
  ITEM_TYPE_MAP !! t = Some a <->
  (t = "M" /\ a = "MINIFIG") \/ (t = "P" /\ a = "PART") \/ (t = "S" /\ a = "SET").
Proof.
  unfold ITEM_TYPE_MAP.
  rewrite !lookup_insert_Some, lookup_empty.
  split.
  - intros [[<- <-] | [_ [[<- <-] | [_ [[<- <-] | [_ H]]]]]]; auto; discriminate.
  - intros [[-> ->] | [[-> ->] | [-> ->]]].
    + left; auto.
    + right; split; [discriminate|]. left; auto.
    + right; split; [discriminate|]. right; split; [discriminate|]. left; auto.
Qed.

Lemma ITEM_TYPE_MAP_codes (t : string) :
  is_Some (ITEM_TYPE_MAP !! t) <-> t ∈ type_codes.
Proof.
  unfold type_codes. rewrite !elem_of_cons, elem_of_nil. split.
  - intros [a Ha]. apply ITEM_TYPE_MAP_lookup in Ha.
    destruct Ha as [[-> _] | [[-> _] | [-> _]]]; auto.
  - intros [-> | [-> | [-> | []]]]; eexists; apply ITEM_TYPE_MAP_lookup; eauto.
Qed.

Lemma ITEM_TYPE_MAP_inj (t t' a : string) :
  ITEM_TYPE_MAP !! t = Some a -> ITEM_TYPE_MAP !! t' = Some a -> t = t'.
Proof.
  rewrite !ITEM_TYPE_MAP_lookup.
  intros [[-> ->] | [[-> ->] | [-> ->]]] [[-> E] | [[-> E] | [-> E]]];
    try reflexivity; discriminate.
Qed.

(** ** Inventory parser *)

Section ParserProperties.
Context `{RT : PyRuntime}.

(** One iteration of the loop: a valid entry gives its Line Item unless
    its quantity field cannot be read. *)
Lemma parse_entry_cases (item : Element) :
  parse_entry item =
  if spec_entry_valid item
  then match qty_error item with
       | Some e => Raised e
       | None => Returned (Some (spec_line_item item))
       end
  else Returned None.
Proof.
  unfold parse_entry, spec_entry_valid, qty_error, spec_line_item,
    spec_quantity, qty_value.
  destruct (find "ITEMTYPE" item) as [ty|]; [|reflexivity].
  destruct (find "ITEMID" item) as [id|]; [|reflexivity].
  destruct (etext ty) as [t|]; [|reflexivity].
  destruct (etext id) as [i|]; [|reflexivity].
  rewrite (bool_decide_ext _ _ (ITEM_TYPE_MAP_codes t)).
  destruct (bool_decide (t ∈ type_codes) && negb (String.eqb i "")); [|reflexivity].
  destruct (find "QTY" item) as [q|]; [|reflexivity].
  destruct (etext q) as [s|]; [|reflexivity].
  destruct (isdigit s); [|reflexivity].
  destruct (py_int s); reflexivity.
Qed.

Lemma parse_items_cases (entries : list Element) :
  forall items,
    parse_items entries items =
    match first_qty_error entries with
    | Some e => Raised e
    | None => Returned (items ++ map spec_line_item
                                     (List.filter spec_entry_valid entries))
    end.
Proof.
  induction entries as [|item rest IH]; intros items;
    cbn [parse_items first_qty_error].
  - cbn. now rewrite app_nil_r.
  - rewrite parse_entry_cases. cbn [List.filter].
    destruct (spec_entry_valid item); cbn [pbind].
    + destruct (qty_error item); cbn [pbind]; [reflexivity|].
      rewrite IH. destruct (first_qty_error rest); [reflexivity|].
      cbn [map]. now rewrite <- app_assoc.
    + apply IH.
Qed.

Lemma first_qty_error_readable (entries : list Element) :
  Forall qty_readable entries -> first_qty_error entries = None.
Proof.
  induction 1 as [|item rest Hq _ IH]; cbn [first_qty_error]; [reflexivity|].
  unfold qty_readable in Hq. rewrite Hq, IH. now destruct (spec_entry_valid item).
Qed.

(** When every quantity field can be read, the parser returns the line
    items of the specification and prints nothing. *)
Lemma parse_xml_inventory_spec (ET_parse : string -> PyResult Element)
    (xml_file : string) (root : Element) :
  ET_parse xml_file = Returned root ->
  Forall qty_readable (findall_descendants "ITEM" root) ->
  parse_xml_inventory ET_parse xml_file = ([], Returned (spec_inventory root)).
Proof.
  intros Hp Hq. unfold parse_xml_inventory, parse_try. rewrite Hp.
  cbn [pbind]. rewrite parse_items_cases, (first_qty_error_readable _ Hq).
  reflexivity.
Qed.

(** The defaults of the specification: quantity 1 without a numeric
    quantity field, condition "U" without a condition field. *)
Lemma spec_line_item_defaults (item : Element) :
  (find "QTY" item = None -> LineItem.quantity (spec_line_item item) = 1) /\
  (forall q s, find "QTY" item = Some q -> etext q = Some s -> isdigit s = false ->
               LineItem.quantity (spec_line_item item) = 1) /\
  (find "CONDITION" item = None ->
   LineItem.condition (spec_line_item item) = Some "U").
Proof.
  unfold spec_line_item, spec_quantity; simpl. repeat split.
  - now intros ->.
  - intros q s -> -> ->. reflexivity.
  - now intros ->.
Qed.

(** C4: the parser is claimed to include one Line Item per entry with a
    valid type code and a non-empty identifier, with quantity 1 when the
    quantity field is not numeric.  On a document whose second valid entry
    has an empty quantity element the code fails on [qty.text.isdigit()],
    the generic handler catches the error, and the parser returns no Line
    Item at all instead of the two the claim promises. *)
Theorem parse_xml_inventory_empty_qty :
  parse_xml_inventory (fun _ => Returned inventory_with_empty_qty) "Parts.xml"
  = (["Error reading XML file: 'NoneType' object has no attribute 'isdigit'"],
     Returned [])
  /\ length (spec_inventory inventory_with_empty_qty) = 2%nat.
Proof. split; reflexivity. Qed.

(** C7: the parser never raises: it always returns, and when reading or
    parsing the file fails (the file is absent: [FileNotFoundError]; the
    file is malformed: [ParseError]) it prints one line reporting the error
    and returns the empty list. *)
Theorem parse_xml_inventory_never_raises
    (ET_parse : string -> PyResult Element) (xml_file : string) :
  (exists out items,
     parse_xml_inventory ET_parse xml_file = (out, Returned items)) /\
  (forall msg r,
     ET_parse xml_file = Raised (mkExn FileNotFoundError msg r) ->
     parse_xml_inventory ET_parse xml_file
     = (["Error: XML file '" +:+ xml_file +:+ "' not found."], Returned [])) /\
  (forall msg r,
     ET_parse xml_file = Raised (mkExn ParseError msg r) ->
     parse_xml_inventory ET_parse xml_file
     = (["Error parsing XML file: " +:+ msg], Returned [])).
Proof.
  unfold parse_xml_inventory. repeat split.
  - destruct (parse_try (ET_parse xml_file)); eauto.
  - intros msg r ->. reflexivity.
  - intros msg r ->. reflexivity.
Qed.
End ParserProperties.

Section ParserExamples.
#[local] Existing Instance example_runtime.

Lemma parse_xml_inventory_never_raises_witness :
  parse_xml_inventory (fun _ => Raised (exn FileNotFoundError "No such file"))
                      "Sets.xml"
  = (["Error: XML file 'Sets.xml' not found."], Returned []).
Proof.
  apply (proj1 (proj2 (parse_xml_inventory_never_raises
                         (fun _ => Raised (exn FileNotFoundError "No such file"))
                         "Sets.xml")) "No such file" None).
  reflexivity.
Defined.
End ParserExamples.

(** ** Price client *)

Section ClientProperties.
Variable World : Type.
Variable session_get : World -> string -> Params -> PyResult Response * World.
Variable py_repr : JSON -> string.

Abbreviation get_item_price := (get_item_price World session_get py_repr).

Lemma handle_exception_failure (item_id item_type : string) (e : PyExn) :
  let r := handle_exception item_id item_type e in
  Result.success r = false /\ Result.itemid r = item_id /\
  Result.item_type r = item_type /\ Result.condition r = None /\
  Result.data r = None /\ is_Some (Result.error r) /\
  is_Some (Result.status_code r) /\ Result.quantity r = None.
Proof. simpl. repeat split; eauto. Qed.

(** What [read_response] answers, by API-level success. *)
Lemma read_response_cases (item_id item_type : string)
    (condition : option string) (response : Response) :
  match api_payload (Returned response) with
  | Some payload =>
      read_response py_repr item_id item_type condition response
      = Returned (Result.mk true item_id item_type (Some condition)
                            (Some payload) None None None)
  | None =>
      match read_response py_repr item_id item_type condition response with
      | Returned r =>
          Result.success r = false /\ Result.itemid r = item_id /\
          Result.item_type r = item_type /\ Result.condition r = None /\
          Result.data r = None /\ is_Some (Result.error r) /\
          is_Some (Result.status_code r) /\ Result.quantity r = None
      | Raised _ => True
      end
  end.
Proof.
  unfold api_payload, read_response, response_json.
  destruct (json response) as [msg | body]; simpl; [exact I|].
  destruct body; simpl; try exact I.
  destruct (assoc "meta" items) as [meta|] eqn:Hmeta; simpl.
  - destruct meta; simpl; try exact I.
    unfold py_get; simpl.
    destruct (assoc "code" items0) as [code|]; simpl.
    + destruct (eq_200 code); simpl; [reflexivity|].
      repeat split; eauto.
    + repeat split; eauto.
  - repeat split; eauto.
Qed.

(** The shape of every result of the client. *)
Lemma get_item_price_cases (w : World) (item_id item_type : string)
    (condition : option string) :
  let answer := session_get w (price_url item_type item_id)
                            (price_params condition) in
  exists r,
    get_item_price w item_id item_type condition = (Returned r, snd answer) /\
    match api_payload (fst answer) with
    | Some payload =>
        r = Result.mk true item_id item_type (Some condition) (Some payload)
                      None None None
    | None =>
        Result.success r = false /\ Result.itemid r = item_id /\
        Result.item_type r = item_type /\ Result.condition r = None /\
        Result.data r = None /\ is_Some (Result.error r) /\
        is_Some (Result.status_code r) /\ Result.quantity r = None
    end.
Proof.
  unfold get_item_price.
  destruct (session_get w (price_url item_type item_id) (price_params condition))
    as [answer w']; cbn [fst snd].
  destruct answer as [response | e]; cbn [pbind].
  - pose proof (read_response_cases item_id item_type condition response) as H.
    destruct (api_payload (Returned response)) as [payload|].
    + rewrite H. eauto.
    + destruct (read_response py_repr item_id item_type condition response).
      * eauto.
      * eexists; split; [reflexivity|]. apply handle_exception_failure.
  - eexists; split; [reflexivity|]. apply handle_exception_failure.
Qed.

Lemma get_item_price_returns (w : World) (item_id item_type : string)
    (condition : option string) :
  exists r w',
    get_item_price w item_id item_type condition = (Returned r, w') /\
    client_result item_id item_type condition r.
Proof.
  destruct (get_item_price_cases w item_id item_type condition) as [r [E H]].
  exists r; eexists; split; [exact E|].
  destruct (api_payload _).
  - subst r. unfold client_result; simpl. eauto 10.
  - destruct H as (Hs & ? & ? & ? & ? & ? & ? & ?).
    unfold client_result. rewrite Hs. eauto 10.
Qed.

(** C8 (amended): the fetch of the price client never raises, and the
    result it returns for the requested item is the tagged result of the
    outcome the contract describes for the answer of the service: a
    success with the payload's pricing data on API-level success (the
    metadata of the body carries code 200); a failure with the server's
    message and description and the HTTP status of the response on an
    API-level error; a failure with the message and the status of the
    response attached to the exception when the transport raises; and a
    failure with the text of the error and no status code when there is no
    response to take one from (an exception without a response, a body that
    does not decode or is no object). *)
Theorem get_item_price_tagged_result (w : World) (item_id item_type : string)
    (condition : option string) :
  let answer := session_get w (price_url item_type item_id)
                            (price_params condition) in
  get_item_price w item_id item_type condition
  = (Returned (result_of_outcome item_id item_type condition
                 (spec_fetch py_repr (fst answer))),
     snd answer).
Proof.
  unfold get_item_price.
  destruct (session_get w (price_url item_type item_id) (price_params condition))
    as [answer w']; cbn [fst snd].
  destruct answer as [response | e]; cbn [pbind spec_fetch].
  - unfold read_response, response_json.
    destruct (json response) as [msg | body]; cbn [pbind].
    { reflexivity. }
    destruct body as [| | | | |l|items]; try reflexivity.
    cbn [py_get_default pbind].
    change (match assoc "meta" items with Some v => v | None => JObj [] end)
      with (default (JObj []) (assoc "meta" items)).
    destruct (default (JObj []) (assoc "meta" items)) as [| | | | |l|meta];
      try reflexivity.
    cbn [py_get py_get_default pbind].
    change (match assoc "code" meta with Some v => v | None => JNull end)
      with (default JNull (assoc "code" meta)).
    destruct (eq_200 (default JNull (assoc "code" meta))); reflexivity.
  - unfold handle_exception, result_of_outcome.
    destruct (exn_response e) as [[r|]|]; try reflexivity.
    do 3 f_equal. unfold handler_message, response_error, response_json.
    destruct (json r) as [msg | body]; [reflexivity|].
    destruct body as [| | | | |l|items]; try reflexivity.
    cbn [py_get_default pbind].
    change (match assoc "meta" items with Some v => v | None => JObj [] end)
      with (default (JObj []) (assoc "meta" items)).
    destruct (default (JObj []) (assoc "meta" items)) as [| | | | |l|meta];
      try reflexivity.
Qed.
End ClientProperties.

(** C8 (as stated): a failure does not always carry a status code.  When
    the service cannot be reached the transport raises an exception that
    has no response: the result is a failure with the text of the
    exception whose status code is [None]. *)
Lemma failure_without_status_code :
  exists r,
    get_item_price unit unreachable_service example_repr tt
                   "sw0001" "MINIFIG" (Some "N")
    = (Returned r, tt) /\
    Result.success r = false /\
    Result.error r = Some (JStr "Connection refused") /\
    Result.status_code r = Some None /\
    ~ carries_message_and_status r.
Proof.
  eexists. split; [reflexivity|]. repeat split.
  intros [_ (message & code & _ & Hcode)]. discriminate Hcode.
Qed.

(** ** Pricing pipeline *)

Lemma length_append (s1 s2 : string) :
  String.length (s1 +:+ s2) = (String.length s1 + String.length s2)%nat.
Proof. induction s1 as [|c s1 IH]; simpl; [reflexivity | now rewrite IH]. Qed.

Lemma append_inj_same_length (s1 s2 x y : string) :
  String.length x = String.length y ->
  s1 +:+ x = s2 +:+ y -> s1 = s2 /\ x = y.
Proof.
  intros Hlen. revert s2.
  induction s1 as [|c s1 IH]; intros [|c' s2] H; simpl in H.
  - auto.
  - exfalso. apply (f_equal String.length) in H. simpl in H.
    rewrite !length_append in H. simpl in H. lia.
  - exfalso. apply (f_equal String.length) in H. simpl in H.
    rewrite !length_append in H. simpl in H. lia.
  - injection H as -> H. destruct (IH _ H) as [-> ->]. auto.
Qed.

(** On the Line Items of the data model the key string determines the
    triple. *)
Lemma unique_key_inj (i j : LineItem.t) :
  valid_item i -> valid_item j ->
  unique_key (LineItem.itemid i) (LineItem.itemtype i) (LineItem.condition i)
  = unique_key (LineItem.itemid j) (LineItem.itemtype j) (LineItem.condition j) ->
  key_triple i = key_triple j.
Proof.
  unfold valid_item, key_triple, unique_key, type_codes.
  destruct i as [id1 t1 ? ? c1], j as [id2 t2 ? ? c2]; simpl.
  rewrite !elem_of_cons, !elem_of_nil.
  intros [Ht1 Hc1] [Ht2 Hc2] H.
  apply append_inj_same_length in H.
  - destruct H as [-> H].
    destruct Ht1 as [-> | [-> | [-> | []]]], Ht2 as [-> | [-> | [-> | []]]],
             Hc1 as [-> | [-> | []]], Hc2 as [-> | [-> | []]];
      simpl in H; solve [reflexivity | discriminate H].
  - destruct Ht1 as [-> | [-> | [-> | []]]], Ht2 as [-> | [-> | [-> | []]]],
             Hc1 as [-> | [-> | []]], Hc2 as [-> | [-> | []]]; reflexivity.
Qed.

Section PipelineProperties.
Variable World : Type.
Variable session_get : World -> string -> Params -> PyResult Response * World.
Variable py_repr : JSON -> string.

Abbreviation get_item_price := (get_item_price World session_get py_repr).
Abbreviation fetch := (fetch World session_get py_repr).
Abbreviation used_price_fallback :=
  (used_price_fallback World session_get py_repr).
Abbreviation process_item := (process_item World session_get py_repr).
Abbreviation process_items := (process_items World session_get py_repr).
Abbreviation get_prices_for_inventory :=
  (get_prices_for_inventory World session_get py_repr).

Lemma fetch_returns (site : Site) (item_id item_type : string)
    (condition : option string) (env : Env World) :
  exists r w',
    get_item_price (world env) item_id item_type condition = (Returned r, w') /\
    fetch site item_id item_type condition env
    = (Returned r,
       mkEnv w' (lookups env ++ [mkLookup site item_id item_type condition])) /\
    client_result item_id item_type condition r.
Proof.
  destruct (get_item_price_returns World session_get py_repr (world env)
              item_id item_type condition) as (r & w' & E & H).
  exists r, w'. unfold fetch. rewrite E. auto.
Qed.

(** The fallback adds no lookup or exactly one, for condition "N". *)
Lemma used_price_fallback_log (itemid api_type : string)
    (condition : option string) (result : Result.t) (env : Env World) :
  let out := used_price_fallback itemid api_type condition result env in
  lookups (snd out) = lookups env \/
  (condition = Some "U" /\
   lookups (snd out)
   = lookups env ++ [mkLookup Fallback itemid api_type (Some "N")]).
Proof.
  unfold used_price_fallback, mbind, lift, mret.
  destruct (bool_decide (condition = Some "U")) eqn:Hc; cbn [andb snd]; [|auto].
  apply bool_decide_eq_true in Hc.
  destruct (Result.success result); cbn [snd]; [|auto].
  destruct (result_data result) as [d|]; cbn [snd]; [|auto].
  destruct (py_get d "avg_price") as [avg|]; cbn [snd]; [|auto].
  destruct (truthy avg); cbn [negb snd]; [auto|].
  destruct (fetch_returns Fallback itemid api_type (Some "N") env)
    as (nr & w' & _ & E & _).
  rewrite E.
  right. split; [exact Hc|].
  destruct (Result.success nr); cbn [snd]; [|reflexivity].
  destruct (result_data nr) as [nd|]; cbn [snd]; [|reflexivity].
  destruct (py_get nd "avg_price") as [navg|]; cbn [snd]; [|reflexivity].
  destruct (truthy navg); reflexivity.
Qed.

Lemma api_type_of_Returned (itemtype api : string) :
  api_type_of itemtype = Returned api <-> ITEM_TYPE_MAP !! itemtype = Some api.
Proof.
  unfold api_type_of. destruct (ITEM_TYPE_MAP !! itemtype); split; congruence.
Qed.

Lemma log_inv_grow (processed : gset string) (key : string)
    (log : list Lookup) :
  log_inv processed log -> log_inv (processed ∪ {[ key ]}) log.
Proof.
  intros [Hnd H]. split; [exact Hnd|].
  intros l Hl. destruct (H l Hl) as (t & Ht & Hk). exists t. split; [exact Ht|].
  destruct (lk_site l); [|destruct Hk]; set_solver.
Qed.

Lemma log_inv_primary (processed : gset string) (log : list Lookup)
    (itemid itemtype api : string) (condition : option string) :
  log_inv processed log ->
  ITEM_TYPE_MAP !! itemtype = Some api ->
  unique_key itemid itemtype condition ∉ processed ->
  log_inv (processed ∪ {[ unique_key itemid itemtype condition ]})
          (log ++ [mkLookup Primary itemid api condition]).
Proof.
  intros Hinv Hapi Hfresh.
  destruct (log_inv_grow processed (unique_key itemid itemtype condition) log Hinv)
    as [Hnd H].
  split.
  - apply NoDup_app. split; [exact Hnd|]. split; [|apply NoDup_singleton].
    intros l Hl Hl'. apply list_elem_of_singleton in Hl'. subst l.
    destruct Hinv as [_ Hinv]. destruct (Hinv _ Hl) as (t & Ht & Hk).
    simpl in Ht, Hk.
    rewrite (ITEM_TYPE_MAP_inj _ _ _ Ht Hapi) in Hk. contradiction.
  - intros l Hl. apply elem_of_app in Hl. destruct Hl as [Hl | Hl].
    + apply H, Hl.
    + apply list_elem_of_singleton in Hl. subst l. exists itemtype. simpl.
      split; [exact Hapi | set_solver].
Qed.

Lemma log_inv_fallback (processed : gset string) (log : list Lookup)
    (itemid itemtype api : string) :
  log_inv processed log ->
  ITEM_TYPE_MAP !! itemtype = Some api ->
  unique_key itemid itemtype (Some "U") ∉ processed ->
  log_inv (processed ∪ {[ unique_key itemid itemtype (Some "U") ]})
          ((log ++ [mkLookup Primary itemid api (Some "U")])
           ++ [mkLookup Fallback itemid api (Some "N")]).
Proof.
  intros Hinv Hapi Hfresh.
  destruct (log_inv_primary processed log itemid itemtype api (Some "U")
              Hinv Hapi Hfresh) as [Hnd H].
  split.
  - apply NoDup_app. split; [exact Hnd|]. split; [|apply NoDup_singleton].
    intros l Hl Hl'. apply list_elem_of_singleton in Hl'. subst l.
    apply elem_of_app in Hl. destruct Hl as [Hl | Hl].
    + destruct Hinv as [_ Hinv]. destruct (Hinv _ Hl) as (t & Ht & _ & Hk).
      simpl in Ht, Hk.
      rewrite (ITEM_TYPE_MAP_inj _ _ _ Ht Hapi) in Hk. contradiction.
    + apply list_elem_of_singleton in Hl. discriminate Hl.
  - intros l Hl. apply elem_of_app in Hl. destruct Hl as [Hl | Hl].
    + apply H, Hl.
    + apply list_elem_of_singleton in Hl. subst l. exists itemtype. simpl.
      split; [exact Hapi|]. split; [reflexivity | set_solver].
Qed.

(** One iteration keeps the invariant, whether it returns or raises. *)
Lemma process_item_inv (condition_filter : option string) (item : LineItem.t)
    (processed : gset string) (results : list Result.t) (env : Env World) :
  log_inv processed (lookups env) ->
  let out := process_item condition_filter item processed results env in
  exists processed',
    log_inv processed' (lookups (snd out)) /\
    forall st, fst out = Returned st -> fst st = processed'.
Proof.
  intros Hinv.
  unfold process_item, mbind, lift, mret.
  destruct (api_type_of (LineItem.itemtype item)) as [api|] eqn:Hapi;
    cbn [fst snd]; [|exists processed; split; [exact Hinv | discriminate]].
  apply api_type_of_Returned in Hapi.
  destruct (truthy_str condition_filter &&
            negb (bool_decide (LineItem.condition item = condition_filter)));
    cbn [fst snd];
    [exists processed; split; [exact Hinv | now intros st [= <-]]|].
  destruct (bool_decide (unique_key (LineItem.itemid item) (LineItem.itemtype item)
                           (LineItem.condition item) ∈ processed)) eqn:Hkey;
    cbn [fst snd];
    [exists processed; split; [exact Hinv | now intros st [= <-]]|].
  apply bool_decide_eq_false in Hkey.
  destruct (fetch_returns Primary (LineItem.itemid item) api
              (LineItem.condition item) env) as (r & w1 & _ & E & _).
  rewrite E.
  pose proof (used_price_fallback_log (LineItem.itemid item) api
                (LineItem.condition item)
                (Result.set_quantity (LineItem.quantity item) r)
                (mkEnv w1 (lookups env ++
                             [mkLookup Primary (LineItem.itemid item) api
                                       (LineItem.condition item)]))) as Hlog.
  cbv zeta in Hlog.
  destruct (used_price_fallback _ _ _ _ _) as [res env2].
  cbn [snd lookups] in Hlog.
  eexists. split.
  - destruct res; cbn [snd]; destruct Hlog as [-> | [Hc ->]].
    + apply log_inv_primary; eassumption.
    + rewrite Hc in *. apply log_inv_fallback; eassumption.
    + apply log_inv_primary; eassumption.
    + rewrite Hc in *. apply log_inv_fallback; eassumption.
  - destruct res; cbn [fst]; [now intros st [= <-] | discriminate].
Qed.

Lemma process_items_inv (condition_filter : option string)
    (items : list LineItem.t) :
  forall (processed : gset string) (results : list Result.t) (env : Env World),
    log_inv processed (lookups env) ->
    exists processed',
      log_inv processed'
        (lookups (snd (process_items condition_filter items processed
                                     results env))).
Proof.
  induction items as [|item rest IH]; intros processed results env Hinv.
  - exists processed. exact Hinv.
  - cbn [process_items]. unfold mbind.
    destruct (process_item_inv condition_filter item processed results env Hinv)
      as (processed' & Hinv' & Hst).
    cbv zeta in Hinv', Hst.
    destruct (process_item condition_filter item processed results env)
      as [[st|e] env1]; cbn [fst snd] in *.
    + rewrite <- (Hst st eq_refl) in Hinv'. apply IH, Hinv'.
    + exists processed'. exact Hinv'.
Qed.

Lemma log_inv_counts (processed : gset string) (log : list Lookup)
    (item_id item_type : string) (condition : option string) :
  log_inv processed log ->
  (lookups_of Primary item_id item_type condition log <= 1)%nat /\
  (lookups_of Fallback item_id item_type condition log
   <= if bool_decide (condition = Some "N") then 1 else 0)%nat.
Proof.
  intros [Hnd H]. unfold lookups_of.
  apply NoDup_ListNoDup in Hnd.
  pose proof (proj1 (NoDup_count_occ Lookup_eq_dec log) Hnd) as Hc.
  split; [apply Hc|].
  case_bool_decide as Hn; [apply Hc|].
  rewrite (proj1 (count_occ_not_In Lookup_eq_dec log _)); [lia|].
  intros Hin. apply list_elem_of_In in Hin.
  destruct (H _ Hin) as (t & _ & Hk & _). simpl in Hk. contradiction.
Qed.

(** C1 (as amended): in every run, for every key
    [(item_id, item_type, condition)], the pipeline makes at most one
    lookup on behalf of the Line Items with that key, and at most one
    fallback lookup, which only happens for condition "N".  The log is
    the one the run leaves behind, whether it returns or raises. *)
Theorem lookups_once_per_key_and_site (w : World) (items : list LineItem.t)
    (condition_filter : option string)
    (item_id item_type : string) (condition : option string) :
  let log := lookups (snd (get_prices_for_inventory w items condition_filter)) in
  (lookups_of Primary item_id item_type condition log <= 1)%nat /\
  (lookups_of Fallback item_id item_type condition log
   <= if bool_decide (condition = Some "N") then 1 else 0)%nat.
Proof.
  cbv zeta. unfold get_prices_for_inventory.
  destruct (process_items_inv condition_filter items ∅ [] (mkEnv w []))
    as [processed Hinv].
  - split; [apply NoDup_nil_2|]. intros l Hl. inversion Hl.
  - apply (log_inv_counts processed), Hinv.
Qed.

(** C2: a Line Item of condition "U" that is looked up, whose lookup
    succeeds with pricing data without an average price, causes exactly
    one more lookup, for condition "N" on the same item id and type; when
    that one succeeds with an average price, the Result gets its pricing
    data and keeps the condition "U" (and the quantity of the Line
    Item). *)
Theorem used_price_falls_back_to_new
    (condition_filter : option string) (item : LineItem.t)
    (processed : gset string) (results : list Result.t) (env : Env World)
    (api : string) (r nr : Result.t) (w1 w2 : World) (d avg : JSON) :
  let itemid := LineItem.itemid item in
  let key := unique_key itemid (LineItem.itemtype item) (Some "U") in
  LineItem.condition item = Some "U" ->
  ITEM_TYPE_MAP !! LineItem.itemtype item = Some api ->
  eligible condition_filter item = true ->
  key ∉ processed ->
  get_item_price (world env) itemid api (Some "U") = (Returned r, w1) ->
  Result.success r = true ->
  Result.data r = Some d ->
  py_get d "avg_price" = Returned avg ->
  truthy avg = false ->
  get_item_price w1 itemid api (Some "N") = (Returned nr, w2) ->
  exists out,
    process_item condition_filter item processed results env
    = (out, mkEnv w2 (lookups env
                      ++ [mkLookup Primary itemid api (Some "U");
                          mkLookup Fallback itemid api (Some "N")])) /\
    forall nd new_avg,
      Result.success nr = true ->
      Result.data nr = Some nd ->
      py_get nd "avg_price" = Returned new_avg ->
      truthy new_avg = true ->
      exists final,
        out = Returned (processed ∪ {[ key ]}, results ++ [final]) /\
        Result.data final = Some nd /\
        Result.condition final = Result.condition r /\
        Result.condition final = Some (Some "U") /\
        Result.quantity final = Some (LineItem.quantity item).
Proof.
  intros itemid key Hcond Hapi Helig Hfresh Hget Hsucc Hdata Havg Hfalsy Hnew.
  subst itemid key.
  pose proof (get_item_price_returns World session_get py_repr (world env)
                (LineItem.itemid item) api (Some "U")) as (r' & w' & E' & Hr).
  rewrite Hget in E'. injection E' as <- <-.
  destruct Hr as (_ & _ & _ & Hr). rewrite Hsucc in Hr. destruct Hr as [Hrc _].
  unfold eligible in Helig. apply negb_true_iff in Helig.
  apply api_type_of_Returned in Hapi.
  unfold process_item, mbind, lift, mret.
  rewrite Hapi, Helig, Hcond. cbv beta iota zeta.
  rewrite (bool_decide_eq_false_2 _ Hfresh).
  unfold fetch. cbv beta iota zeta.
  rewrite Hget. cbv beta iota zeta.
  unfold used_price_fallback, mbind, lift, mret.
  rewrite (bool_decide_eq_true_2 _ eq_refl).
  cbn [Result.success Result.set_quantity andb].
  rewrite Hsucc. unfold result_data at 1.
  cbn [Result.data Result.set_quantity]. rewrite Hdata, Havg, Hfalsy.
  cbn [negb]. unfold fetch. cbn [world lookups]. rewrite Hnew.
  rewrite <- app_assoc. cbn [app].
  destruct (Result.success nr) eqn:Hns;
    [|eexists; split; [reflexivity|]; intros nd' a'; discriminate].
  unfold result_data. destruct (Result.data nr) as [nd|] eqn:Hnd;
    [|eexists; split; [reflexivity|]; intros nd' a' _; discriminate].
  destruct (py_get nd "avg_price") as [new_avg|] eqn:Hna;
    [|eexists; split; [reflexivity|]; intros nd' a' _ [= <-]; congruence].
  destruct (truthy new_avg) eqn:Htr; (eexists; split; [reflexivity|]);
    intros nd' a' _ [= <-] Ha Ht'; rewrite Hna in Ha; injection Ha as <-;
    [|congruence].
  eexists; split; [reflexivity|].
  cbn. rewrite Hrc. auto.
Qed.

Lemma get_item_price_dict (w w' : World) (item_id item_type : string)
    (condition : option string) (r : Result.t) :
  dict_payloads session_get ->
  get_item_price w item_id item_type condition = (Returned r, w') ->
  Result.success r = true ->
  exists items, Result.data r = Some (JObj items).
Proof.
  intros Hdict E Hs.
  destruct (get_item_price_cases World session_get py_repr w item_id item_type
              condition) as (r0 & E0 & H).
  rewrite E in E0. injection E0 as <- _.
  destruct (api_payload _) as [payload|] eqn:Hp.
  - destruct (Hdict _ _ _ _ Hp) as [items ->]. subst r. eauto.
  - destruct H as [H _]. congruence.
Qed.

(** With pricing data that are objects the fallback returns, and it
    changes nothing but the pricing data. *)
Ltac same_result :=
  do 2 eexists; split; [reflexivity|]; repeat split;
  solve [reflexivity | assumption].

Lemma used_price_fallback_returns (itemid api_type : string)
    (condition : option string) (result : Result.t) (env : Env World) :
  dict_payloads session_get ->
  (Result.success result = true ->
   exists items, Result.data result = Some (JObj items)) ->
  exists final env',
    used_price_fallback itemid api_type condition result env
    = (Returned final, env') /\
    Result.success final = Result.success result /\
    Result.itemid final = Result.itemid result /\
    Result.item_type final = Result.item_type result /\
    Result.condition final = Result.condition result /\
    Result.quantity final = Result.quantity result.
Proof.
  intros Hdict Hres.
  unfold used_price_fallback, mbind, lift, mret.
  destruct (bool_decide (condition = Some "U")); cbn [andb]; [|same_result].
  destruct (Result.success result) eqn:Hs; [|same_result].
  destruct (Hres eq_refl) as [items Hd].
  unfold result_data at 1. rewrite Hd. cbn [py_get py_get_default].
  destruct (truthy _); cbn [negb]; [same_result|].
  destruct (fetch_returns Fallback itemid api_type (Some "N") env)
    as (nr & w' & Hget & E & _).
  rewrite E.
  destruct (Result.success nr) eqn:Hns; [|same_result].
  destruct (get_item_price_dict _ _ _ _ _ _ Hdict Hget Hns) as [nitems Hnd].
  unfold result_data. rewrite Hnd. cbn [py_get py_get_default].
  destruct (truthy _); same_result.
Qed.

(** One iteration on a Line Item of the data model. *)
Lemma process_item_valid (condition_filter : option string) (item : LineItem.t)
    (processed : gset string) (seen : list (string * string * option string))
    (results : list Result.t) (env : Env World) :
  dict_payloads session_get ->
  valid_item item ->
  key_rel processed seen ->
  if eligible condition_filter item && negb (bool_decide (key_triple item ∈ seen))
  then exists r env' processed',
      process_item condition_filter item processed results env
      = (Returned (processed', results ++ [r]), env') /\
      key_rel processed' (key_triple item :: seen) /\
      result_of_item r item
  else exists env',
      process_item condition_filter item processed results env
      = (Returned (processed, results), env').
Proof.
  intros Hdict Hvalid Hrel.
  pose proof Hvalid as [Hty _].
  apply ITEM_TYPE_MAP_codes in Hty. destruct Hty as [api Hapi].
  unfold process_item, mbind, lift, mret.
  rewrite (proj2 (api_type_of_Returned _ _) Hapi).
  unfold eligible.
  destruct (truthy_str condition_filter &&
            negb (bool_decide (LineItem.condition item = condition_filter)));
    cbn [negb andb]; [eauto|].
  rewrite (bool_decide_ext _ _ (Hrel item Hvalid)).
  destruct (bool_decide (key_triple item ∈ seen)); cbn [negb]; [eauto|].
  destruct (fetch_returns Primary (LineItem.itemid item) api
              (LineItem.condition item) env) as (r & w1 & Hget & E & Hr).
  rewrite E.
  destruct (used_price_fallback_returns (LineItem.itemid item) api
              (LineItem.condition item)
              (Result.set_quantity (LineItem.quantity item) r)
              (mkEnv w1 (lookups env ++
                           [mkLookup Primary (LineItem.itemid item) api
                                     (LineItem.condition item)])) Hdict)
    as (final & env' & Ef & Hfs & Hfi & Hft & Hfc & Hfq).
  { cbn. apply (get_item_price_dict _ _ _ _ _ _ Hdict Hget). }
  rewrite Ef. do 3 eexists. split; [reflexivity|]. split.
  - intros j Hj. rewrite elem_of_union, elem_of_singleton, elem_of_cons.
    rewrite (Hrel j Hj). split.
    + intros [H | H]; [right; exact H | left].
      apply unique_key_inj; assumption.
    + intros [H | H]; [right | left; exact H].
      unfold key_triple in H. now injection H as -> -> ->.
  - destruct Hr as (Hi & Ht & _ & Hc). cbn in Hfs, Hfi, Hft, Hfc, Hfq.
    unfold result_of_item. rewrite Hfi, Hft, Hfq, Hfc, Hfs, Hi, Ht.
    repeat split; [exact Hapi|]. intros Hs. rewrite Hs in Hc. apply Hc.
Qed.

Lemma process_items_valid (condition_filter : option string)
    (items : list LineItem.t) :
  dict_payloads session_get ->
  Forall valid_item items ->
  forall (processed : gset string) (seen : list (string * string * option string))
         (results : list Result.t) (env : Env World),
    key_rel processed seen ->
    exists new env',
      process_items condition_filter items processed results env
      = (Returned (results ++ new), env') /\
      Forall2 result_of_item new
        (first_of_each_key seen (List.filter (eligible condition_filter) items)).
Proof.
  intros Hdict Hvalid.
  induction Hvalid as [|item rest Hitem _ IH];
    intros processed seen results env Hrel.
  - exists [], env. rewrite app_nil_r. split; [reflexivity | constructor].
  - cbn [process_items List.filter]. unfold mbind.
    pose proof (process_item_valid condition_filter item processed seen results
                  env Hdict Hitem Hrel) as H.
    destruct (eligible condition_filter item); cbn [andb] in H.
    + cbn [first_of_each_key].
      destruct (bool_decide (key_triple item ∈ seen)); cbn [negb] in H.
      * destruct H as [env1 ->]. cbn [fst snd]. apply IH, Hrel.
      * destruct H as (r & env1 & processed' & -> & Hrel' & Hr). cbn [fst snd].
        destruct (IH processed' (key_triple item :: seen) (results ++ [r]) env1
                    Hrel') as (new & env' & -> & Hnew).
        exists (r :: new), env'. rewrite <- app_assoc. split; [reflexivity|].
        constructor; assumption.
    + destruct H as [env1 ->]. cbn [fst snd]. apply IH, Hrel.
Qed.

(** C3: on Line Items of the data model, and with a service whose
    pricing data are objects, the run returns one Result per key, in the
    order in which the keys first occur among the Line Items that pass
    the condition filter; the Result of a key is for the first Line Item
    with that key and carries its quantity, so that the quantities of
    later duplicates are dropped. *)
Theorem results_follow_first_occurrences (w : World)
    (items : list LineItem.t) (condition_filter : option string) :
  dict_payloads session_get ->
  Forall valid_item items ->
  exists results env',
    get_prices_for_inventory w items condition_filter
    = (Returned results, env') /\
    Forall2 result_of_item results (spec_selected condition_filter items).
Proof.
  intros Hdict Hvalid.
  destruct (process_items_valid condition_filter items Hdict Hvalid
              ∅ [] [] (mkEnv w [])) as (new & env' & E & H).
  - intros item _. split; [set_solver | intros Hin; inversion Hin].
  - exists new, env'. split; [exact E | exact H].
Qed.
End PipelineProperties.

Lemma example_service_dict_payloads : dict_payloads example_service.
Proof.
  intros w url params payload. unfold example_service. cbn.
  destruct (bool_decide _); intros [= <-]; eauto.
Qed.

(** C1 (as stated): at most one lookup per key does not hold.  For a
    minifigure listed once used and once new, with a service that has no
    used average price, the key [("sw0001", "MINIFIG", "N")] is looked up
    twice: as the fallback of the used Line Item, then for the new one. *)
Lemma lookups_not_once_per_key :
  ~ at_most_one_lookup_per_key
      (lookups (snd (get_prices_for_inventory nat example_service example_repr
                       0%nat used_and_new None))).
Proof.
  intros H. specialize (H "sw0001" "MINIFIG" (Some "N")).
  vm_compute in H. lia.
Qed.

Lemma used_price_falls_back_to_new_witness :
  exists out,
    process_item nat example_service example_repr None
      (LineItem.mk "sw0001" "M" (Some "0") 2 (Some "U")) ∅ [] (mkEnv 0%nat [])
    = (out, mkEnv 2%nat [mkLookup Primary "sw0001" "MINIFIG" (Some "U");
                         mkLookup Fallback "sw0001" "MINIFIG" (Some "N")]) /\
    forall nd new_avg,
      true = true ->
      Some (JObj [("avg_price", JStr "10.00")]) = Some nd ->
      py_get nd "avg_price" = Returned new_avg ->
      truthy new_avg = true ->
      exists final,
        out = Returned (∅ ∪ {[ "sw0001_M_U" ]}, [] ++ [final]) /\
        Result.data final = Some nd /\
        Result.condition final = Some (Some "U") /\
        Result.condition final = Some (Some "U") /\
        Result.quantity final = Some 2.
Proof.
  apply (used_price_falls_back_to_new nat example_service example_repr None
           (LineItem.mk "sw0001" "M" (Some "0") 2 (Some "U")) ∅ []
           (mkEnv 0%nat []) "MINIFIG"
           (Result.mk true "sw0001" "MINIFIG" (Some (Some "U")) (Some (JObj []))
                      None None None)
           (Result.mk true "sw0001" "MINIFIG" (Some (Some "N"))
                      (Some (JObj [("avg_price", JStr "10.00")])) None None None)
           1%nat 2%nat (JObj []) JNull).
  - reflexivity.
  - vm_compute. reflexivity.
  - reflexivity.
  - apply not_elem_of_empty.
  - reflexivity.
  - reflexivity.
  - reflexivity.
  - reflexivity.
  - reflexivity.
  - reflexivity.
Defined.

Lemma results_follow_first_occurrences_witness :
  exists results env',
    get_prices_for_inventory nat example_service example_repr 0%nat
      (used_and_new ++ used_and_new) None
    = (Returned results, env') /\
    Forall2 result_of_item results (spec_selected None (used_and_new ++ used_and_new)).
Proof.
  apply (results_follow_first_occurrences nat example_service example_repr 0%nat
           (used_and_new ++ used_and_new) None example_service_dict_payloads).
  repeat constructor.
Defined.

(** C10: the dedup key is the text [item_id + "_" + item_type + "_" +
    condition], and it does not determine the triple: the Line Items
    [colliding_first] and [colliding_second] differ in item id and in
    condition and have the same key.  Whatever the service answers, a run
    on the two makes a single lookup, for the first, and returns a single
    Result, for the first: the second Line Item is dropped. *)
Theorem unique_key_collision :
  (forall itemid itemtype condition,
     unique_key itemid itemtype (Some condition)
     = itemid +:+ "_" +:+ itemtype +:+ "_" +:+ condition) /\
  key_triple colliding_first <> key_triple colliding_second /\
  unique_key (LineItem.itemid colliding_first) (LineItem.itemtype colliding_first)
             (LineItem.condition colliding_first)
  = unique_key (LineItem.itemid colliding_second)
               (LineItem.itemtype colliding_second)
               (LineItem.condition colliding_second) /\
  forall (World : Type)
         (session_get : World -> string -> Params -> PyResult Response * World)
         (py_repr : JSON -> string) (w : World),
  exists r env',
    get_prices_for_inventory World session_get py_repr w
      [colliding_first; colliding_second] None
    = (Returned [r], env') /\
    lookups env' = [mkLookup Primary "3001" "MINIFIG" (Some "U_M_U")] /\
    Result.itemid r = "3001" /\
    Result.quantity r = Some 4.
Proof.
  split; [reflexivity|]. split; [discriminate|]. split; [reflexivity|].
  intros World session_get py_repr w.
  destruct (fetch_returns World session_get py_repr Primary "3001" "MINIFIG"
              (Some "U_M_U") (mkEnv w [])) as (r & w1 & _ & E & Hr).
  exists (Result.set_quantity 4 r). eexists.
  unfold get_prices_for_inventory, process_items, process_item, mbind, lift, mret.
  change (api_type_of (LineItem.itemtype colliding_first))
    with (Returned (A:=string) "MINIFIG").
  change (api_type_of (LineItem.itemtype colliding_second))
    with (Returned (A:=string) "MINIFIG").
  cbn [truthy_str andb colliding_first colliding_second LineItem.itemid
       LineItem.itemtype LineItem.condition LineItem.quantity fst snd].
  rewrite (bool_decide_eq_false_2 _ (not_elem_of_empty (C:=gset string) _)).
  rewrite E.
  unfold used_price_fallback.
  rewrite (bool_decide_eq_false_2 (Some "U_M_U" = Some "U")) by discriminate.
  cbn [andb mret fst snd].
  rewrite bool_decide_eq_true_2 by (apply elem_of_union_r, elem_of_singleton; reflexivity).
  split; [reflexivity|]. split; [reflexivity|].
  destruct Hr as (Hi & _). cbn. auto.
Qed.

(** ** Text and numbers *)

Lemma is_digit_not_special (c : ascii) :
  is_digit c = true ->
  is_space c = false /\ Ascii.eqb c "-" = false /\ Ascii.eqb c "+" = false /\
  Ascii.eqb c "_" = false /\ Ascii.eqb c "." = false /\
  (N_of_ascii c < 128)%N /\ 0 <= Z.of_nat (nat_of_ascii c) - 48.
Proof.
  destruct c as [[] [] [] [] [] [] [] []]; vm_compute; intros Hd;
    try discriminate Hd; repeat split; discriminate.
Qed.

Lemma digits_value_nonneg (l : list ascii) :
  forall acc, 0 <= acc -> forallb is_digit l = true -> 0 <= digits_value acc l.
Proof.
  induction l as [|c l IH]; intros acc Hacc Hd; cbn [digits_value forallb] in *.
  - exact Hacc.
  - apply andb_true_iff in Hd. destruct Hd as [Hc Hl].
    apply IH; [|exact Hl].
    destruct (is_digit_not_special c Hc) as (_ & _ & _ & _ & _ & _ & Hv). lia.
Qed.

Lemma digits_value_shift (l : list ascii) :
  forall acc,
    digits_value acc l = acc * 10 ^ Z.of_nat (length l) + digits_value 0 l.
Proof.
  induction l as [|c l IH]; intros acc; cbn [digits_value length].
  - cbn. lia.
  - rewrite IH, (IH (10 * 0 + _)).
    rewrite Nat2Z.inj_succ, Z.pow_succ_r by lia. lia.
Qed.

Lemma digits_value_app (a b : list ascii) :
  forall acc, digits_value acc (a ++ b) = digits_value (digits_value acc a) b.
Proof.
  induction a as [|c a IH]; intros acc; cbn [digits_value app]; [reflexivity|].
  apply IH.
Qed.



(** The digits a run returns are digits. *)
Lemma digits_tail_fst (n : nat) :
  forall l, (length l <= n)%nat -> forallb is_digit (fst (digits_tail l)) = true.
Proof.
  induction n as [|n IH]; intros l Hn.
  - destruct l; [reflexivity | cbn in Hn; lia].
  - destruct l as [|c rest]; [reflexivity|]. cbn [length] in Hn.
    cbn [digits_tail]. destruct (is_digit c) eqn:Hc.
    + specialize (IH rest ltac:(lia)).
      destruct (digits_tail rest) as [ds r]. cbn [fst forallb] in *.
      now rewrite Hc, IH.
    + destruct (Ascii.eqb c "_"); [|reflexivity].
      destruct rest as [|d rest']; [reflexivity|]. cbn [length] in Hn.
      destruct (is_digit d) eqn:Hd; [|reflexivity].
      specialize (IH rest' ltac:(lia)).
      destruct (digits_tail rest') as [ds r]. cbn [fst forallb] in *.
      now rewrite Hd, IH.
Qed.

Lemma digit_run_fst (l : list ascii) :
  forallb is_digit (fst (digit_run l)) = true.
Proof.
  destruct l as [|c rest]; [reflexivity|]. cbn [digit_run].
  destruct (is_digit c) eqn:Hc; [|reflexivity].
  pose proof (digits_tail_fst (length rest) rest (Nat.le_refl _)) as Ht.
  destruct (digits_tail rest) as [ds r]. cbn [fst forallb] in *.
  now rewrite Hc, Ht.
Qed.

(** *** ASCII texts *)




Section TextProperties.
Context `{RT : PyRuntime}.




(** A text that passes [isdigit] has no minus sign for [int]. *)
Lemma transform_no_minus (chars : list N) :
  forallb Py_UNICODE_ISDIGIT chars = true ->
  Forall (fun c => Ascii.eqb c "-" = false) (transform_decimal_and_space chars).
Proof.
  induction chars as [|ch rest IH]; cbn [forallb transform_decimal_and_space];
    [constructor|].
  intros Hd. apply andb_true_iff in Hd. destruct Hd as [Hch Hrest].
  specialize (IH Hrest).
  destruct (ch <? 127)%N eqn:Hlt.
  - constructor; [|exact IH].
    apply N.ltb_lt in Hlt. unfold Py_UNICODE_ISDIGIT in Hch.
    assert ((ch <? 128)%N = true) as Hlt' by (apply N.ltb_lt; lia).
    rewrite Hlt' in Hch. apply andb_true_iff in Hch. destruct Hch as [Hlo Hhi].
    apply N.leb_le in Hlo, Hhi.
    apply Ascii.eqb_neq. intros E.
    apply (f_equal N_of_ascii) in E. rewrite N_ascii_embedding in E by lia.
    cbn in E. lia.
  - destruct (Py_UNICODE_ISSPACE ch); [constructor; [reflexivity | exact IH]|].
    destruct (Py_UNICODE_TODECIMAL ch) as [d|] eqn:Hdec.
    + constructor; [|exact IH].
      assert (d < 10)%N as Hd10.
      { unfold Py_UNICODE_TODECIMAL in Hdec.
        destruct (ch <? 128)%N.
        - destruct ((48 <=? ch) && (ch <=? 57))%N eqn:E; [|discriminate].
          apply andb_true_iff in E. destruct E as [Hlo Hhi].
          apply N.leb_le in Hlo, Hhi. injection Hdec as <-. lia.
        - eapply unicode_todecimal_lt, Hdec. }
      apply Ascii.eqb_neq. intros E.
      apply (f_equal N_of_ascii) in E. rewrite N_ascii_embedding in E by lia.
      cbn in E. lia.
    + constructor; [reflexivity | constructor].
Qed.

Lemma to_ascii_no_minus (s : string) :
  isdigit s = true ->
  Forall (fun c => Ascii.eqb c "-" = false) (to_ascii s).
Proof.
  unfold isdigit, to_ascii. intros Hd.
  destruct (code_points s) as [|ch rest] eqn:Hcp; [discriminate|].
  destruct (forallb (fun ch => (ch <? 128)%N) (ch :: rest)) eqn:Hascii.
  - apply Forall_forall. intros c Hc. apply list_elem_of_In, in_map_iff in Hc.
    destruct Hc as (n & <- & Hn).
    rewrite forallb_forall in Hd, Hascii.
    specialize (Hd n Hn). specialize (Hascii n Hn). cbv beta in Hascii.
    unfold Py_UNICODE_ISDIGIT in Hd. rewrite Hascii in Hd.
    apply andb_true_iff in Hd. destruct Hd as [Hlo Hhi].
    apply N.leb_le in Hlo, Hhi.
    apply Ascii.eqb_neq. intros E.
    apply (f_equal N_of_ascii) in E. rewrite N_ascii_embedding in E by lia.
    cbn in E. lia.
  - now apply transform_no_minus.
Qed.

Lemma lstrip_suffix (l : list ascii) (P : ascii -> Prop) :
  Forall P l -> Forall P (lstrip l).
Proof.
  induction 1 as [|c l Hc Hl IH]; cbn [lstrip]; [constructor|].
  destruct (is_space c); [exact IH | now constructor].
Qed.

(** The number [int] reads in a text that passes [isdigit] is not
    negative. *)
Lemma py_int_nonneg (s : string) (n : Z) :
  isdigit s = true -> py_int s = Returned n -> 0 <= n.
Proof.
  intros Hd. unfold py_int.
  pose proof (lstrip_suffix _ _ (to_ascii_no_minus s Hd)) as Hl.
  destruct (lstrip (to_ascii s)) as [|c l]; cbn [sign_of].
  - cbn. discriminate.
  - inversion Hl as [|? ? Hc Hl']; subst. rewrite Hc.
    set (b := if Ascii.eqb c "+" then (false, l) else (false, c :: l)).
    assert (fst b = false) as Hb by (unfold b; now destruct (Ascii.eqb c "+")).
    destruct b as [neg body]. cbn [fst] in Hb. subst neg.
    pose proof (digit_run_fst body) as Hds.
    destruct (digit_run body) as [digits rest]. cbn [fst] in Hds.
    destruct digits as [|d ds]; [discriminate|].
    destruct (match rest with c0 :: _ => Ascii.eqb c0 "_" | [] => false end);
      [discriminate|].
    destruct (_ && _); [discriminate|].
    destruct (blank rest); [|discriminate].
    intros [= <-]. apply (digits_value_nonneg (d :: ds) 0); [lia | exact Hds].
Qed.
End TextProperties.

(** *** Decimal numerals *)

Lemma pretty_N_char_digit (d : N) :
  (d < 10)%N ->
  is_digit (pretty_N_char d) = true /\
  Z.of_nat (nat_of_ascii (pretty_N_char d)) - 48 = Z.of_N d /\
  (d <> 0%N -> Ascii.eqb (pretty_N_char d) "0" = false).
Proof.
  intros Hd.
  assert (d = 0 \/ d = 1 \/ d = 2 \/ d = 3 \/ d = 4 \/ d = 5 \/ d = 6 \/ d = 7
          \/ d = 8 \/ d = 9)%N
    as [-> | [-> | [-> | [-> | [-> | [-> | [-> | [-> | [-> | ->]]]]]]]]] by lia;
    repeat split; intros; try reflexivity; contradiction.
Qed.

Lemma pretty_N_go_digits (x : N) :
  forall s,
    forallb is_digit (list_ascii_of_string s) = true ->
    forallb is_digit (list_ascii_of_string (pretty_N_go x s)) = true /\
    digits_value 0 (list_ascii_of_string (pretty_N_go x s))
    = Z.of_N x * 10 ^ Z.of_nat (length (list_ascii_of_string s))
      + digits_value 0 (list_ascii_of_string s).
Proof.
  induction (N.lt_wf_0 x) as [x _ IH]; intros s Hs.
  destruct (N.eq_dec x 0%N) as [-> | Hx].
  - rewrite pretty_N_go_0. split; [exact Hs | lia].
  - rewrite pretty_N_go_step by lia.
    destruct (pretty_N_char_digit (x mod 10)%N) as (Hd & Hv & _);
      [apply N.mod_lt; lia|].
    destruct (IH (x / 10)%N) with (s := String (pretty_N_char (x mod 10)%N) s)
      as [Ha Hi].
    + apply N.div_lt; lia.
    + cbn [list_ascii_of_string forallb]. now rewrite Hd, Hs.
    + split; [exact Ha|]. rewrite Hi.
      cbn [list_ascii_of_string digits_value length].
      rewrite (digits_value_shift _ (10 * 0 + _)), Hv.
      rewrite Nat2Z.inj_succ, Z.pow_succ_r by lia.
      pose proof (N.div_mod x 10%N) as Hdm.
      assert (Z.of_N x = 10 * Z.of_N (x / 10)%N + Z.of_N (x mod 10)%N) as ->
        by lia.
      lia.
Qed.

Lemma pretty_N_go_head (x : N) :
  forall s,
    (0 < x)%N ->
    exists c t,
      list_ascii_of_string (pretty_N_go x s) = c :: t /\
      Ascii.eqb c "0" = false.
Proof.
  induction (N.lt_wf_0 x) as [x _ IH]; intros s Hx.
  rewrite pretty_N_go_step by lia.
  destruct (N.eq_dec (x / 10)%N 0%N) as [Hq | Hq].
  - rewrite Hq, pretty_N_go_0. cbn [list_ascii_of_string].
    do 2 eexists. split; [reflexivity|].
    apply pretty_N_char_digit; [apply N.mod_lt; lia|].
    pose proof (N.div_mod x 10%N ltac:(lia)) as Hdm. rewrite Hq in Hdm. lia.
  - apply IH; [apply N.div_lt; lia | now apply N.neq_0_lt_0].
Qed.

(** The numeral of a natural number: digits, with the number as value
    and no leading zero. *)
Lemma pretty_N_numeral (x : N) :
  exists c t,
    list_ascii_of_string (pretty x) = c :: t /\
    forallb is_digit (c :: t) = true /\
    digits_value 0 (c :: t) = Z.of_N x /\
    (Ascii.eqb c "0" = false \/ t = []).
Proof.
  unfold pretty, pretty_N.
  destruct (decide (x = 0)%N) as [-> | Hx].
  - exists "0"%char, []. repeat split; auto.
  - destruct (pretty_N_go_digits x "" eq_refl) as [Ha Hi].
    destruct (pretty_N_go_head x "") as (c & t & E & Hc); [lia|].
    rewrite E in *. exists c, t. repeat split; auto.
    rewrite Hi. cbn. lia.
Qed.

Lemma pretty_Z_nonneg (z : Z) :
  0 <= z -> pretty z = pretty (Z.to_N z).
Proof. destruct z; [reflexivity | reflexivity | lia]. Qed.

Section TextExamples.
#[local] Existing Instance example_runtime.

(** [float] skips the white space of Unicode and reads the decimal digits
    of other scripts; a control character such as U+001C is not white
    space for it. *)
Example float_of_string_examples :
  float_of_string " 12.5" = Some (dyadic 25 (-1)) /\
  float_of_string "١٢.٥" = Some (dyadic 25 (-1)) /\
  float_of_string " 1_0e-1 " = Some (dyadic 1 0) /\
  float_of_string (String (ascii_of_nat 28) "12") = None /\
  float_of_string "1²" = None /\
  float_of_string "-Infinity" = Some (S754_infinity true).
Proof. repeat split; vm_compute; reflexivity. Qed.

(** [int] reads the decimal digits of other scripts, refuses a digit that
    is not decimal, and refuses a text of more digits than the limit. *)
Example py_int_examples :
  isdigit "٣" = true /\ py_int "٣" = Returned 3 /\
  isdigit "²" = true /\
  py_int "²"
  = Raised (exn ValueError "invalid literal for int() with base 10: '²'") /\
  isdigit " 12" = false /\ py_int " 12" = Returned 12 /\
  py_int (string_of_list_ascii (repeat "1"%char 4301))
  = Raised (exn ValueError
              ("Exceeds the limit (4300 digits) for integer string conversion: "
               +:+ "value has 4301 digits; use sys.set_int_max_str_digits() "
               +:+ "to increase the limit")).
Proof. repeat split; vm_compute; reflexivity. Qed.
End TextExamples.

(** ** Exporters *)

Lemma join_concat (sep : string) (lines : list string) :
  join sep lines = String.concat sep lines.
Proof.
  induction lines as [|l rest IH]; [reflexivity|].
  cbn [join String.concat]. destruct rest; [reflexivity|]. now rewrite IH.
Qed.

Lemma list_ascii_of_string_app (a b : string) :
  list_ascii_of_string (a +:+ b)
  = list_ascii_of_string a ++ list_ascii_of_string b.
Proof.
  induction a as [|c a IH]; simpl; [reflexivity | now rewrite IH].
Qed.

Lemma leading_digits_app (ds rest : list ascii) (c : ascii) :
  forallb is_digit ds = true -> is_digit c = false ->
  leading_digits (ds ++ c :: rest) = (ds, c :: rest).
Proof.
  intros Hds Hc. induction ds as [|d ds IH]; cbn [app leading_digits].
  - now rewrite Hc.
  - cbn [forallb] in Hds. apply andb_true_iff in Hds. destruct Hds as [Hd Hds].
    now rewrite Hd, (IH Hds).
Qed.

(** *** Two decimals *)

Lemma two_digits_numeral (r : Z) :
  0 <= r < 100 ->
  exists d1 d2,
    list_ascii_of_string (two_digits r) = [d1; d2] /\
    is_digit d1 = true /\ is_digit d2 = true /\
    forall acc, digits_value acc [d1; d2] = 100 * acc + r.
Proof.
  intros Hr.
  assert (forallb two_digits_ok (map Z.of_nat (seq 0 100)) = true) as Hall
    by (vm_compute; reflexivity).
  rewrite forallb_forall in Hall.
  assert (two_digits_ok r = true) as Hok.
  { apply Hall, in_map_iff. exists (Z.to_nat r). split; [lia|].
    apply in_seq. lia. }
  unfold two_digits_ok in Hok.
  destruct (list_ascii_of_string (two_digits r)) as [|d1 [|d2 [|]]];
    try discriminate.
  apply andb_true_iff in Hok. destruct Hok as [Hok Hv].
  apply andb_true_iff in Hok. destruct Hok as [H1 H2].
  apply Z.eqb_eq in Hv.
  exists d1, d2. repeat split; auto.
  intros acc. cbn [digits_value]. lia.
Qed.

(** The text [format_2f] builds reads back as its sign and hundredths. *)
Lemma read_price_numeral (s : bool) (q r : Z) :
  0 <= q -> 0 <= r < 100 ->
  read_price ((if s then "-" else "") +:+ pretty q +:+ "." +:+ two_digits r)
  = Some (s, 100 * q + r).
Proof.
  intros Hq Hr. unfold read_price.
  rewrite !list_ascii_of_string_app, (pretty_Z_nonneg q Hq).
  destruct (pretty_N_numeral (Z.to_N q)) as (c & t & -> & Hd & Hv & Hc).
  destruct (two_digits_numeral r Hr) as (d1 & d2 & -> & H1 & H2 & Hval).
  pose proof Hd as Hd'. cbn [forallb] in Hd'.
  apply andb_true_iff in Hd'. destruct Hd' as [Hcd _].
  destruct (is_digit_not_special c Hcd) as (_ & Hm & _).
  assert (minus_sign (list_ascii_of_string (if s then "-" else "")
                      ++ (c :: t) ++ list_ascii_of_string "." ++ [d1; d2])
          = (s, (c :: t) ++ "."%char :: [d1; d2])) as ->.
  { destruct s; cbn [list_ascii_of_string app minus_sign]; [reflexivity|].
    now rewrite Hm. }
  rewrite (leading_digits_app (c :: t) [d1; d2] "."%char Hd eq_refl).
  rewrite H1, H2. cbn [Ascii.eqb Bool.eqb andb].
  assert (negb (Ascii.eqb c "0")
          || match t with [] => true | _ => false end = true) as ->.
  { destruct Hc as [-> | ->]; [reflexivity | apply orb_true_r]. }
  f_equal. f_equal.
  change (c :: t ++ [d1; d2]) with ((c :: t) ++ [d1; d2]).
  rewrite digits_value_app, Hval, Hv. lia.
Qed.

Lemma round_half_even_nearest (num den : Z) :
  0 <= num -> 0 < den ->
  let h := round_half_even num den in
  0 <= h /\
  2 * Z.abs (num - h * den) <= den /\
  (2 * Z.abs (num - h * den) = den -> Z.even h = true).
Proof.
  intros Hnum Hden. cbv zeta. unfold round_half_even.
  pose proof (Z.div_mod num den ltac:(lia)) as Hdm.
  pose proof (Z.mod_pos_bound num den Hden) as Hr.
  pose proof (Z.div_pos num den Hnum Hden) as Hq.
  set (q := num / den) in *. set (r := num mod den) in *.
  assert (num - q * den = r) as E1 by lia.
  assert (num - (q + 1) * den = r - den) as E2 by lia.
  destruct (2 * r ?= den) eqn:C.
  - apply Z.compare_eq in C. destruct (Z.even q) eqn:Hev.
    + rewrite E1. repeat split; [lia | lia | auto].
    + rewrite E2. repeat split; [lia | lia |].
      intros _. rewrite Z.even_add, Hev. reflexivity.
  - change (2 * r < den) in C. rewrite E1.
    repeat split; [lia | lia | intros; exfalso; lia].
  - change (2 * r > den) in C. rewrite E2.
    repeat split; [lia | lia | intros; exfalso; lia].
Qed.

Lemma nearest_hundredth_exact (m : positive) (e : Z) :
  0 <= e ->
  0 <= Z.pos m * 2 ^ e * 100 /\ nearest_hundredth m e (Z.pos m * 2 ^ e * 100).
Proof.
  intros He. unfold nearest_hundredth.
  rewrite (Z.max_l e 0), (Z.max_r (- e) 0) by lia.
  rewrite Z.pow_0_r.
  pose proof (Z.pow_pos_nonneg 2 e ltac:(lia) He) as Hp.
  replace (100 * Z.pos m * 2 ^ e - Z.pos m * 2 ^ e * 100 * 1) with 0 by lia.
  cbn [Z.abs]. repeat split; [|lia | intros; exfalso; lia].
  apply Z.mul_nonneg_nonneg; [apply Z.mul_nonneg_nonneg|]; lia.
Qed.

(** [format_2f] shows its argument to two decimals. *)
Lemma format_2f_two_decimals (x : float) : two_decimals x (format_2f x).
Proof.
  destruct x as [s|s| |s m e]; cbn [two_decimals format_2f].
  - destruct s; reflexivity.
  - reflexivity.
  - reflexivity.
  - set (h := match e with
              | Zneg k => round_half_even (Zpos m * 100) (Zpos (Pos.pow 2 k))
              | _ => Zpos m * 2 ^ e * 100
              end).
    assert (0 <= h /\ nearest_hundredth m e h) as [Hh Hn].
    { unfold h. destruct e as [|p|k].
      - apply nearest_hundredth_exact. lia.
      - apply nearest_hundredth_exact. lia.
      - unfold nearest_hundredth.
        rewrite (Z.max_r (Z.neg k) 0) by lia.
        change (- Z.neg k) with (Z.pos k).
        rewrite (Z.max_l (Z.pos k) 0) by lia.
        rewrite Z.pow_0_r, Z.mul_1_r, Pos2Z.inj_pow.
        rewrite (Z.mul_comm 100 (Z.pos m)).
        apply (round_half_even_nearest (Z.pos m * 100) (2 ^ Z.pos k)); [lia|].
        apply Z.pow_pos_nonneg; lia. }
    exists h. split; [exact Hn|].
    rewrite (read_price_numeral s (h / 100) (h mod 100)).
    + f_equal. f_equal. pose proof (Z.div_mod h 100 ltac:(lia)). lia.
    + apply Z.div_pos; lia.
    + apply Z.mod_pos_bound. lia.
Qed.

Section ExporterProperties.
Context `{RT : PyRuntime}.

Lemma upload_price_spec (markup_percent : float) (r : Result.t) :
  priced r ->
  exists price,
    upload_price markup_percent r = Returned price /\
    shows_price markup_percent r price.
Proof.
  intros [Hd Hf]. unfold upload_price, shows_price.
  unfold average_price_of in *.
  destruct (Result.success r); [|eexists; split; reflexivity].
  destruct (Hd eq_refl) as [items Hitems].
  unfold result_data. rewrite Hitems in *. cbn [pbind py_get py_get_default].
  destruct (assoc "avg_price" items) as [avg|]; [|eexists; split; reflexivity].
  destruct (truthy avg); [|eexists; split; reflexivity].
  destruct (Hf avg eq_refl) as [f Ef]. rewrite Ef. cbn [pbind].
  eexists. split; [reflexivity|]. exists f. split; [reflexivity|].
  apply format_2f_two_decimals.
Qed.

Lemma upload_item_spec (markup_percent : float) (r : Result.t) :
  priced r ->
  exists block price,
    upload_item markup_percent r = Returned block /\
    length block = 11%nat /\
    block !! 3%nat = Some ("        <PRICE>" +:+ price +:+ "</PRICE>") /\
    shows_price markup_percent r price /\
    block !! 7%nat
    = Some ("        <CONDITION>"
            +:+ str_of (default (Some "U") (Result.condition r))
            +:+ "</CONDITION>").
Proof.
  intros Hp. unfold upload_item.
  destruct (upload_price_spec markup_percent r Hp) as (price & -> & Hprice).
  do 2 eexists. split; [reflexivity|]. repeat split. exact Hprice.
Qed.

Lemma upload_items_spec (markup_percent : float) (results : list Result.t) :
  Forall priced results ->
  forall lines,
  exists blocks,
    upload_items markup_percent results lines = Returned (lines ++ concat blocks) /\
    Forall2 (fun r block =>
               length block = 11%nat /\
               exists price,
                 block !! 3%nat
                 = Some ("        <PRICE>" +:+ price +:+ "</PRICE>") /\
                 shows_price markup_percent r price)
            results blocks.
Proof.
  induction 1 as [|r rest Hr _ IH]; intros lines.
  - exists []. cbn. rewrite app_nil_r. split; [reflexivity | constructor].
  - destruct (upload_item_spec markup_percent r Hr)
      as (block & price & E & Hlen & Hline & Hprice & _).
    destruct (IH (lines ++ block)) as (blocks & E' & H').
    exists (block :: blocks). cbn [upload_items]. rewrite E. cbn [pbind].
    rewrite E'. cbn [concat]. rewrite app_assoc.
    split; [reflexivity|]. constructor; eauto.
Qed.

(** C5: for results that can be priced, the upload export returns the
    document whose lines, separated by newlines, are the opening line, one
    block of eleven lines per result and the closing line; the price line
    of a block shows [avg_price * (1 + markup / 100)] to two decimals (the
    decimal text of the hundredth nearest to the product) when the lookup
    succeeded with an average price, and "0.00" otherwise.  With a markup
    of 15 and an average price of "10.00" the price is "11.50". *)
Theorem upload_export_prices (results : list Result.t) (markup_percent : float) :
  Forall priced results ->
  (exists blocks,
     create_bricklink_upload_xml results markup_percent
     = Returned (String.concat newline
                   ("<INVENTORY>" :: concat blocks ++ ["</INVENTORY>"])) /\
     Forall2 (fun r block =>
                length block = 11%nat /\
                exists price,
                  block !! 3%nat
                  = Some ("        <PRICE>" +:+ price +:+ "</PRICE>") /\
                  shows_price markup_percent r price)
             results blocks) /\
  (forall item_id item_type condition quantity,
     upload_price (float_of_Z 15)
                  (success_with_avg "10.00" item_id item_type condition quantity)
     = Returned "11.50").
Proof.
  intros Hp. split.
  - destruct (upload_items_spec markup_percent results Hp ["<INVENTORY>"])
      as (blocks & E & Hb).
    exists blocks. unfold create_bricklink_upload_xml. rewrite E.
    cbn [pbind]. rewrite join_concat. split; [reflexivity | exact Hb].
  - intros. vm_compute. reflexivity.
Qed.

Lemma success_with_avg_priced (avg item_id item_type : string)
    (condition : option string) (quantity : option Z) (f : float) :
  float_of_string avg = Some f ->
  priced (success_with_avg avg item_id item_type condition quantity).
Proof.
  intros Hf. split.
  - intros _. eexists. reflexivity.
  - intros a. unfold average_price_of, success_with_avg. cbn.
    destruct (negb (String.eqb avg "")); [|discriminate].
    intros [= <-]. exists f. cbn. now rewrite Hf.
Qed.

Lemma failed_result_priced (r : Result.t) :
  Result.success r = false -> priced r.
Proof.
  intros Hs. unfold priced, average_price_of. rewrite Hs.
  split; intros; discriminate.
Qed.

Lemma simplified_entry_spec (r : Result.t) :
  exportable r ->
  exists e, simplified_entry r = Returned e /\ spec_entry r e.
Proof.
  intros [[Hd Hf] Hc]. unfold simplified_entry, spec_entry, spec_average_price.
  unfold average_price_of in *.
  destruct (Result.success r).
  - destruct (Hd eq_refl) as [items Hitems]. destruct (Hc eq_refl) as [c Hcond].
    unfold result_data, result_condition. rewrite Hitems, Hcond in *.
    cbn [pbind py_get py_get_default].
    destruct (assoc "avg_price" items) as [avg|]; cbn [truthy pbind].
    + destruct (truthy avg).
      * destruct (Hf avg eq_refl) as [f ->]. cbn [pbind].
        eexists; split; [reflexivity|]. repeat split.
      * eexists; split; [reflexivity|]. repeat split.
    + eexists; split; [reflexivity|]. repeat split.
  - eexists; split; [reflexivity|]. repeat split.
Qed.

Lemma simplified_entries_spec (results : list Result.t) :
  Forall exportable results ->
  forall simplified,
  exists entries,
    simplified_entries results simplified = Returned (simplified ++ entries) /\
    Forall2 spec_entry results entries.
Proof.
  induction 1 as [|r rest Hr _ IH]; intros simplified.
  - exists []. cbn. rewrite app_nil_r. split; [reflexivity | constructor].
  - destruct (simplified_entry_spec r Hr) as (e & E & He).
    destruct (IH (simplified ++ [e])) as (entries & E' & H').
    exists (e :: entries). cbn [simplified_entries]. rewrite E. cbn [pbind].
    rewrite E', <- app_assoc. split; [reflexivity|]. constructor; auto.
Qed.

(** C6: for results the exporters accept, the simplified export returns
    one entry per result, in order, for the same item and quantity; the
    entry of a failed result has no average price ([null]) and carries the
    error of the result; the entry of a successful result has its average
    price as a number, and for the average price "23.50" that number is
    23.5 (47 halves). *)
Theorem simplified_export_entries (results : list Result.t) :
  Forall exportable results ->
  (exists entries,
     create_simplified_json results = Returned entries /\
     length entries = length results /\
     Forall2 spec_entry results entries) /\
  (forall item_id item_type condition quantity,
     exists e,
       simplified_entry
         (success_with_avg "23.50" item_id item_type condition quantity)
       = Returned e /\
       Simplified.average_price e = Some (dyadic 47 (-1))).
Proof.
  intros He. split.
  - destruct (simplified_entries_spec results He []) as (entries & E & Hf).
    exists entries. split; [exact E|]. split; [|exact Hf].
    symmetry. apply (Forall2_length _ _ _ Hf).
  - intros. eexists. split; [reflexivity|]. vm_compute. reflexivity.
Qed.
End ExporterProperties.

Section ExporterExamples.
#[local] Existing Instance example_runtime.

Lemma upload_export_prices_witness :
  exists blocks,
    create_bricklink_upload_xml
      [success_with_avg "10.00" "sw0001" "MINIFIG" (Some "U") (Some 2)]
      (float_of_Z 15)
    = Returned (String.concat newline
                  ("<INVENTORY>" :: concat blocks ++ ["</INVENTORY>"])) /\
    Forall2 (fun r block =>
               length block = 11%nat /\
               exists price,
                 block !! 3%nat
                 = Some ("        <PRICE>" +:+ price +:+ "</PRICE>") /\
                 shows_price (float_of_Z 15) r price)
            [success_with_avg "10.00" "sw0001" "MINIFIG" (Some "U") (Some 2)]
            blocks.
Proof.
  apply (upload_export_prices
           [success_with_avg "10.00" "sw0001" "MINIFIG" (Some "U") (Some 2)]
           (float_of_Z 15)).
  constructor; [|constructor].
  apply (success_with_avg_priced _ _ _ _ _ (dyadic 10 0)).
  vm_compute. reflexivity.
Defined.

Lemma simplified_export_entries_witness :
  exists entries,
    create_simplified_json
      [success_with_avg "23.50" "sw0001" "MINIFIG" (Some "U") (Some 2);
       Result.mk false "sw0002" "MINIFIG" None None
                 (Some (JStr "RESOURCE_NOT_FOUND - No item found"))
                 (Some (Some 404)) (Some 1)]
    = Returned entries /\
    length entries = 2%nat /\
    Forall2 spec_entry
      [success_with_avg "23.50" "sw0001" "MINIFIG" (Some "U") (Some 2);
       Result.mk false "sw0002" "MINIFIG" None None
                 (Some (JStr "RESOURCE_NOT_FOUND - No item found"))
                 (Some (Some 404)) (Some 1)]
      entries.
Proof.
  apply (simplified_export_entries
           [success_with_avg "23.50" "sw0001" "MINIFIG" (Some "U") (Some 2);
            Result.mk false "sw0002" "MINIFIG" None None
                      (Some (JStr "RESOURCE_NOT_FOUND - No item found"))
                      (Some (Some 404)) (Some 1)]).
  constructor; [|constructor; [|constructor]].
  - split.
    + apply (success_with_avg_priced _ _ _ _ _ (dyadic 47 (-1))).
      vm_compute. reflexivity.
    + intros _. eexists. reflexivity.
  - split.
    + apply failed_result_priced. reflexivity.
    + discriminate.
Defined.
End ExporterExamples.

(** ** Failed lookups *)

Section FailedLookups.
Context `{RT : PyRuntime}.
Variable World : Type.
Variable session_get : World -> string -> Params -> PyResult Response * World.
Variable py_repr : JSON -> string.

Lemma failed_result_exports_U (r : Result.t) :
  Result.success r = false -> Result.condition r = None ->
  exports_condition r "U".
Proof.
  intros Hs Hc. split.
  - intros markup_percent.
    destruct (upload_item_spec markup_percent r (failed_result_priced r Hs))
      as (block & price & E & _ & _ & _ & H7).
    exists block. split; [exact E|]. rewrite H7, Hc. reflexivity.
  - unfold simplified_entry. rewrite Hs, Hc. eexists. split; reflexivity.
Qed.

Lemma get_item_price_failure (w w' : World) (item_id item_type : string)
    (condition : option string) (r : Result.t) :
  get_item_price World session_get py_repr w item_id item_type condition
  = (Returned r, w') ->
  failure_without_condition r.
Proof.
  intros E Hs.
  destruct (get_item_price_returns World session_get py_repr w item_id item_type
              condition) as (r0 & w0 & E0 & H).
  rewrite E in E0. injection E0 as <- _.
  destruct H as (_ & _ & _ & H). rewrite Hs in H. apply H.
Qed.

Lemma used_price_fallback_keeps (itemid api_type : string)
    (condition : option string) (result final : Result.t) (env env' : Env World) :
  used_price_fallback World session_get py_repr itemid api_type condition
                      result env
  = (Returned final, env') ->
  Result.success final = Result.success result /\
  Result.condition final = Result.condition result.
Proof.
  unfold used_price_fallback, mbind, lift, mret.
  destruct (bool_decide (condition = Some "U") && Result.success result);
    [|now intros [= <- _]].
  destruct (result_data result) as [d|]; [|discriminate].
  destruct (py_get d "avg_price") as [avg|]; [|discriminate].
  destruct (truthy avg); cbn [negb]; [now intros [= <- _]|].
  destruct (fetch_returns World session_get py_repr Fallback itemid api_type
              (Some "N") env) as (nr & w' & _ & E & _).
  rewrite E.
  destruct (Result.success nr); [|now intros [= <- _]].
  destruct (result_data nr) as [nd|]; [|discriminate].
  destruct (py_get nd "avg_price") as [navg|]; [|discriminate].
  destruct (truthy navg); now intros [= <- _].
Qed.

Lemma process_item_failures (condition_filter : option string)
    (item : LineItem.t) (processed : gset string) (results : list Result.t)
    (env env' : Env World) (st : gset string * list Result.t) :
  Forall failure_without_condition results ->
  process_item World session_get py_repr condition_filter item processed
               results env
  = (Returned st, env') ->
  Forall failure_without_condition (snd st).
Proof.
  intros Hres. unfold process_item, mbind, lift, mret.
  destruct (api_type_of (LineItem.itemtype item)) as [api|]; [|discriminate].
  destruct (truthy_str condition_filter && _); [now intros [= <- _]|].
  destruct (bool_decide _); [now intros [= <- _]|].
  destruct (fetch_returns World session_get py_repr Primary
              (LineItem.itemid item) api (LineItem.condition item) env)
    as (r & w1 & Hget & E & _).
  rewrite E.
  destruct (used_price_fallback _ _ _ _ _ _ _ _) as [[final|e] env2] eqn:Ef;
    [|discriminate].
  intros [= <- _]. cbn [snd].
  apply Forall_app. split; [exact Hres|]. constructor; [|constructor].
  apply used_price_fallback_keeps in Ef. destruct Ef as [Hs Hc].
  intros Hfail. rewrite Hc. cbn. rewrite Hs in Hfail. cbn in Hfail.
  apply (get_item_price_failure _ _ _ _ _ _ Hget Hfail).
Qed.

Lemma process_items_failures (condition_filter : option string)
    (items : list LineItem.t) :
  forall (processed : gset string) (results final : list Result.t)
         (env env' : Env World),
    Forall failure_without_condition results ->
    process_items World session_get py_repr condition_filter items processed
                  results env
    = (Returned final, env') ->
    Forall failure_without_condition final.
Proof.
  induction items as [|item rest IH]; intros processed results final env env' Hres.
  - now intros [= <- _].
  - cbn [process_items]. unfold mbind.
    destruct (process_item _ _ _ _ _ _ _ _) as [[st|e] env1] eqn:E;
      [|discriminate].
    apply IH. apply (process_item_failures _ _ _ _ _ _ _ Hres E).
Qed.

(** C9: a failure result of the price client has no condition entry,
    for an API-level error as for an exception of the transport; hence
    for every failed Result of a run, whatever the condition of its Line
    Item, the upload export writes the condition line "U" and the
    simplified export records the condition "U". *)
Theorem failed_lookups_export_condition_U :
  (forall w w' item_id item_type condition r,
     get_item_price World session_get py_repr w item_id item_type condition
     = (Returned r, w') ->
     Result.success r = false ->
     Result.condition r = None) /\
  (forall w items condition_filter results env',
     get_prices_for_inventory World session_get py_repr w items condition_filter
     = (Returned results, env') ->
     forall r, r ∈ results -> Result.success r = false ->
               Result.condition r = None /\ exports_condition r "U").
Proof.
  split.
  - intros w w' item_id item_type condition r E. 
    apply (get_item_price_failure _ _ _ _ _ _ E).
  - intros w items condition_filter results env' E r Hin Hs.
    unfold get_prices_for_inventory in E.
    apply process_items_failures in E; [|constructor].
    rewrite Forall_forall in E. pose proof (E r Hin Hs) as Hc.
    split; [exact Hc|]. apply failed_result_exports_U; assumption.
Qed.
End FailedLookups.

Section FailedLookupsExamples.
#[local] Existing Instance example_runtime.

Lemma failed_lookups_export_condition_U_witness :
  let r := Result.mk false "sw0002" "MINIFIG" None None
                     (Some (JStr "RESOURCE_NOT_FOUND - No item found"))
                     (Some (Some 404)) (Some 1) in
  Result.condition r = None /\ exports_condition r "U".
Proof.
  apply (proj2 (failed_lookups_export_condition_U nat failing_service example_repr)
           0%nat [LineItem.mk "sw0002" "M" (Some "0") 1 (Some "N")] (Some "N")
           [Result.mk false "sw0002" "MINIFIG" None None
                      (Some (JStr "RESOURCE_NOT_FOUND - No item found"))
                      (Some (Some 404)) (Some 1)]
           (mkEnv 1%nat [mkLookup Primary "sw0002" "MINIFIG" (Some "N")])).
  - vm_compute. reflexivity.
  - constructor.
  - reflexivity.
Defined.
End FailedLookupsExamples.

(** * Further properties *)

(** ** Inventory parser *)

Section ParserOutcome.
Context `{RT : PyRuntime}.

Lemma py_int_raises (s : string) (e : PyExn) :
  py_int s = Raised e -> exn_class e = ValueError.
Proof.
  unfold py_int.
  destruct (sign_of (lstrip (to_ascii s))) as [neg body].
  destruct (digit_run body) as [digits rest].
  destruct digits; [now intros [= <-]|].
  destruct (match rest with c :: _ => Ascii.eqb c "_" | [] => false end);
    [now intros [= <-]|].
  destruct (_ && _); [now intros [= <-]|].
  destruct (blank rest); [discriminate | now intros [= <-]].
Qed.

Lemma qty_error_class (item : Element) (e : PyExn) :
  qty_error item = Some e ->
  exn_class e = AttributeError \/ exn_class e = ValueError.
Proof.
  unfold qty_error.
  destruct (find "QTY" item) as [q|]; [|discriminate].
  destruct (etext q) as [s|]; [|intros [= <-]; now left].
  destruct (isdigit s); [|discriminate].
  destruct (py_int s) as [n|e'] eqn:E; [discriminate|].
  intros [= <-]. right. apply (py_int_raises s e' E).
Qed.

Lemma first_qty_error_class (entries : list Element) (e : PyExn) :
  first_qty_error entries = Some e ->
  exn_class e = AttributeError \/ exn_class e = ValueError.
Proof.
  induction entries as [|item rest IH]; cbn [first_qty_error]; [discriminate|].
  destruct (spec_entry_valid item); [|exact IH].
  destruct (qty_error item) as [e'|] eqn:E; [|exact IH].
  intros [= <-]. apply (qty_error_class item e' E).
Qed.

(** The parser returns all the Line Items of a document or none: when
    the quantity field of some valid entry cannot be read (it has no text,
    or a text of digits that [int] refuses) the parser reports the error
    of the first such entry and returns the empty list, and otherwise it
    prints nothing and returns one Line Item per valid entry, in document
    order. *)
Theorem parse_xml_inventory_all_or_nothing (root : Element) (xml_file : string) :
  parse_xml_inventory (fun _ => Returned root) xml_file =
  match first_qty_error (findall_descendants "ITEM" root) with
  | Some e => (["Error reading XML file: " +:+ exn_msg e], Returned [])
  | None => ([], Returned (spec_inventory root))
  end.
Proof.
  unfold parse_xml_inventory, parse_try. cbn [pbind].
  rewrite parse_items_cases.
  destruct (first_qty_error _) as [e|] eqn:E; [|reflexivity].
  unfold parse_error_report.
  destruct (first_qty_error_class _ e E) as [-> | ->]; reflexivity.
Qed.

Lemma spec_line_item_ok (item : Element) :
  spec_entry_valid item = true -> parsed_ok (spec_line_item item).
Proof.
  unfold spec_entry_valid, parsed_ok, spec_line_item, spec_quantity.
  cbn [LineItem.itemid LineItem.itemtype LineItem.quantity].
  destruct (find "ITEMTYPE" item) as [ty|]; [|discriminate].
  destruct (find "ITEMID" item) as [id|]; [|discriminate].
  destruct (etext ty) as [t|]; [|discriminate].
  destruct (etext id) as [i|]; [|discriminate].
  intros Hv. apply andb_true_iff in Hv. destruct Hv as [Ht Hi].
  apply bool_decide_eq_true in Ht. apply ITEM_TYPE_MAP_codes in Ht.
  destruct Ht as [api Hapi]. cbn [str_of]. split; [|split].
  - exists api. unfold api_type_of. now rewrite Hapi.
  - intros ->. discriminate.
  - destruct (find "QTY" item) as [q|]; [|lia].
    destruct (etext q) as [s|]; [|lia].
    destruct (isdigit s) eqn:Hd; [|lia].
    destruct (py_int s) as [n|e] eqn:Hn; [|lia].
    apply (py_int_nonneg s n Hd Hn).
Qed.

(** Whatever the file holds, every Line Item the parser returns has a
    type code that [ITEM_TYPE_MAP] translates (so the pipeline's lookup of
    the API type cannot fail on it), a non-empty item id and a quantity
    that is not negative. *)
Theorem parse_xml_inventory_items_ok
    (ET_parse : string -> PyResult Element) (xml_file : string) :
  exists items,
    snd (parse_xml_inventory ET_parse xml_file) = Returned items /\
    Forall parsed_ok items.
Proof.
  unfold parse_xml_inventory, parse_try.
  destruct (ET_parse xml_file) as [root|e]; cbn [pbind].
  - rewrite parse_items_cases. destruct (first_qty_error _); cbn [snd app].
    + exists []. split; [reflexivity | constructor].
    + eexists. split; [reflexivity|].
      apply Forall_map, Forall_forall. intros item Hin.
      apply list_elem_of_In, filter_In in Hin. apply spec_line_item_ok, Hin.
  - exists []. split; [reflexivity | constructor].
Qed.
End ParserOutcome.

Section ParserOutcomeExamples.
#[local] Existing Instance example_runtime.

(** A quantity of superscript two passes [isdigit] and is refused by
    [int]: the document is lost.  A quantity in Arabic-Indic digits is
    read. *)
Example parse_xml_inventory_unicode_quantities :
  parse_xml_inventory
    (fun _ => Returned
       (Elem "INVENTORY" None
          [Elem "ITEM" None
             [Elem "ITEMTYPE" (Some "M") []; Elem "ITEMID" (Some "sp006") [];
              Elem "QTY" (Some "²") []]]))
    "Minifigures.xml"
  = (["Error reading XML file: invalid literal for int() with base 10: '²'"],
     Returned [])
  /\
  parse_xml_inventory
    (fun _ => Returned
       (Elem "INVENTORY" None
          [Elem "ITEM" None
             [Elem "ITEMTYPE" (Some "M") []; Elem "ITEMID" (Some "sp006") [];
              Elem "QTY" (Some "٣") []]]))
    "Minifigures.xml"
  = ([], Returned [LineItem.mk "sp006" "M" (Some "0") 3 (Some "U")]).
Proof. split; vm_compute; reflexivity. Qed.
End ParserOutcomeExamples.

(** ** Pricing pipeline: the shape of a run *)

Section RunProperties.
Variable World : Type.
Variable session_get : World -> string -> Params -> PyResult Response * World.
Variable py_repr : JSON -> string.

Abbreviation run_item := (process_item World session_get py_repr).
Abbreviation run_items := (process_items World session_get py_repr).
Abbreviation run := (get_prices_for_inventory World session_get py_repr).

(** What the fallback does to the log and to the Result. *)
Lemma used_price_fallback_effect (itemid api_type : string)
    (condition : option string) (result : Result.t) (env : Env World) :
  exists out env' tail,
    used_price_fallback World session_get py_repr itemid api_type condition
                        result env = (out, env') /\
    lookups env' = lookups env ++ tail /\
    (tail = [] \/
     (condition = Some "U" /\
      tail = [mkLookup Fallback itemid api_type (Some "N")])) /\
    match out with
    | Returned final => same_but_data final result
    | Raised _ => True
    end.
Proof.
  pose proof (used_price_fallback_log World session_get py_repr itemid api_type
                condition result env) as Hlog.
  cbv zeta in Hlog.
  destruct (used_price_fallback World session_get py_repr itemid api_type
              condition result env) as [out env'] eqn:E.
  cbn [snd] in Hlog.
  exists out, env'.
  destruct Hlog as [Hl | [Hc Hl]].
  - exists []. rewrite app_nil_r. split; [reflexivity|]. split; [exact Hl|].
    split; [now left|].
    destruct out as [final|]; [|exact I].
    destruct (used_price_fallback_keeps World session_get py_repr _ _ _ _ _ _ _ E)
      as [Hs Hcnd].
    revert E. unfold used_price_fallback, mbind, lift, mret.
    destruct (bool_decide (condition = Some "U") && Result.success result);
      [|intros [= <- _]; repeat split].
    destruct (result_data result) as [d|]; [|discriminate].
    destruct (py_get d "avg_price") as [avg|]; [|discriminate].
    destruct (truthy avg); cbn [negb]; [intros [= <- _]; repeat split|].
    destruct (fetch_returns World session_get py_repr Fallback itemid api_type
                (Some "N") env) as (nr & w' & _ & Ef & _).
    rewrite Ef.
    destruct (Result.success nr); [|intros [= <- _]; repeat split].
    destruct (result_data nr) as [nd|]; [|discriminate].
    destruct (py_get nd "avg_price") as [navg|]; [|discriminate].
    destruct (truthy navg); intros [= <- _]; repeat split.
  - eexists. split; [reflexivity|]. split; [exact Hl|]. split; [right; auto|].
    destruct out as [final|]; [|exact I].
    revert E. unfold used_price_fallback, mbind, lift, mret.
    destruct (bool_decide (condition = Some "U") && Result.success result);
      [|intros [= <- _]; repeat split].
    destruct (result_data result) as [d|]; [|discriminate].
    destruct (py_get d "avg_price") as [avg|]; [|discriminate].
    destruct (truthy avg); cbn [negb]; [intros [= <- _]; repeat split|].
    destruct (fetch_returns World session_get py_repr Fallback itemid api_type
                (Some "N") env) as (nr & w' & _ & Ef & _).
    rewrite Ef.
    destruct (Result.success nr); [|intros [= <- _]; repeat split].
    destruct (result_data nr) as [nd|]; [|discriminate].
    destruct (py_get nd "avg_price") as [navg|]; [|discriminate].
    destruct (truthy navg); intros [= <- _]; repeat split.
Qed.

(** The three things one iteration can do. *)
Lemma process_item_effect (condition_filter : option string) (item : LineItem.t)
    (processed : gset string) (results : list Result.t) (env : Env World) :
  let key := unique_key (LineItem.itemid item) (LineItem.itemtype item)
                        (LineItem.condition item) in
  (ITEM_TYPE_MAP !! LineItem.itemtype item = None /\
   run_item condition_filter item processed results env
   = (Raised (exn KeyError ("'" +:+ LineItem.itemtype item +:+ "'")), env))
  \/
  (is_Some (ITEM_TYPE_MAP !! LineItem.itemtype item) /\
   (eligible condition_filter item = false \/ key ∈ processed) /\
   run_item condition_filter item processed results env
   = (Returned (processed, results), env))
  \/
  (exists api out env' tail,
     ITEM_TYPE_MAP !! LineItem.itemtype item = Some api /\
     eligible condition_filter item = true /\
     (key ∉ processed) /\
     run_item condition_filter item processed results env = (out, env') /\
     lookups env'
     = lookups env
       ++ (mkLookup Primary (LineItem.itemid item) api (LineItem.condition item)
           :: tail) /\
     (tail = [] \/
      (LineItem.condition item = Some "U" /\
       tail = [mkLookup Fallback (LineItem.itemid item) api (Some "N")])) /\
     match out with
     | Returned st =>
         exists final,
           st = (processed ∪ {[ key ]}, results ++ [final]) /\
           Result.itemid final = LineItem.itemid item /\
           Result.item_type final = api /\
           Result.quantity final = Some (LineItem.quantity item)
     | Raised _ => True
     end).
Proof.
  cbv zeta. unfold process_item, mbind, lift, mret, api_type_of, eligible.
  destruct (ITEM_TYPE_MAP !! LineItem.itemtype item) as [api|] eqn:Hapi;
    [|left; auto].
  right.
  destruct (truthy_str condition_filter &&
            negb (bool_decide (LineItem.condition item = condition_filter)));
    cbn [negb]; [left; eauto|].
  destruct (bool_decide (unique_key (LineItem.itemid item) (LineItem.itemtype item)
                           (LineItem.condition item) ∈ processed)) eqn:Hkey.
  { apply bool_decide_eq_true in Hkey. left; eauto. }
  apply bool_decide_eq_false in Hkey. right.
  destruct (fetch_returns World session_get py_repr Primary (LineItem.itemid item)
              api (LineItem.condition item) env) as (r & w1 & _ & E & Hr).
  rewrite E.
  destruct (used_price_fallback_effect (LineItem.itemid item) api
              (LineItem.condition item)
              (Result.set_quantity (LineItem.quantity item) r)
              (mkEnv w1 (lookups env ++
                           [mkLookup Primary (LineItem.itemid item) api
                                     (LineItem.condition item)])))
    as (out & env' & tail & Ef & Hl & Htail & Hout).
  rewrite Ef. cbn [lookups] in Hl. rewrite <- app_assoc in Hl. cbn [app] in Hl.
  exists api. destruct out as [final|e].
  - do 3 eexists. repeat (split; [solve [reflexivity | eassumption]|]).
    destruct Hout as (_ & Hi & Ht & _ & Hq). destruct Hr as (Hri & Hrt & _).
    exists final. cbn in Hi, Ht, Hq. rewrite Hi, Ht, Hq. auto.
  - do 3 eexists. repeat (split; [solve [reflexivity | eassumption]|]). exact I.
Qed.

Lemma lookups_at_app (site : Site) (l1 l2 : list Lookup) :
  lookups_at site (l1 ++ l2) = lookups_at site l1 ++ lookups_at site l2.
Proof. apply List.filter_app. Qed.

Lemma lookups_at_length (site : Site) (log : list Lookup) :
  (length (lookups_at site log) <= length log)%nat.
Proof. apply List.filter_length_le. Qed.

Lemma log_ok_mono (condition_filter : option string)
    (done more : list LineItem.t) (log : list Lookup) :
  log_ok condition_filter done log ->
  log_ok condition_filter (done ++ more) log.
Proof.
  intros (H1 & H2 & H3 & H4). repeat split.
  - intros l Hl Hs. destruct (H1 l Hl Hs) as (item & Hin & H).
    exists item. split; [apply elem_of_app; now left | exact H].
  - apply H2; assumption.
  - apply H2; assumption.
  - rewrite length_app. lia.
  - rewrite length_app. lia.
Qed.

Lemma log_ok_step (condition_filter : option string) (done : list LineItem.t)
    (item : LineItem.t) (processed : gset string) (results : list Result.t)
    (env : Env World) :
  log_ok condition_filter done (lookups env) ->
  log_ok condition_filter (done ++ [item])
         (lookups (snd (run_item condition_filter item processed results env))).
Proof.
  intros Hok.
  destruct (process_item_effect condition_filter item processed results env)
    as [[_ ->] | [(_ & _ & ->) | H]];
    try (cbn [snd]; apply log_ok_mono, Hok).
  destruct H as (api & out & env' & tail & Hapi & Hel & _ & -> & Hl & Htail & _).
  cbn [snd]. rewrite Hl. destruct Hok as (H1 & H2 & H3 & H4).
  assert (Hnew : lk_site (mkLookup Primary (LineItem.itemid item) api
                                   (LineItem.condition item)) = Primary)
    by reflexivity.
  repeat split.
  - intros l Hin Hs. apply elem_of_app in Hin. destruct Hin as [Hin | Hin].
    + destruct (H1 l Hin Hs) as (it & Hit & H).
      exists it. split; [apply elem_of_app; now left | exact H].
    + apply elem_of_cons in Hin. destruct Hin as [-> | Hin].
      * exists item. split; [apply elem_of_app; right; apply list_elem_of_singleton;
                             reflexivity|].
        cbn. auto.
      * destruct Htail as [-> | [_ ->]]; [inversion Hin|].
        apply list_elem_of_singleton in Hin. subst l. discriminate Hs.
  - apply elem_of_app in H. destruct H as [Hin | Hin].
    + apply H2; assumption.
    + apply elem_of_cons in Hin. destruct Hin as [-> | Hin]; [discriminate|].
      destruct Htail as [-> | [_ ->]]; [inversion Hin|].
      apply list_elem_of_singleton in Hin. now subst l.
  - apply elem_of_app in H. destruct H as [Hin | Hin].
    + apply elem_of_app. left. apply H2; assumption.
    + apply elem_of_cons in Hin. destruct Hin as [-> | Hin]; [discriminate|].
      destruct Htail as [-> | [Hc ->]]; [inversion Hin|].
      apply list_elem_of_singleton in Hin. subst l. cbn.
      apply elem_of_app. right. rewrite Hc. apply list_elem_of_here.
  - rewrite !length_app. cbn [length].
    destruct Htail as [-> | [_ ->]]; cbn [length]; lia.
  - rewrite lookups_at_app, !length_app.
    assert (Hone : length (lookups_at Primary
                             (mkLookup Primary (LineItem.itemid item) api
                                       (LineItem.condition item) :: tail)) = 1%nat)
      by (destruct Htail as [-> | [_ ->]]; reflexivity).
    rewrite Hone. cbn [length]. lia.
Qed.

Lemma process_items_log_ok (condition_filter : option string)
    (items : list LineItem.t) :
  forall (done : list LineItem.t) (processed : gset string)
         (results : list Result.t) (env : Env World),
    log_ok condition_filter done (lookups env) ->
    log_ok condition_filter (done ++ items)
           (lookups (snd (run_items condition_filter items processed results env))).
Proof.
  induction items as [|item rest IH]; intros done processed results env Hok.
  - cbn. rewrite app_nil_r. exact Hok.
  - cbn [process_items]. unfold mbind.
    pose proof (log_ok_step condition_filter done item processed results env Hok)
      as Hstep.
    destruct (run_item condition_filter item processed results env)
      as [[st|e] env1]; cbn [snd] in *.
    + replace (done ++ item :: rest) with ((done ++ [item]) ++ rest)
        by now rewrite <- app_assoc.
      apply IH, Hstep.
    + replace (done ++ item :: rest) with ((done ++ [item]) ++ rest)
        by now rewrite <- app_assoc.
      apply log_ok_mono, Hstep.
Qed.

Lemma run_log_ok (w : World) (items : list LineItem.t)
    (condition_filter : option string) :
  log_ok condition_filter items
         (lookups (snd (run w items condition_filter))).
Proof.
  unfold get_prices_for_inventory.
  apply (process_items_log_ok condition_filter items [] ∅ [] (mkEnv w [])).
  cbn [lookups]. repeat split; cbn; try lia; intros;
    match goal with H : _ ∈ [] |- _ => inversion H end.
Qed.

Lemma state_ok_step (condition_filter : option string) (done : list LineItem.t)
    (item : LineItem.t) (processed : gset string) (results : list Result.t)
    (env env' : Env World) (st : gset string * list Result.t) :
  state_ok condition_filter done processed results (lookups env) ->
  run_item condition_filter item processed results env = (Returned st, env') ->
  state_ok condition_filter (done ++ [item]) (fst st) (snd st) (lookups env').
Proof.
  intros (H4 & H5 & H6) E.
  destruct (process_item_effect condition_filter item processed results env)
    as [[_ E'] | [(Hty & Hskip & E') | H]].
  - rewrite E in E'. discriminate.
  - rewrite E in E'. injection E' as -> ->. cbn [fst snd]. repeat split.
    + apply elem_of_app in H. destruct H as [H | H]; [now apply H4|].
      apply list_elem_of_singleton in H. now subst.
    + intros Hel. apply elem_of_app in H. destruct H as [H | H];
        [now apply H4|].
      apply list_elem_of_singleton in H. subst item0.
      destruct Hskip as [Hskip | Hskip]; [congruence | exact Hskip].
    + exact H5.
    + intros r Hr. destruct (H6 r Hr) as (it & Hit & H).
      exists it. split; [apply elem_of_app; now left | exact H].
  - destruct H as (api & out & env1 & tail & Hapi & Hel & _ & E' & Hl & Htail & Hout).
    rewrite E in E'. injection E' as <- <-.
    destruct Hout as (final & -> & Hfi & Hft & Hfq). cbn [fst snd]. rewrite Hl.
    repeat split.
    + apply elem_of_app in H. destruct H as [H | H]; [now apply H4|].
      apply list_elem_of_singleton in H. subst. now rewrite Hapi.
    + intros Hel'. apply elem_of_union. apply elem_of_app in H.
      destruct H as [H | H]; [left; now apply H4|].
      apply list_elem_of_singleton in H. subst. right.
      now apply elem_of_singleton.
    + rewrite lookups_at_app, !length_app, H5.
      assert (Hone : length (lookups_at Primary
                               (mkLookup Primary (LineItem.itemid item) api
                                         (LineItem.condition item) :: tail))
                     = 1%nat)
        by (destruct Htail as [-> | [_ ->]]; reflexivity).
      now rewrite Hone.
    + intros r Hr. apply elem_of_app in Hr. destruct Hr as [Hr | Hr].
      * destruct (H6 r Hr) as (it & Hit & H).
        exists it. split; [apply elem_of_app; now left | exact H].
      * apply list_elem_of_singleton in Hr. subst r. exists item.
        split; [apply elem_of_app; right; now apply list_elem_of_singleton|].
        rewrite Hft. auto.
Qed.

(** A run that returns can be continued: its locals are in order, and a
    run on a longer list goes on from them. *)
Lemma process_items_returned (condition_filter : option string)
    (items : list LineItem.t) :
  forall (done : list LineItem.t) (processed : gset string)
         (results final : list Result.t) (env env' : Env World),
    state_ok condition_filter done processed results (lookups env) ->
    run_items condition_filter items processed results env
    = (Returned final, env') ->
    exists processed',
      state_ok condition_filter (done ++ items) processed' final (lookups env') /\
      forall more,
        run_items condition_filter (items ++ more) processed results env
        = run_items condition_filter more processed' final env'.
Proof.
  induction items as [|item rest IH];
    intros done processed results final env env' Hok E.
  - cbn in E. injection E as <- <-. exists processed. rewrite app_nil_r.
    split; [exact Hok | reflexivity].
  - cbn [process_items] in E. unfold mbind in E.
    destruct (run_item condition_filter item processed results env)
      as [[st|e] env1] eqn:Estep; [|discriminate].
    pose proof (state_ok_step _ _ _ _ _ _ _ _ Hok Estep) as Hok1.
    destruct (IH _ _ _ _ _ _ Hok1 E) as (processed' & Hok' & Hmore).
    exists processed'. rewrite <- app_assoc in Hok'. split; [exact Hok'|].
    intros more. cbn [app process_items]. unfold mbind. rewrite Estep.
    apply Hmore.
Qed.

Lemma run_returned (w : World) (items : list LineItem.t)
    (condition_filter : option string) (results : list Result.t)
    (env' : Env World) :
  run w items condition_filter = (Returned results, env') ->
  exists processed',
    state_ok condition_filter items processed' results (lookups env') /\
    forall more,
      run w (items ++ more) condition_filter
      = run_items condition_filter more processed' results env'.
Proof.
  unfold get_prices_for_inventory. intros E.
  apply (process_items_returned condition_filter items [] ∅ [] results
           (mkEnv w []) env'); [|exact E].
  repeat split; try (intros; match goal with H : _ ∈ [] |- _ => inversion H end).
Qed.

(** Line Items that are filtered out or already processed change
    nothing. *)
Lemma process_items_noop (condition_filter : option string)
    (items : list LineItem.t) (processed : gset string)
    (results : list Result.t) (env : Env World) :
  (forall item, item ∈ items ->
     is_Some (ITEM_TYPE_MAP !! LineItem.itemtype item) /\
     (eligible condition_filter item = true ->
      unique_key (LineItem.itemid item) (LineItem.itemtype item)
                 (LineItem.condition item) ∈ processed)) ->
  run_items condition_filter items processed results env = (Returned results, env).
Proof.
  induction items as [|item rest IH]; intros H; [reflexivity|].
  cbn [process_items]. unfold mbind.
  destruct (H item (list_elem_of_here _ _)) as [Hty Hkey].
  destruct (process_item_effect condition_filter item processed results env)
    as [[Hnone _] | [(_ & _ & ->) | Hl]].
  - rewrite Hnone in Hty. now destruct Hty.
  - cbn [fst snd]. apply IH. intros it Hit. apply H. now apply list_elem_of_further.
  - destruct Hl as (api & out & env1 & tail & _ & Hel & Hfresh & _).
    destruct (Hfresh (Hkey Hel)).
Qed.

Lemma eligible_filter (condition_filter : option string) (item : LineItem.t) :
  truthy_str condition_filter = true ->
  eligible condition_filter item = true ->
  LineItem.condition item = condition_filter.
Proof.
  unfold eligible. intros -> H. cbn [andb] in H.
  apply negb_true_iff, negb_false_iff, bool_decide_eq_true in H. exact H.
Qed.

(** With a condition filter, every lookup made for a Line Item asks for
    the condition of the filter, and every Result of the run belongs to a
    Line Item of that condition, whose item id and quantity it carries. *)
Theorem run_respects_filter (w : World) (items : list LineItem.t)
    (condition_filter : option string) :
  truthy_str condition_filter = true ->
  (forall l, l ∈ lookups (snd (run w items condition_filter)) ->
             lk_site l = Primary -> lk_condition l = condition_filter) /\
  (forall results r,
     fst (run w items condition_filter) = Returned results -> r ∈ results ->
     exists item,
       item ∈ items /\ LineItem.condition item = condition_filter /\
       Result.itemid r = LineItem.itemid item /\
       Result.quantity r = Some (LineItem.quantity item)).
Proof.
  intros Hf. split.
  - intros l Hl Hs.
    destruct (run_log_ok w items condition_filter) as (H1 & _).
    destruct (H1 l Hl Hs) as (item & _ & Hel & _ & _ & ->).
    apply eligible_filter; assumption.
  - intros results r E Hr.
    destruct (run w items condition_filter) as [out env'] eqn:Erun.
    cbn [fst] in E. subst out.
    destruct (run_returned _ _ _ _ _ Erun) as (p & (_ & _ & H6) & _).
    destruct (H6 r Hr) as (item & Hin & Hel & Hi & _ & Hq).
    exists item. split; [exact Hin|]. split; [|auto].
    apply eligible_filter; assumption.
Qed.

(** A fallback lookup always asks for condition "N" and only happens
    after the lookup of the same item for condition "U"; with the filter
    "N" a run makes no fallback lookup at all: every lookup is the lookup
    of a Line Item, for condition "N". *)
Theorem fallback_follows_used_lookup (w : World) (items : list LineItem.t)
    (condition_filter : option string) :
  let log := lookups (snd (run w items condition_filter)) in
  (forall l, l ∈ log -> lk_site l = Fallback ->
     lk_condition l = Some "N" /\
     mkLookup Primary (lk_item_id l) (lk_item_type l) (Some "U") ∈ log) /\
  (condition_filter = Some "N" ->
   forall l, l ∈ log -> lk_site l = Primary /\ lk_condition l = Some "N").
Proof.
  cbv zeta.
  destruct (run_log_ok w items condition_filter) as (H1 & H2 & _).
  split; [exact H2|].
  intros -> l Hl.
  assert (Hprim : forall l', l' ∈ lookups (snd (run w items (Some "N"))) ->
                             lk_site l' = Primary -> lk_condition l' = Some "N").
  { intros l' Hl' Hs. destruct (H1 l' Hl' Hs) as (item & _ & Hel & _ & _ & ->).
    apply eligible_filter; [reflexivity | exact Hel]. }
  destruct (lk_site l) eqn:Hs.
  - split; [reflexivity | apply Hprim; assumption].
  - destruct (H2 l Hl Hs) as [_ Hu].
    specialize (Hprim _ Hu eq_refl). discriminate Hprim.
Qed.

(** A run makes at most two lookups per Line Item; when it returns, it
    returns one Result per lookup of a Line Item, hence no more Results
    than Line Items. *)
Theorem run_counts (w : World) (items : list LineItem.t)
    (condition_filter : option string) :
  let out := run w items condition_filter in
  (length (lookups (snd out)) <= 2 * length items)%nat /\
  (forall results,
     fst out = Returned results ->
     length results = length (lookups_at Primary (lookups (snd out))) /\
     (length results <= length items)%nat).
Proof.
  cbv zeta.
  destruct (run_log_ok w items condition_filter) as (_ & _ & H3 & H4).
  split; [exact H3|].
  intros results E.
  destruct (run w items condition_filter) as [out env'] eqn:Erun.
  cbn [fst snd] in *. subst out.
  destruct (run_returned _ _ _ _ _ Erun) as (p & (_ & H5 & _) & _).
  split; [exact H5 | now rewrite H5].
Qed.

(** Line Items that repeat earlier ones change nothing: when a run on
    [items] returns, the run on [items] followed by Line Items that all
    occur in [items] returns the same Results, after the same lookups and
    with the service in the same state. *)
Theorem run_ignores_repeats (w : World) (items more : list LineItem.t)
    (condition_filter : option string) (results : list Result.t)
    (env' : Env World) :
  run w items condition_filter = (Returned results, env') ->
  (forall item, item ∈ more -> item ∈ items) ->
  run w (items ++ more) condition_filter = (Returned results, env').
Proof.
  intros E Hsub.
  destruct (run_returned _ _ _ _ _ E) as (p & (H4 & _) & Hmore).
  rewrite Hmore. apply process_items_noop.
  intros item Hin. apply H4, Hsub, Hin.
Qed.

(** A Line Item whose type code is not in [ITEM_TYPE_MAP] aborts the run
    with a [KeyError], whatever its condition and the condition filter:
    the Results of the Line Items before it are lost, and no lookup is
    made for it or for the Line Items after it. *)
Theorem run_aborts_on_unknown_type (w : World) (pre post : list LineItem.t)
    (item : LineItem.t) (condition_filter : option string)
    (results : list Result.t) (env' : Env World) :
  run w pre condition_filter = (Returned results, env') ->
  ITEM_TYPE_MAP !! LineItem.itemtype item = None ->
  run w (pre ++ item :: post) condition_filter
  = (Raised (exn KeyError ("'" +:+ LineItem.itemtype item +:+ "'")), env').
Proof.
  intros E Hnone.
  destruct (run_returned _ _ _ _ _ E) as (p & _ & Hmore).
  rewrite Hmore. cbn [process_items]. unfold mbind.
  destruct (process_item_effect condition_filter item p results env')
    as [[_ ->] | [(Hty & _) | (api & ? & ? & ? & Hapi & _)]].
  - reflexivity.
  - rewrite Hnone in Hty. now destruct Hty.
  - congruence.
Qed.
End RunProperties.

Lemma run_respects_filter_witness :
  (forall l,
     l ∈ lookups (snd (get_prices_for_inventory nat example_service example_repr
                         0%nat used_and_new (Some "N"))) ->
     lk_site l = Primary -> lk_condition l = Some "N") /\
  (forall results r,
     fst (get_prices_for_inventory nat example_service example_repr
            0%nat used_and_new (Some "N")) = Returned results ->
     r ∈ results ->
     exists item,
       item ∈ used_and_new /\ LineItem.condition item = Some "N" /\
       Result.itemid r = LineItem.itemid item /\
       Result.quantity r = Some (LineItem.quantity item)).
Proof.
  apply (run_respects_filter nat example_service example_repr 0%nat used_and_new
           (Some "N")).
  reflexivity.
Defined.

Lemma fallback_follows_used_lookup_witness :
  lk_site (mkLookup Primary "sw0001" "MINIFIG" (Some "N")) = Primary /\
  lk_condition (mkLookup Primary "sw0001" "MINIFIG" (Some "N")) = Some "N".
Proof.
  apply (proj2 (fallback_follows_used_lookup nat example_service example_repr
                  0%nat used_and_new (Some "N")) eq_refl
           (mkLookup Primary "sw0001" "MINIFIG" (Some "N"))).
  vm_compute. constructor.
Defined.

Lemma run_counts_witness :
  exists results : list Result.t,
    length results
    = length (lookups_at Primary
                (lookups (snd (get_prices_for_inventory nat example_service
                                 example_repr 0%nat used_and_new (Some "N"))))) /\
    (length results <= length used_and_new)%nat.
Proof.
  eexists.
  apply (proj2 (run_counts nat example_service example_repr 0%nat used_and_new
                  (Some "N"))).
  vm_compute. reflexivity.
Defined.

Lemma run_ignores_repeats_witness :
  exists results env',
    get_prices_for_inventory nat example_service example_repr 0%nat
      (used_and_new ++ used_and_new) None
    = (Returned results, env') /\
    length results = 2%nat.
Proof.
  do 2 eexists. split.
  - apply (run_ignores_repeats nat example_service example_repr 0%nat
             used_and_new used_and_new None).
    + vm_compute. reflexivity.
    + intros item Hin. exact Hin.
  - reflexivity.
Defined.

Lemma run_aborts_on_unknown_type_witness :
  exists env',
    get_prices_for_inventory nat example_service example_repr 0%nat
      (used_and_new ++ LineItem.mk "6251" "G" (Some "0") 1 (Some "N") :: [])
      (Some "U")
    = (Raised (exn KeyError "'G'"), env').
Proof.
  eexists.
  eapply (run_aborts_on_unknown_type nat example_service example_repr 0%nat
           used_and_new [] (LineItem.mk "6251" "G" (Some "0") 1 (Some "N"))
           (Some "U")).
  - vm_compute. reflexivity.
  - vm_compute. reflexivity.
Defined.

Section RunReturns.
Context `{RT : PyRuntime}.
Variable World : Type.
Variable session_get : World -> string -> Params -> PyResult Response * World.
Variable py_repr : JSON -> string.

Lemma process_item_returns (condition_filter : option string) (item : LineItem.t)
    (processed : gset string) (results : list Result.t) (env : Env World) :
  dict_payloads session_get ->
  is_Some (ITEM_TYPE_MAP !! LineItem.itemtype item) ->
  exists st env',
    process_item World session_get py_repr condition_filter item processed
                 results env = (Returned st, env').
Proof.
  intros Hdict [api Hapi].
  unfold process_item, mbind, lift, mret.
  rewrite (proj2 (api_type_of_Returned _ _) Hapi).
  destruct (truthy_str condition_filter && _); [eauto|].
  destruct (bool_decide _); [eauto|].
  destruct (fetch_returns World session_get py_repr Primary (LineItem.itemid item)
              api (LineItem.condition item) env) as (r & w1 & Hget & E & _).
  rewrite E.
  destruct (used_price_fallback_returns World session_get py_repr
              (LineItem.itemid item) api (LineItem.condition item)
              (Result.set_quantity (LineItem.quantity item) r)
              (mkEnv w1 (lookups env ++
                           [mkLookup Primary (LineItem.itemid item) api
                                     (LineItem.condition item)])) Hdict)
    as (final & env' & -> & _).
  { cbn. apply (get_item_price_dict _ _ _ _ _ _ _ _ _ Hdict Hget). }
  eauto.
Qed.

Lemma process_items_returns (condition_filter : option string)
    (items : list LineItem.t) :
  dict_payloads session_get ->
  Forall (fun item => is_Some (ITEM_TYPE_MAP !! LineItem.itemtype item)) items ->
  forall (processed : gset string) (results : list Result.t) (env : Env World),
  exists final env',
    process_items World session_get py_repr condition_filter items processed
                  results env = (Returned final, env').
Proof.
  intros Hdict. induction 1 as [|item rest Hty _ IH]; intros processed results env.
  - cbn. eauto.
  - cbn [process_items]. unfold mbind.
    destruct (process_item_returns condition_filter item processed results env
                Hdict Hty) as (st & env1 & ->).
    apply IH.
Qed.

(** The parser and the pipeline fit together: on the Line Items the
    parser returns for any file, a run returns Results, without an
    exception, with every service whose successful answers carry an object
    as pricing data. *)
Theorem run_returns_on_parsed_items
    (ET_parse : string -> PyResult Element) (xml_file : string)
    (w : World) (condition_filter : option string) :
  dict_payloads session_get ->
  exists items results env',
    snd (parse_xml_inventory ET_parse xml_file) = Returned items /\
    get_prices_for_inventory World session_get py_repr w items condition_filter
    = (Returned results, env').
Proof.
  intros Hdict.
  assert (Hitems : exists items,
             snd (parse_xml_inventory ET_parse xml_file) = Returned items /\
             Forall parsed_ok items).
  { unfold parse_xml_inventory, parse_try.
    destruct (ET_parse xml_file) as [root|e]; cbn [pbind].
    - rewrite parse_items_cases. destruct (first_qty_error _); cbn [snd app].
      + exists []. split; [reflexivity | constructor].
      + eexists. split; [reflexivity|].
        apply Forall_map, Forall_forall. intros item Hin.
        apply list_elem_of_In, filter_In in Hin. apply spec_line_item_ok, Hin.
    - exists []. split; [reflexivity | constructor]. }
  destruct Hitems as (items & Hparse & Hok).
  destruct (process_items_returns condition_filter items Hdict) with
    (processed := (∅ : gset string)) (results := @nil Result.t)
    (env := mkEnv w []) as (final & env' & E).
  - eapply Forall_impl; [exact Hok|].
    intros item ([api Hapi] & _). exists api.
    now apply api_type_of_Returned.
  - exists items, final, env'. split; [exact Hparse | exact E].
Qed.
End RunReturns.

Section RunReturnsExamples.
#[local] Existing Instance example_runtime.

Lemma run_returns_on_parsed_items_witness :
  exists items results env',
    snd (parse_xml_inventory (fun _ => Returned example_inventory)
                             "Parts.xml") = Returned items /\
    get_prices_for_inventory nat example_service example_repr 0%nat items None
    = (Returned results, env').
Proof.
  apply (run_returns_on_parsed_items nat example_service example_repr
           (fun _ => Returned example_inventory) "Parts.xml" 0%nat None).
  exact example_service_dict_payloads.
Defined.
End RunReturnsExamples.

(** ** Exporters: type codes, quantities, failures *)

Lemma TYPE_CODE_MAP_unfold :
  TYPE_CODE_MAP = <["MINIFIG" := "M"]> (<["PART" := "P"]> (<["SET" := "S"]> ∅)).
Proof. vm_compute. reflexivity. Qed.

Lemma TYPE_CODE_MAP_lookup (api t : string) :
  TYPE_CODE_MAP !! api = Some t <-> ITEM_TYPE_MAP !! t = Some api.
Proof.
  rewrite TYPE_CODE_MAP_unfold, ITEM_TYPE_MAP_lookup.
  rewrite !lookup_insert_Some, lookup_empty. split.
  - intros [[<- <-] | [_ [[<- <-] | [_ [[<- <-] | [_ H]]]]]]; auto; discriminate.
  - intros [[-> ->] | [[-> ->] | [-> ->]]].
    + left; auto.
    + right; split; [discriminate|]. left; auto.
    + right; split; [discriminate|]. right; split; [discriminate|]. left; auto.
Qed.

Section ExportRoundTrip.
Context `{RT : PyRuntime}.

(** The upload export writes back the type code of the inventory: for a
    Result whose API type is the translation of the type code [t], the
    type line of its block shows [t]; for any other API type it shows
    "M". *)
Theorem upload_type_code_round_trip (markup_percent : float) (r : Result.t)
    (block : list string) :
  upload_item markup_percent r = Returned block ->
  (forall t, ITEM_TYPE_MAP !! t = Some (Result.item_type r) ->
             block !! 8%nat = Some ("        <ITEMTYPE>" +:+ t +:+ "</ITEMTYPE>")) /\
  ((forall t, ITEM_TYPE_MAP !! t <> Some (Result.item_type r)) ->
   block !! 8%nat = Some "        <ITEMTYPE>M</ITEMTYPE>").
Proof.
  unfold upload_item. destruct (upload_price markup_percent r) as [price|];
    [|discriminate].
  cbn [pbind]. intros [= <-]. cbn [lookup list_lookup]. split.
  - intros t Ht. apply TYPE_CODE_MAP_lookup in Ht. now rewrite Ht.
  - intros Hnone. destruct (TYPE_CODE_MAP !! Result.item_type r) as [t|] eqn:Ht;
      [|reflexivity].
    apply TYPE_CODE_MAP_lookup in Ht. destruct (Hnone t Ht).
Qed.



Lemma upload_items_app (markup_percent : float) (a b : list Result.t) :
  forall lines,
    upload_items markup_percent (a ++ b) lines
    = pbind (upload_items markup_percent a lines) (upload_items markup_percent b).
Proof.
  induction a as [|r a IH]; intros lines; [reflexivity|].
  cbn [app upload_items].
  destruct (upload_item markup_percent r) as [block|e]; cbn [pbind];
    [apply IH | reflexivity].
Qed.

Lemma simplified_entries_app (a b : list Result.t) :
  forall simplified,
    simplified_entries (a ++ b) simplified
    = pbind (simplified_entries a simplified) (simplified_entries b).
Proof.
  induction a as [|r a IH]; intros simplified; [reflexivity|].
  cbn [app simplified_entries].
  destruct (simplified_entry r) as [entry|e]; cbn [pbind];
    [apply IH | reflexivity].
Qed.

(** One average price that [float] rejects aborts both exports: when the
    results before it can be exported, the upload export and the
    simplified export of the whole list raise the error of that
    conversion and return no document, whatever comes after. *)
Theorem exports_abort_on_bad_price (pre post : list Result.t) (r : Result.t)
    (markup_percent : float) (items : list (string * JSON)) (avg : JSON)
    (e : PyExn) :
  Forall exportable pre ->
  Result.success r = true ->
  Result.data r = Some (JObj items) ->
  assoc "avg_price" items = Some avg ->
  truthy avg = true ->
  py_float avg = Raised e ->
  create_bricklink_upload_xml (pre ++ r :: post) markup_percent = Raised e /\
  create_simplified_json (pre ++ r :: post) = Raised e.
Proof.
  intros Hpre Hs Hd Ha Ht Hf. split.
  - unfold create_bricklink_upload_xml. rewrite upload_items_app.
    destruct (upload_items_spec markup_percent pre) with (lines := ["<INVENTORY>"])
      as (blocks & -> & _).
    { eapply Forall_impl; [exact Hpre|]. now intros x [Hx _]. }
    cbn [pbind upload_items]. unfold upload_item, upload_price, result_data.
    rewrite Hs, Hd. cbn [pbind py_get py_get_default]. rewrite Ha, Ht, Hf.
    reflexivity.
  - unfold create_simplified_json. rewrite simplified_entries_app.
    destruct (simplified_entries_spec pre Hpre []) as (entries & -> & _).
    cbn [pbind simplified_entries]. unfold simplified_entry, result_data.
    rewrite Hs, Hd. cbn [pbind py_get py_get_default]. rewrite Ha, Ht, Hf.
    reflexivity.
Qed.

End ExportRoundTrip.

Section ExportRoundTripExamples.
#[local] Existing Instance example_runtime.

Lemma upload_type_code_round_trip_witness :
  [ "    <ITEM>"; "        <CATEGORY></CATEGORY>"; "        <COLOR>0</COLOR>";
    "        <PRICE>11.50</PRICE>"; "        <QTY>2</QTY>";
    "        <BULK>1</BULK>"; "        <DESCRIPTION></DESCRIPTION>";
    "        <CONDITION>U</CONDITION>"; "        <ITEMTYPE>S</ITEMTYPE>";
    "        <ITEMID>75192-1</ITEMID>"; "    </ITEM>" ] !! 8%nat
  = Some ("        <ITEMTYPE>" +:+ "S" +:+ "</ITEMTYPE>").
Proof.
  apply (proj1 (upload_type_code_round_trip (float_of_Z 15)
                  (success_with_avg "10.00" "75192-1" "SET" (Some "U") (Some 2))
                  _ eq_refl) "S").
  vm_compute. reflexivity.
Defined.


Lemma exports_abort_on_bad_price_witness :
  create_bricklink_upload_xml
    ([success_with_avg "10.00" "sw0001" "MINIFIG" (Some "U") (Some 2)]
     ++ success_with_avg "n/a" "sw0002" "MINIFIG" (Some "U") (Some 1) :: [])
    (float_of_Z 10)
  = Raised (exn ValueError "could not convert string to float: 'n/a'") /\
  create_simplified_json
    ([success_with_avg "10.00" "sw0001" "MINIFIG" (Some "U") (Some 2)]
     ++ success_with_avg "n/a" "sw0002" "MINIFIG" (Some "U") (Some 1) :: [])
  = Raised (exn ValueError "could not convert string to float: 'n/a'").
Proof.
  apply (exports_abort_on_bad_price
           [success_with_avg "10.00" "sw0001" "MINIFIG" (Some "U") (Some 2)] []
           (success_with_avg "n/a" "sw0002" "MINIFIG" (Some "U") (Some 1))
           (float_of_Z 10) [("avg_price", JStr "n/a")] (JStr "n/a")).
  - constructor; [|constructor]. split.
    + apply (success_with_avg_priced _ _ _ _ _ (dyadic 10 0)).
      vm_compute. reflexivity.
    + intros _. eexists. reflexivity.
  - reflexivity.
  - reflexivity.
  - reflexivity.
  - reflexivity.
  - vm_compute. reflexivity.
Defined.
End ExportRoundTripExamples.

(** ** Price client: what a failure reports *)

Section ClientFailures.
Variable World : Type.
Variable session_get : World -> string -> Params -> PyResult Response * World.
Variable py_repr : JSON -> string.

(** An exception of the transport becomes a failure result for the
    requested item.  Without a response on the exception the error is the
    text of the exception and the status code is [None]; with a response,
    the status code is the one of the response and the error is the
    [message] of the [meta] object of its body (the text of the exception
    when [meta] has no message), or the line "HTTP <status>: <body>" when
    the body does not decode. *)
Theorem transport_failure_report (w : World) (item_id item_type : string)
    (condition : option string) (e : PyExn) :
  fst (session_get w (price_url item_type item_id) (price_params condition))
  = Raised e ->
  exists error code,
    fst (get_item_price World session_get py_repr w item_id item_type condition)
    = Returned (Result.mk false item_id item_type None None (Some error)
                          (Some code) None) /\
    ((exn_response e = None \/ exn_response e = Some None) ->
     error = JStr (exn_msg e) /\ code = None) /\
    (forall response,
       exn_response e = Some (Some response) ->
       code = Some (status_code response) /\
       (forall msg, json response = inl msg ->
          error = JStr ("HTTP " +:+ pretty (status_code response) +:+ ": "
                        +:+ text response)) /\
       (forall body meta,
          json response = inr (JObj body) ->
          assoc "meta" body = Some (JObj meta) ->
          error = default (JStr (exn_msg e)) (assoc "message" meta))).
Proof.
  intros Hget. unfold get_item_price.
  destruct (session_get w (price_url item_type item_id) (price_params condition))
    as [answer w'].
  cbn [fst] in Hget. subst answer. cbn [pbind fst].
  unfold handle_exception. do 2 eexists. split; [reflexivity|]. split.
  - intros [-> | ->]; split; reflexivity.
  - intros response ->. split; [reflexivity|]. split.
    + intros msg Hj. unfold handler_message, response_json. now rewrite Hj.
    + intros body meta Hj Hm. unfold handler_message, response_json.
      rewrite Hj. cbn [pbind py_get_default]. rewrite Hm.
      cbn [pbind py_get_default].
      destruct (assoc "message" meta); reflexivity.
Qed.

(** An answer whose body is an object whose metadata (an empty object
    when the body has none) carries a code other than 200, or no code,
    becomes a failure result with the HTTP status of the response.  Its
    error is the message followed by a tail: the message reads "Unknown
    error" when the metadata has none, and the tail is " - " and the
    description when there is one that is not empty, and empty
    otherwise. *)
Theorem api_failure_report (w : World) (item_id item_type : string)
    (condition : option string) (response : Response)
    (body meta : list (string * JSON)) :
  fst (session_get w (price_url item_type item_id) (price_params condition))
  = Returned response ->
  json response = inr (JObj body) ->
  default (JObj []) (assoc "meta" body) = JObj meta ->
  eq_200 (default JNull (assoc "code" meta)) = false ->
  exists message tail,
    fst (get_item_price World session_get py_repr w item_id item_type condition)
    = Returned (Result.mk false item_id item_type None None
                  (Some (JStr (message +:+ tail)))
                  (Some (Some (status_code response))) None) /\
    (assoc "message" meta = None -> message = "Unknown error") /\
    (forall m, assoc "message" meta = Some (JStr m) -> message = m) /\
    (forall v, assoc "message" meta = Some v -> message = py_str py_repr v) /\
    (assoc "description" meta = None -> tail = "") /\
    (forall d, assoc "description" meta = Some (JStr d) ->
               tail = if String.eqb d "" then "" else " - " +:+ d) /\
    (forall v, assoc "description" meta = Some v ->
               tail = if truthy v then " - " +:+ py_str py_repr v else "").
Proof.
  intros Hget Hj Hm Hc. unfold get_item_price.
  destruct (session_get w (price_url item_type item_id) (price_params condition))
    as [answer w'].
  cbn [fst] in Hget. subst answer. cbn [pbind fst].
  unfold read_response, response_json. rewrite Hj.
  cbn [pbind py_get py_get_default].
  change (match assoc "meta" body with Some v => v | None => JObj [] end)
    with (default (JObj []) (assoc "meta" body)).
  rewrite Hm. cbn [pbind py_get py_get_default].
  change (match assoc "code" meta with Some v => v | None => JNull end)
    with (default JNull (assoc "code" meta)).
  rewrite Hc. cbn [pbind].
  do 2 eexists. split; [reflexivity|].
  repeat split.
  - now intros ->.
  - now intros m ->.
  - now intros v ->.
  - now intros ->.
  - intros d ->. cbn [truthy py_str]. now destruct (String.eqb d "").
  - now intros v ->.
Qed.
End ClientFailures.

Lemma transport_failure_report_witness :
  exists error code,
    fst (get_item_price unit
           (fun w _ _ => (Raised (exn OtherException "Connection refused"), w))
           example_repr tt "sw0001" "MINIFIG" (Some "N"))
    = Returned (Result.mk false "sw0001" "MINIFIG" None None (Some error)
                          (Some code) None) /\
    ((exn_response (exn OtherException "Connection refused") = None \/
      exn_response (exn OtherException "Connection refused") = Some None) ->
     error = JStr "Connection refused" /\ code = None) /\
    (forall response,
       exn_response (exn OtherException "Connection refused")
       = Some (Some response) ->
       code = Some (status_code response) /\
       (forall msg, json response = inl msg ->
          error = JStr ("HTTP " +:+ pretty (status_code response) +:+ ": "
                        +:+ text response)) /\
       (forall body meta,
          json response = inr (JObj body) ->
          assoc "meta" body = Some (JObj meta) ->
          error = default (JStr "Connection refused") (assoc "message" meta))).
Proof.
  apply (transport_failure_report unit
           (fun w _ _ => (Raised (exn OtherException "Connection refused"), w))
           example_repr tt "sw0001" "MINIFIG" (Some "N")
           (exn OtherException "Connection refused")).
  reflexivity.
Defined.

Lemma api_failure_report_witness :
  exists message tail,
    fst (get_item_price nat failing_service example_repr 0%nat
           "sw0002" "MINIFIG" (Some "N"))
    = Returned (Result.mk false "sw0002" "MINIFIG" None None
                  (Some (JStr (message +:+ tail)))
                  (Some (Some 404)) None) /\
    (assoc "message"
           [("description", JStr "No item found");
            ("message", JStr "RESOURCE_NOT_FOUND"); ("code", JInt 404)] = None ->
     message = "Unknown error") /\
    (forall m,
       assoc "message"
             [("description", JStr "No item found");
              ("message", JStr "RESOURCE_NOT_FOUND"); ("code", JInt 404)]
       = Some (JStr m) -> message = m) /\
    (forall v,
       assoc "message"
             [("description", JStr "No item found");
              ("message", JStr "RESOURCE_NOT_FOUND"); ("code", JInt 404)]
       = Some v -> message = py_str example_repr v) /\
    (assoc "description"
           [("description", JStr "No item found");
            ("message", JStr "RESOURCE_NOT_FOUND"); ("code", JInt 404)] = None ->
     tail = "") /\
    (forall d,
       assoc "description"
             [("description", JStr "No item found");
              ("message", JStr "RESOURCE_NOT_FOUND"); ("code", JInt 404)]
       = Some (JStr d) -> tail = if String.eqb d "" then "" else " - " +:+ d) /\
    (forall v,
       assoc "description"
             [("description", JStr "No item found");
              ("message", JStr "RESOURCE_NOT_FOUND"); ("code", JInt 404)]
       = Some v -> tail = if truthy v then " - " +:+ py_str example_repr v else "").
Proof.
  apply (api_failure_report nat failing_service example_repr 0%nat
           "sw0002" "MINIFIG" (Some "N")
           (mkResponse 404 ""
              (inr (JObj [("meta", JObj [("description", JStr "No item found");
                                         ("message", JStr "RESOURCE_NOT_FOUND");
                                         ("code", JInt 404)])])))
           [("meta", JObj [("description", JStr "No item found");
                           ("message", JStr "RESOURCE_NOT_FOUND");
                           ("code", JInt 404)])]
           [("description", JStr "No item found");
            ("message", JStr "RESOURCE_NOT_FOUND"); ("code", JInt 404)]);
    reflexivity.
Defined.

(** ** Console summary *)

Section SummaryProperties.
Context `{RT : PyRuntime}.
Variable py_repr : JSON -> string.

Lemma join_head_nonempty (sep : string) (c : ascii) (s : string)
    (rest : list string) :
  join sep (String c s :: rest) <> "".
Proof. destruct rest; cbn; discriminate. Qed.

Lemma format_price_data_cases (items : list (string * JSON)) :
  items <> [] ->
  match gt_1 (default (JInt 1) (assoc "unit_quantity" items)) with
  | Raised e => format_price_data py_repr (JObj items) = Raised e
  | Returned _ =>
      exists info,
        format_price_data py_repr (JObj items) = Returned info /\ info <> ""
  end.
Proof.
  intros Hne. unfold format_price_data.
  assert (Ht : truthy (JObj items) = true) by (destruct items; [congruence | reflexivity]).
  rewrite Ht. cbn [negb pbind py_get py_get_default].
  change (match assoc "unit_quantity" items with Some v => v | None => JInt 1 end)
    with (default (JInt 1) (assoc "unit_quantity" items)).
  destruct (gt_1 (default (JInt 1) (assoc "unit_quantity" items))) as [more|e];
    cbn [pbind]; [|reflexivity].
  eexists. split; [reflexivity|].
  destruct (truthy (match assoc "avg_price" items with Some v => v | None => JNull end));
    destruct (truthy (match assoc "min_price" items with Some v => v | None => JNull end)
              && truthy (match assoc "max_price" items with Some v => v | None => JNull end));
    destruct (truthy (match assoc "qty_avg_price" items with Some v => v | None => JNull end));
    destruct more; cbn [app]; try apply join_head_nonempty; discriminate.
Qed.


(** For pricing data that is a non-empty object, [format_price_data]
    depends on the unit quantity alone for its outcome: when the unit
    quantity does not compare with 1 (a text, [null], a list, an object) it
    raises that [TypeError]; otherwise it returns a text, and never the
    empty one. *)
Theorem format_price_data_outcome (items : list (string * JSON)) :
  items <> [] ->
  match gt_1 (default (JInt 1) (assoc "unit_quantity" items)) with
  | Raised e => format_price_data py_repr (JObj items) = Raised e
  | Returned _ =>
      exists info,
        format_price_data py_repr (JObj items) = Returned info /\ info <> ""
  end.
Proof. apply format_price_data_cases. Qed.

Lemma format_price_data_returns (items : list (string * JSON)) (more : bool) :
  gt_1 (default (JInt 1) (assoc "unit_quantity" items)) = Returned more ->
  exists info, format_price_data py_repr (JObj items) = Returned info.
Proof.
  intros Hm. destruct items as [|p items'] eqn:Ei; [eexists; reflexivity|].
  pose proof (format_price_data_cases (p :: items')) as H.
  rewrite Hm in H. destruct H as (info & E & _); [discriminate|]. eauto.
Qed.

Lemma add_to_total_returns (total : float) (avg : JSON) (q : Z) :
  float_sized q ->
  (forall n, avg = JInt n -> float_sized n) ->
  exists total', add_to_total total avg q = Returned total'.
Proof.
  unfold add_to_total, float_sized. intros Hq Havg.
  destruct avg; cbn [py_float].
  - eexists; reflexivity.
  - destruct (float_of_Z q); eauto; contradiction.
  - specialize (Havg n eq_refl). destruct (float_of_Z n) eqn:En;
      try contradiction; destruct (float_of_Z q); eauto; contradiction.
  - destruct (float_of_Z q); eauto; contradiction.
  - destruct (float_of_string s).
    + destruct (float_of_Z q); eauto; contradiction.
    + eexists; reflexivity.
  - eexists; reflexivity.
  - eexists; reflexivity.
Qed.

Lemma summary_rows_returns (successful : list Result.t) :
  Forall (fun r => Result.success r = true /\ summarizable r) successful ->
  forall out total,
  exists out' total',
    summary_rows py_repr successful out total = (out', Returned total').
Proof.
  induction 1 as [|r rest [Hs Hr] _ IH]; intros out total; [cbn; eauto|].
  unfold summarizable in Hr. rewrite Hs in Hr.
  destruct Hr as (c & items & Hc & Hd & [more Hm] & Hq & Havg).
  cbn [summary_rows]. unfold summary_row, summary_value, result_condition,
    result_data.
  rewrite Hc, Hd. cbn [pbind].
  destruct (format_price_data_returns items more Hm) as [info ->].
  cbn [pbind format_condition py_get py_get_default].
  destruct (truthy _).
  - destruct (add_to_total_returns total
                (match assoc "avg_price" items with Some v => v | None => JNull end)
                (default 1 (Result.quantity r)) Hq) as [total' ->].
    { intros n Hn. apply Havg. destruct (assoc "avg_price" items); congruence. }
    apply IH.
  - apply IH.
Qed.

Lemma summary_failures_returns (failed : list Result.t) :
  Forall (fun r => is_Some (Result.error r)) failed ->
  forall out,
  exists out', summary_failures py_repr failed out = (out', Returned tt).
Proof.
  induction 1 as [|r rest [m Hm] _ IH]; intros out; [cbn; eauto|].
  cbn [summary_failures]. unfold result_error. rewrite Hm. apply IH.
Qed.

(** The summary prints without raising for every list of results that are
    summarizable; an average price that is text which [float] rejects does
    not stop it. *)
Theorem print_price_summary_returns (results : list Result.t) :
  Forall summarizable results ->
  snd (print_price_summary py_repr results) = Returned tt.
Proof.
  intros H. unfold print_price_summary.
  assert (Hsucc : Forall (fun r => Result.success r = true /\ summarizable r)
                         (List.filter Result.success results)).
  { apply Forall_forall. intros r Hr. apply list_elem_of_In, filter_In in Hr.
    destruct Hr as [Hin Hs]. split; [exact Hs|].
    rewrite Forall_forall in H. apply H, list_elem_of_In, Hin. }
  assert (Hfail : Forall (fun r => is_Some (Result.error r))
                         (List.filter (fun r => negb (Result.success r)) results)).
  { apply Forall_forall. intros r Hr. apply list_elem_of_In, filter_In in Hr.
    destruct Hr as [Hin Hs]. rewrite Forall_forall in H.
    specialize (H r (proj2 (list_elem_of_In _ _) Hin)).
    unfold summarizable in H. apply negb_true_iff in Hs. now rewrite Hs in H. }
  destruct (List.filter Result.success results) as [|s0 srest] eqn:Es.
  - destruct (List.filter (fun r => negb (Result.success r)) results)
      as [|f0 frest] eqn:Ef; [reflexivity|].
    destruct (summary_failures_returns _ Hfail
                (summary_head 0 (length (f0 :: frest))
                 ++ [newline +:+ "FAILED TO GET PRICES FOR:"])) as [out' E].
    unfold summary_head in E. cbn [app length] in E |- *. now rewrite E.
  - destruct (summary_rows_returns _ Hsucc
                (summary_head (length (s0 :: srest))
                   (length (List.filter (fun r => negb (Result.success r)) results))
                 ++ table_header) (float_of_Z 0)) as (out1 & total & E).
    unfold summary_head in E. cbn [app length] in E |- *. rewrite E.
    destruct (List.filter (fun r => negb (Result.success r)) results)
      as [|f0 frest] eqn:Ef; [reflexivity|].
    destruct (summary_failures_returns _ Hfail
                ((if SFltb (float_of_Z 0) total
                  then out1 ++ [newline +:+ "Estimated Total Collection Value: $"
                                +:+ format_2f total]
                  else out1)
                 ++ [newline +:+ "FAILED TO GET PRICES FOR:"])) as [out' E'].
    now rewrite E'.
Qed.
End SummaryProperties.

Section SummaryExamples.
#[local] Existing Instance example_runtime.

Lemma format_price_data_outcome_witness :
  format_price_data example_repr
    (JObj [("avg_price", JStr "10.00"); ("unit_quantity", JStr "1")])
  = Raised (exn TypeError "'>' not supported between instances of 'str' and 'int'").
Proof.
  apply (format_price_data_outcome example_repr
           [("avg_price", JStr "10.00"); ("unit_quantity", JStr "1")]).
  discriminate.
Defined.


Lemma print_price_summary_returns_witness :
  snd (print_price_summary example_repr
         [success_with_avg "n/a" "sw0001" "MINIFIG" (Some "U") (Some 2);
          Result.mk false "sw0002" "MINIFIG" None None
                    (Some (JStr "RESOURCE_NOT_FOUND - No item found"))
                    (Some (Some 404)) (Some 1)])
  = Returned tt.
Proof.
  apply (print_price_summary_returns example_repr).
  constructor; [|constructor; [|constructor]].
  - exists "U", [("avg_price", JStr "n/a")].
    split; [reflexivity|]. split; [reflexivity|]. split; [eexists; reflexivity|].
    split; [exact I | discriminate].
  - eexists. reflexivity.
Defined.

End SummaryExamples.

Section SummaryOutput.
Context `{RT : PyRuntime}.
Variable py_repr : JSON -> string.

Lemma summary_rows_prefix (successful : list Result.t) :
  forall out total,
  exists more, fst (summary_rows py_repr successful out total) = out ++ more.
Proof.
  induction successful as [|r rest IH]; intros out total; cbn [summary_rows].
  - exists []. now rewrite app_nil_r.
  - destruct (summary_row py_repr r) as [line|e].
    + destruct (summary_value total r) as [total'|e].
      * destruct (IH (out ++ [line]) total') as [more ->].
        exists (line :: more). now rewrite <- app_assoc.
      * exists [line]. reflexivity.
    + exists []. now rewrite app_nil_r.
Qed.

Lemma summary_failures_prefix (failed : list Result.t) :
  forall out,
  exists more, fst (summary_failures py_repr failed out) = out ++ more.
Proof.
  induction failed as [|r rest IH]; intros out; cbn [summary_failures].
  - exists []. now rewrite app_nil_r.
  - destruct (result_error r) as [m|e].
    + destruct (IH (out ++ ["  " +:+ Result.itemid r +:+ ": " +:+ py_str py_repr m]))
        as [more ->].
      eexists. now rewrite <- app_assoc.
    + exists []. now rewrite app_nil_r.
Qed.

Lemma filter_partition_length {A} (f : A -> bool) (l : list A) :
  (length (List.filter f l) + length (List.filter (fun x => negb (f x)) l)
   = length l)%nat.
Proof.
  induction l as [|x l IH]; [reflexivity|]. cbn [List.filter].
  destruct (f x); cbn [negb length]; lia.
Qed.

(** Whatever the results are, and even when it raises later, the summary
    starts with its six head lines, and the two counts they show add up to
    the number of results. *)
Theorem print_price_summary_counts (results : list Result.t) :
  exists successes failures rest,
    fst (print_price_summary py_repr results)
    = summary_head successes failures ++ rest /\
    (successes + failures = length results)%nat.
Proof.
  exists (length (List.filter Result.success results)),
         (length (List.filter (fun r => negb (Result.success r)) results)).
  pose proof (filter_partition_length Result.success results) as Hlen.
  unfold print_price_summary.
  set (head := summary_head (length (List.filter Result.success results))
                 (length (List.filter (fun r => negb (Result.success r)) results))).
  change [ newline +:+ bar; "PRICE SUMMARY"; bar;
           "Successfully retrieved: "
           +:+ pretty (Z.of_nat (length (List.filter Result.success results)))
           +:+ " prices";
           "Failed: "
           +:+ pretty (Z.of_nat (length (List.filter
                                           (fun r => negb (Result.success r))
                                           results)))
           +:+ " items";
           bar ] with head.
  assert (Htable :
    exists more r,
      (match List.filter Result.success results with
       | [] => (head, Returned tt)
       | _ :: _ =>
           match summary_rows py_repr (List.filter Result.success results)
                              (head ++ table_header) (float_of_Z 0) with
           | (out, Raised e) => (out, Raised e)
           | (out, Returned total) =>
               (if SFltb (float_of_Z 0) total
                then out ++ [newline +:+ "Estimated Total Collection Value: $"
                             +:+ format_2f total]
                else out, Returned tt)
           end
       end) = (head ++ more, r)).
  { destruct (List.filter Result.success results) as [|s0 srest].
    - exists [], (Returned tt). now rewrite app_nil_r.
    - destruct (summary_rows_prefix (s0 :: srest) (head ++ table_header)
                                    (float_of_Z 0)) as [more Hm].
      destruct (summary_rows py_repr (s0 :: srest) (head ++ table_header)
                             (float_of_Z 0)) as [out [total|e]];
        cbn [fst] in Hm; subst out.
      + destruct (SFltb (float_of_Z 0) total); eexists; eexists;
          rewrite <- ?app_assoc; reflexivity.
      + eexists; eexists. rewrite <- app_assoc. reflexivity. }
  destruct Htable as (more & r & ->).
  destruct r as [[]|e].
  - destruct (List.filter (fun r => negb (Result.success r)) results)
      as [|f0 frest].
    + exists more. split; [reflexivity | exact Hlen].
    + destruct (summary_failures_prefix (f0 :: frest)
                  ((head ++ more) ++ [newline +:+ "FAILED TO GET PRICES FOR:"]))
        as [more' ->].
      eexists. rewrite <- !app_assoc. split; [reflexivity | exact Hlen].
  - exists more. split; [reflexivity | exact Hlen].
Qed.

Lemma filter_failures_nil (pre : list Result.t) :
  Forall (fun r => Result.success r = false) pre ->
  List.filter Result.success pre = [].
Proof.
  induction 1 as [|r pre Hr _ IH]; [reflexivity|].
  cbn [List.filter]. now rewrite Hr.
Qed.

(** A successful result whose condition is [None] (the Line Item had an
    empty condition element) makes the summary raise a [TypeError] when it
    formats the row: if it is the first successful result, the summary
    stops after the head of the table, without a row, a total or the list
    of failures. *)
Theorem print_price_summary_none_condition (pre post : list Result.t)
    (r : Result.t) (d : JSON) (info : string) :
  Forall (fun x => Result.success x = false) pre ->
  Result.success r = true ->
  Result.condition r = Some None ->
  Result.data r = Some d ->
  format_price_data py_repr d = Returned info ->
  exists successes failures,
    print_price_summary py_repr (pre ++ r :: post)
    = (summary_head successes failures ++ table_header,
       Raised (exn TypeError
                 "unsupported format string passed to NoneType.__format__")).
Proof.
  intros Hpre Hs Hc Hd Hinfo. unfold print_price_summary.
  rewrite (List.filter_app Result.success), (filter_failures_nil pre Hpre).
  cbn [app List.filter]. rewrite Hs.
  cbn [summary_rows]. unfold summary_row, result_condition, result_data.
  rewrite Hc, Hd. cbn [pbind]. rewrite Hinfo. cbn [pbind format_condition].
  do 2 eexists. reflexivity.
Qed.
End SummaryOutput.

Section SummaryOutputExamples.
#[local] Existing Instance example_runtime.

Lemma print_price_summary_none_condition_witness :
  exists successes failures,
    print_price_summary example_repr
      ([Result.mk false "sw0002" "MINIFIG" None None
                  (Some (JStr "RESOURCE_NOT_FOUND - No item found"))
                  (Some (Some 404)) (Some 1)]
       ++ Result.mk true "sw0001" "MINIFIG" (Some None)
                    (Some (JObj [("avg_price", JStr "10.00")])) None None (Some 2)
       :: [])
    = (summary_head successes failures ++ table_header,
       Raised (exn TypeError
                 "unsupported format string passed to NoneType.__format__")).
Proof.
  apply (print_price_summary_none_condition example_repr
           [Result.mk false "sw0002" "MINIFIG" None None
                      (Some (JStr "RESOURCE_NOT_FOUND - No item found"))
                      (Some (Some 404)) (Some 1)] []
           (Result.mk true "sw0001" "MINIFIG" (Some None)
                      (Some (JObj [("avg_price", JStr "10.00")])) None None (Some 2))
           (JObj [("avg_price", JStr "10.00")]) "Average: $10.00").
  - constructor; [reflexivity | constructor].
  - reflexivity.
  - reflexivity.
  - reflexivity.
  - reflexivity.
Defined.
End SummaryOutputExamples.

(** ** Client construction and export file names *)

(** The client is only constructed with all four credentials: when one of
    the four environment variables is unset or empty the constructor
    raises the [ValueError] with the setup text, and when it returns, the
    keys it holds are the values of the four variables, none of them
    empty. *)
Theorem BricklinkAPI_init_needs_credentials (getenv : string -> option string) :
  (forall name, name ∈ credential_names ->
     getenv name = None \/ getenv name = Some "" ->
     BricklinkAPI_init getenv = Raised (exn ValueError missing_credentials_message))
  /\
  (forall creds,
     BricklinkAPI_init getenv = Returned creds ->
     map getenv credential_names
     = map Some [consumer_key creds; consumer_secret creds;
                 token_key creds; token_secret creds] /\
     Forall (fun key => key <> "")
            [consumer_key creds; consumer_secret creds;
             token_key creds; token_secret creds]).
Proof.
  unfold BricklinkAPI_init, credential_names. cbn [forallb map]. split.
  - intros name Hin Hmiss.
    assert (Hfalse : truthy_str (getenv name) = false)
      by (destruct Hmiss as [-> | ->]; reflexivity).
    rewrite !elem_of_cons, elem_of_nil in Hin.
    destruct Hin as [-> | [-> | [-> | [-> | []]]]]; rewrite Hfalse;
      rewrite ?andb_false_r; reflexivity.
  - intros creds.
    destruct (getenv "BRICKLINK_CONSUMER_KEY") as [a|]; [|discriminate].
    destruct (getenv "BRICKLINK_CONSUMER_SECRET") as [b|];
      [|rewrite ?andb_false_r; discriminate].
    destruct (getenv "BRICKLINK_TOKEN_KEY") as [c|];
      [|rewrite ?andb_false_r; cbn; rewrite ?andb_false_r; discriminate].
    destruct (getenv "BRICKLINK_TOKEN_SECRET") as [d|];
      [|cbn; rewrite ?andb_false_r; discriminate].
    cbn [truthy_str str_of].
    destruct (String.eqb_spec a ""), (String.eqb_spec b ""),
             (String.eqb_spec c ""), (String.eqb_spec d "");
      cbn; try discriminate.
    intros [= <-]. cbn. split; [reflexivity|]. repeat constructor; assumption.
Qed.

Lemma BricklinkAPI_init_needs_credentials_witness :
  BricklinkAPI_init
    (fun name => if String.eqb name "BRICKLINK_TOKEN_SECRET" then Some ""
                 else Some "0123456789ABCDEF")
  = Raised (exn ValueError missing_credentials_message).
Proof.
  apply (proj1 (BricklinkAPI_init_needs_credentials
                  (fun name => if String.eqb name "BRICKLINK_TOKEN_SECRET"
                               then Some "" else Some "0123456789ABCDEF"))
           "BRICKLINK_TOKEN_SECRET").
  - vm_compute. repeat constructor.
  - right. reflexivity.
Defined.

Lemma string_of_list_ascii_app (a b : list ascii) :
  string_of_list_ascii (a ++ b)
  = string_of_list_ascii a +:+ string_of_list_ascii b.
Proof. induction a as [|c a IH]; cbn; [reflexivity | now rewrite IH]. Qed.

Lemma before_last_dot_spec (l : list ascii) :
  match before_last_dot l with
  | None => ~ In "."%char l
  | Some head =>
      exists ext, l = ext ++ "."%char :: rev head /\ ~ In "."%char ext
  end.
Proof.
  induction l as [|c l IH]; cbn [before_last_dot]; [intros []|].
  destruct (Ascii.eqb_spec c ".") as [-> | Hc].
  - exists []. rewrite rev_involutive. split; [reflexivity | intros []].
  - destruct (before_last_dot l) as [head|].
    + destruct IH as (ext & -> & Hext). exists (c :: ext).
      split; [reflexivity|]. intros [H | H]; [now apply Hc | now apply Hext].
    + intros [H | H]; [now apply Hc | now apply IH].
Qed.

(** The export name is cut at its last dot, wherever that dot is: a name
    without a dot is the base name of the three files, and a name with a
    dot is its base name, a dot and a rest without a dot (so that a dot in
    a directory part cuts the path there).  The three file names differ
    from each other. *)
Theorem export_files_base_name (name : string) :
  (~ has_dot name -> rsplit_dot_head name = name) /\
  (has_dot name ->
   exists ext, name = rsplit_dot_head name +:+ "." +:+ ext /\ ~ has_dot ext) /\
  (let '(xml_file, json_file, detailed_file) := export_files name in
   xml_file = rsplit_dot_head name +:+ ".xml" /\
   xml_file <> json_file /\ xml_file <> detailed_file /\
   json_file <> detailed_file).
Proof.
  unfold has_dot, rsplit_dot_head.
  pose proof (before_last_dot_spec (rev (list_ascii_of_string name))) as H.
  split; [|split].
  - intros Hno. destruct (before_last_dot _) as [head|]; [|reflexivity].
    destruct H as (ext & E & _). exfalso. apply Hno.
    apply in_rev. rewrite E. apply in_or_app. right. now left.
  - intros Hdot. destruct (before_last_dot _) as [head|].
    + destruct H as (ext & E & Hext).
      exists (string_of_list_ascii (rev ext)).
      rewrite list_ascii_of_string_of_list_ascii. split.
      * rewrite <- (string_of_list_ascii_of_string name).
        rewrite <- (rev_involutive (list_ascii_of_string name)), E.
        rewrite rev_app_distr. cbn [rev]. rewrite rev_involutive, <- app_assoc.
        rewrite string_of_list_ascii_app. reflexivity.
      * intros Hin. apply Hext. now apply in_rev.
    + exfalso. apply H. now apply in_rev in Hdot.
  - unfold export_files, rsplit_dot_head. cbv zeta.
    split; [reflexivity|].
    repeat split; intros E; apply (f_equal String.length) in E;
      rewrite !length_append in E; cbn in E; lia.
Qed.

Lemma export_files_base_name_witness :
  exists ext,
    "out.dir/prices" = rsplit_dot_head "out.dir/prices" +:+ "." +:+ ext /\
    ~ has_dot ext.
Proof.
  apply (proj1 (proj2 (export_files_base_name "out.dir/prices"))).
  vm_compute. do 3 right. left. reflexivity.
Defined.
